(** * oobabot: the Discord response orchestrator ([src/oobabot/discord_bot.py])

    A shallow embedding of [discord_bot.py].  Pure helpers
    ([sanitize_string], [discord_message_to_generic_message], the history
    assembler) are plain functions.  The coroutines of [DiscordBot] are
    computations in a state-and-exception monad [M]: the state holds the
    bot object ([self]), a store of message objects (Python passes the
    normalised message by reference and mutates it in place), the tasks
    that were spawned, and the chronological trace of every call made on a
    collaborator or on the platform.  What the collaborators and the
    platform answer is given by an environment [Env] whose answers may
    depend on the whole trace so far. *)

From Stdlib Require Import String Ascii ZArith List Bool Arith Lia.
From Stdlib Require Import DecimalString.
From stdpp Require Import gmap.
Import ListNotations.

Set Warnings "-register-all".

Local Open Scope string_scope.
Local Open Scope list_scope.

(** ** Strings *)

Module Str.

(** Python's [str.endswith]. *)
Definition endswith (s suffix : string) : bool :=
  let n := String.length s in
  let k := String.length suffix in
  (k <=? n)%nat && String.eqb (substring (n - k) k s) suffix.

(** The double-quote character used inside the log texts. *)
Definition dquote : string := String (ascii_of_nat 34) EmptyString.

(** The tail of the two banners printed under [log_all_the_things]:
    a line break, ten dashes, a line break. *)
Definition rule : string :=
  String (ascii_of_nat 10) ("----------" ++ String (ascii_of_nat 10) "").

(** Python's [str(n)] for an integer. *)
Definition of_Z (n : Z) : string := NilZero.string_of_int (Z.to_int n).

(** Python's [", ".join(words)]. *)
Fixpoint join (sep : string) (words : list string) : string :=
  match words with
  | [] => ""
  | [w] => w
  | w :: rest => w ++ sep ++ join sep rest
  end.

(** Number of occurrences of a character. *)
Fixpoint count (c : ascii) (s : string) : nat :=
  match s with
  | EmptyString => 0
  | String d r => (if Ascii.eqb c d then 1 else 0) + count c r
  end.

End Str.

(** ** Sanitisation (lines 21-29) *)

Definition newline : ascii := ascii_of_nat 10.
Definition carriage_return : ascii := ascii_of_nat 13.
Definition tab : ascii := ascii_of_nat 9.
Definition space : ascii := ascii_of_nat 32.

(** [FORBIDDEN_CHARACTERS = r"[\n\r\t]"]: the character class, as a test
    on one character. *)
Definition FORBIDDEN_CHARACTERS (c : ascii) : bool :=
  Ascii.eqb c newline || Ascii.eqb c carriage_return || Ascii.eqb c tab.

(** [FORBIDDEN_CHARACTERS_PATTERN.sub(" ", raw_string)]: every match of
    the class is one character long, so the substitution rewrites the
    string character by character. *)
Fixpoint sanitize_string (raw_string : string) : string :=
  match raw_string with
  | EmptyString => EmptyString
  | String c rest =>
      String (if FORBIDDEN_CHARACTERS c then space else c)
             (sanitize_string rest)
  end.

(** ** The platform's data (the parts of discord.py the bot touches) *)

Definition timestamp := Z.

Inductive ChannelType :=
| DMChannel
| TextChannel
| GroupChannel
| Thread
| OtherChannel.

Record Channel := mkChannel {
  channel_type : ChannelType;
  channel_id : Z;
  channel_name : string
}.

(** [raw_message.author] is a [discord.User] or, in a guild, a
    [discord.Member]. *)
Inductive AuthorType := User | Member.

Record Author := mkAuthor {
  author_type : AuthorType;
  user_id : Z;
  user_name : string;
  user_bot : bool
}.

Record Permissions := mkPermissions {
  create_public_threads : bool
}.

(** What [reference.resolved] holds when it is not [None]: a message or
    a [DeletedReferencedMessage]. *)
Inductive Resolved (Message : Type) :=
| ResolvedMessage (m : Message)
| DeletedReferencedMessage.
Arguments ResolvedMessage {Message} m.
Arguments DeletedReferencedMessage {Message}.

Record MessageReference (Message : Type) := mkMessageReference {
  resolved : option (Resolved Message)
}.
Arguments mkMessageReference {Message} resolved.
Arguments resolved {Message} m.

(** A [discord.Message]. *)
Inductive RawMessage := mkRawMessage {
  raw_id : Z;
  raw_author : Author;
  raw_content : string;
  raw_created_at : timestamp;
  raw_channel : Channel;
  raw_mentions : list Author;
  raw_reference : option (MessageReference RawMessage)
}.

(** ** The generic messages ([oobabot.types]) *)

(** Modelled from the spec: [oobabot.types] is not part of the sources
    at hand.  The fields are the keyword arguments the normaliser passes
    (lines 36-55); the three shapes are those of section 3 of the
    specification. *)
Record GenericFields := mkGenericFields {
  author_id : Z;
  author_name : string;
  message_id : Z;
  body_text : string;
  author_is_bot : bool;
  send_timestamp : timestamp
}.

Inductive GenericMessage :=
| DirectMessage (g : GenericFields)
| ChannelMessage (g : GenericFields) (channel : Z) (mentions : list Z)
| PlainGenericMessage (g : GenericFields).

Definition generic_fields (m : GenericMessage) : GenericFields :=
  match m with
  | DirectMessage g | ChannelMessage g _ _ | PlainGenericMessage g => g
  end.

Definition is_ChannelMessage (m : GenericMessage) : bool :=
  match m with ChannelMessage _ _ _ => true | _ => false end.

(** [message.channel_id], for the messages that have one. *)
Definition message_channel_id (m : GenericMessage) : option Z :=
  match m with ChannelMessage _ channel _ => Some channel | _ => None end.

(** [message.channel_id = new_id] on a [ChannelMessage]. *)
Definition set_channel_id (new_id : Z) (m : GenericMessage) : GenericMessage :=
  match m with
  | ChannelMessage g _ mentions => ChannelMessage g new_id mentions
  | other => other
  end.

(** ** The normaliser (lines 32-60) *)

Definition generic_args (raw_message : RawMessage) : GenericFields :=
  {| author_id := user_id (raw_author raw_message);
     author_name := sanitize_string (user_name (raw_author raw_message));
     message_id := raw_id raw_message;
     body_text := sanitize_string (raw_content raw_message);
     author_is_bot := user_bot (raw_author raw_message);
     send_timestamp := raw_created_at raw_message |}.

(** The warning logged for an unrecognised channel type is a diagnostic
    only; it is emitted by [normalize] below where the orchestrator calls
    the normaliser. *)
Definition discord_message_to_generic_message (raw_message : RawMessage)
  : GenericMessage :=
  match channel_type (raw_channel raw_message) with
  | DMChannel => DirectMessage (generic_args raw_message)
  | TextChannel | GroupChannel | Thread =>
      ChannelMessage (generic_args raw_message)
                     (channel_id (raw_channel raw_message))
                     (map user_id (raw_mentions raw_message))
  | OtherChannel => PlainGenericMessage (generic_args raw_message)
  end.

(** ** The history assembler (lines 334-362) *)

(** The [async for] of lines 351-354 over a source stream that yields
    [aiter] and is then exhausted: the items yielded, and the final values
    of [items] and [last_returned]. *)
Fixpoint yield_history (aiter : list RawMessage)
    (items : nat) (last_returned : option RawMessage)
  : list GenericMessage * nat * option RawMessage :=
  match aiter with
  | [] => ([], items, last_returned)
  | item :: rest =>
      let '(yielded, items', last_returned') :=
        yield_history rest (items + 1) (Some item) in
      (discord_message_to_generic_message item :: yielded,
       items', last_returned')
  end.

(** Lines 359-362: the referenced message to yield, if any. *)
Definition thread_kickoff_message (last_returned : RawMessage)
  : option RawMessage :=
  match raw_reference last_returned with
  | None => None
  | Some reference =>
      match resolved reference with
      | Some (ResolvedMessage ref) => Some ref
      | Some DeletedReferencedMessage => None
      | None => None
      end
  end.

(** Everything the generator yields, in order, for a source stream that
    yields [aiter] and is then exhausted.  [limit] is a number of
    messages, [prompt_generator.history_lines]. *)
Definition history_plus_thread_kickoff_message
    (aiter : list RawMessage) (limit : nat) : list GenericMessage :=
  let '(yielded, items, last_returned) := yield_history aiter 0 None in
  yielded ++
  match last_returned with
  | Some last_returned =>
      if (items <? limit)%nat then
        match thread_kickoff_message last_returned with
        | Some ref => [discord_message_to_generic_message ref]
        | None => []
        end
      else []
  | None => []
  end.

(** ** Effects *)

(** Any Python exception derived from [Exception]; [what] is [str(err)]. *)
Inductive Exception := Exc (what : string).

Definition str (err : Exception) : string :=
  match err with Exc what => what end.

Inductive Outcome (A : Type) :=
| Return (a : A)
| Raise (err : Exception).
Arguments Return {A} a.
Arguments Raise {A} err.

Inductive LogLevel := Debug | Info | Warning | Error.

(** Modelled from the spec: [oobabot.response_stats] is not part of the
    sources at hand.  The per-request handle that [log_request_arrived]
    returns carries the prompt and the per-response part counter that
    [log_response_part] increments (specification, sections 4.5, 4.6). *)
Record ResponseStats := mkResponseStats {
  stats_prompt : string;
  stats_parts : nat
}.

(** One step of an asynchronous generator. *)
Inductive GenStep :=
| Yield (sentence : string)
| StopAsyncIteration
| Raised (err : Exception).

(** The generation client's answer stream: finitely many sentences, then
    either exhaustion or an exception. *)
Record Generator := mkGenerator {
  sentences : list string;
  failure : option Exception
}.

Inductive RequestKind := as_string | by_sentence.

(** Message objects live in a store; a reference is an index. *)
Definition ref := nat.

(** A task is the coroutine it wraps, as data: the reply coroutine with
    its four arguments, or the image generator's own task. *)
Inductive Task :=
| MessageTask (message : ref) (raw_message : RawMessage)
              (image_requested : bool) (response_channel : Channel)
| ImageTask (id : Z).

(** Every call on a collaborator or on the platform, with the answer it
    got; and the one in-place mutation of a message object. *)
Inductive Event :=
| ELog (level : LogLevel) (text : string)
| EPrint (text : string)
| EShouldReply (ai_user_id : Z) (message : GenericMessage)
               (answer : bool * bool)
| ETypingEnter (channel : Channel)
| ETypingExit (channel : Channel)
| EMaybeGetImagePrompt (raw_message : RawMessage) (answer : option string)
| ECreateThread (raw_message : RawMessage) (name : string)
                (answer : Outcome Z)
| ECreateTask (task : Task)
| EAssignChannelId (message : ref) (new_id : Z)
| ELogMention (message : GenericMessage)
| EGenerateImage (image_prompt : string) (raw_message : RawMessage)
                 (response_channel : Channel) (answer : Outcome Z)
| EWait (tasks : list Task)
| EHistory (channel : Channel) (limit : nat) (answer : list RawMessage)
| EGetThrottleMessageId (channel : Z) (answer : option Z)
| EGenerate (ai_user_id : Z) (message_history : list GenericMessage)
            (image_requested : bool) (throttle_message_id : option Z)
            (answer : Outcome string)
| ELogRequestArrived (prompt : string)
| ERequest (kind : RequestKind) (prompt : string) (answer : Generator)
| ENext (step : GenStep)
| ESend (channel : Channel) (text : string) (answer : Outcome RawMessage)
| ELogMessage (channel : Z) (message : GenericMessage)
| ELogResponsePart
| ELogResponseFailure
| EWriteToLog (prefix : string) (stats : ResponseStats)
| ELogResponseSuccess (stats : ResponseStats).

(** What the collaborators and the platform answer.  Apart from the
    permission lookup, which reads the local cache, an answer may depend
    on everything that happened before the call. *)
Record Env := mkEnv {
  env_should_reply_to_message :
    list Event -> Z -> GenericMessage -> bool * bool;
  env_maybe_get_image_prompt : list Event -> RawMessage -> option string;
  env_permissions_for : Channel -> Author -> Permissions;
  env_create_thread : list Event -> RawMessage -> string -> Outcome Z;
  env_channel_messages : list Event -> Channel -> list RawMessage;
  env_get_throttle_message_id : list Event -> Z -> option Z;
  env_generate :
    list Event -> Z -> list GenericMessage -> bool -> option Z ->
    Outcome string;
  env_request_as_string : list Event -> string -> Generator;
  env_request_by_sentence : list Event -> string -> Generator;
  env_send : list Event -> Channel -> string -> Outcome RawMessage;
  env_generate_image :
    list Event -> string -> RawMessage -> Channel -> Outcome Z
}.

(** ** The bot object *)

(** The attributes of the collaborators that the bot reads. *)
Record PromptGenerator := mkPromptGenerator {
  history_lines : nat;
  bot_prompt_line : string
}.

Record DecideToRespond := mkDecideToRespond {
  wakewords : list string
}.

Record DiscordBot := mkDiscordBot {
  decide_to_respond : DecideToRespond;
  prompt_generator : PromptGenerator;
  ai_name : string;
  persona : string;
  ai_user_id : Z;
  image_generator : option unit;
  ignore_dms : bool;
  dont_split_responses : bool;
  reply_in_thread : bool;
  log_all_the_things : bool;
  channel_last_direct_response : gmap Z timestamp
}.

(** [DiscordBot.__init__] (lines 67-104). *)
Definition __init__
    (decide_to_respond : DecideToRespond)
    (prompt_generator : PromptGenerator)
    (image_generator : option unit)
    (ai_name persona : string)
    (ignore_dms dont_split_responses reply_in_thread log_all_the_things : bool)
  : DiscordBot :=
  {| decide_to_respond := decide_to_respond;
     prompt_generator := prompt_generator;
     ai_name := ai_name;
     persona := persona;
     ai_user_id := -1;
     image_generator := image_generator;
     ignore_dms := ignore_dms;
     dont_split_responses := dont_split_responses;
     reply_in_thread := reply_in_thread;
     log_all_the_things := log_all_the_things;
     channel_last_direct_response := ∅ |}.

Definition set_ai_user_id (id : Z) (bot : DiscordBot) : DiscordBot :=
  {| decide_to_respond := decide_to_respond bot;
     prompt_generator := prompt_generator bot;
     ai_name := ai_name bot;
     persona := persona bot;
     ai_user_id := id;
     image_generator := image_generator bot;
     ignore_dms := ignore_dms bot;
     dont_split_responses := dont_split_responses bot;
     reply_in_thread := reply_in_thread bot;
     log_all_the_things := log_all_the_things bot;
     channel_last_direct_response := channel_last_direct_response bot |}.

(** ** The monad *)

Record State := mkState {
  self : DiscordBot;
  store : gmap ref GenericMessage;
  spawned : list Task;
  trace : list Event
}.

Definition M (A : Type) : Type := State -> Outcome A * State.

Definition ret {A} (a : A) : M A := fun s => (Return a, s).

Definition bind {A B} (m : M A) (k : A -> M B) : M B :=
  fun s =>
    match m s with
    | (Return a, s') => k a s'
    | (Raise err, s') => (Raise err, s')
    end.

Definition raise {A} (err : Exception) : M A := fun s => (Raise err, s).

(** [try: m] with the outcome handed to the [except]/fall-through code. *)
Definition try_except {A} (m : M A) : M (Outcome A) :=
  fun s => let '(r, s') := m s in (Return r, s').

Definition reraise {A} (r : Outcome A) : M A := fun s => (r, s).

Declare Scope monad_scope.
Delimit Scope monad_scope with monad.
Notation "x <- m ;; k" := (bind m (fun x => k))
  (at level 100, m at next level, right associativity) : monad_scope.
Notation "m ;; k" := (bind m (fun _ => k))
  (at level 100, right associativity) : monad_scope.
Local Open Scope monad_scope.

Definition with_trace (f : list Event -> list Event) (s : State) : State :=
  {| self := self s; store := store s; spawned := spawned s;
     trace := f (trace s) |}.

Definition with_store (f : gmap ref GenericMessage -> gmap ref GenericMessage)
    (s : State) : State :=
  {| self := self s; store := f (store s); spawned := spawned s;
     trace := trace s |}.

Definition with_spawned (f : list Task -> list Task) (s : State) : State :=
  {| self := self s; store := store s; spawned := f (spawned s);
     trace := trace s |}.

Definition with_self (f : DiscordBot -> DiscordBot) (s : State) : State :=
  {| self := f (self s); store := store s; spawned := spawned s;
     trace := trace s |}.

(** The trace grows at its end. *)
Definition record (events : list Event) (s : State) : State :=
  with_trace (fun t => t ++ events) s.

Definition emit (e : Event) : M unit :=
  fun s => (Return tt, record [e] s).

(** A call that cannot fail: ask the environment, record the call. *)
Definition call {A} (answer : list Event -> A) (event : A -> Event) : M A :=
  fun s =>
    let a := answer (trace s) in
    (Return a, record [event a] s).

(** A call that can raise. *)
Definition call_fallible {A} (answer : list Event -> Outcome A)
    (event : Outcome A -> Event) : M A :=
  fun s =>
    let a := answer (trace s) in
    (a, record [event a] s).

Definition get_self : M DiscordBot := fun s => (Return (self s), s).

Definition log (level : LogLevel) (text : string) : M unit :=
  emit (ELog level text).

Definition print (text : string) : M unit := emit (EPrint text).

(** Creating a message object: a fresh reference into the store. *)
Definition new (m : GenericMessage) : M ref :=
  fun s =>
    let r := fresh (dom (store s)) in
    (Return r, with_store (fun h => <[r := m]> h) s).

(** Reading through a reference.  References come from [new], so the
    failure branch is never taken by the orchestrator. *)
Definition load (r : ref) : M GenericMessage :=
  fun s =>
    match store s !! r with
    | Some m => (Return m, s)
    | None => (Raise (Exc "dangling reference"), s)
    end.

(** [message.channel_id = new_id]: the object is updated in place. *)
Definition assign_channel_id (r : ref) (new_id : Z) : M unit :=
  fun s =>
    (Return tt,
     record [EAssignChannelId r new_id]
       (with_store (fun h => alter (set_channel_id new_id) r h) s)).

(** ** The orchestrator *)

Section Orchestrator.

Variable env : Env.

(** *** Calls on the collaborators and on the platform *)

Definition should_reply_to_message (ai_user_id : Z)
    (message : GenericMessage) : M (bool * bool) :=
  call (fun t => env_should_reply_to_message env t ai_user_id message)
       (EShouldReply ai_user_id message).

Definition log_mention (message : GenericMessage) : M unit :=
  emit (ELogMention message).

Definition maybe_get_image_prompt (raw_message : RawMessage)
  : M (option string) :=
  call (fun t => env_maybe_get_image_prompt env t raw_message)
       (EMaybeGetImagePrompt raw_message).

Definition generate_image (image_prompt : string)
    (raw_message : RawMessage) (response_channel : Channel) : M Task :=
  id <- call_fallible
          (fun t => env_generate_image env t image_prompt raw_message
                      response_channel)
          (EGenerateImage image_prompt raw_message response_channel) ;;
  ret (ImageTask id).

(** [raw_message.create_thread(name=...)]: the new thread, a channel of
    type [Thread] with the name asked for. *)
Definition create_thread (raw_message : RawMessage) (name : string)
  : M Channel :=
  id <- call_fallible (fun t => env_create_thread env t raw_message name)
                      (ECreateThread raw_message name) ;;
  ret (mkChannel Thread id name).

(** [channel.history(limit=...)]: at most [limit] of the channel's
    messages, most recent first.  The call is recorded where the code
    makes it (line 367); the platform is read later, when the prompt
    generator consumes the stream. *)
Definition channel_history (channel : Channel) (limit : nat)
  : M (list RawMessage) :=
  call (fun t => firstn limit (env_channel_messages env t channel))
       (EHistory channel limit).

Definition get_throttle_message_id (channel : Z) : M (option Z) :=
  call (fun t => env_get_throttle_message_id env t channel)
       (EGetThrottleMessageId channel).

Definition generate (ai_user_id : Z)
    (message_history : list GenericMessage) (image_requested : bool)
    (throttle_message_id : option Z) : M string :=
  call_fallible
    (fun t => env_generate env t ai_user_id message_history
                image_requested throttle_message_id)
    (EGenerate ai_user_id message_history image_requested
               throttle_message_id).

Definition log_request_arrived (prompt : string) : M ResponseStats :=
  emit (ELogRequestArrived prompt) ;;
  ret (mkResponseStats prompt 0).

Definition log_response_part (response_stats : ResponseStats)
  : M ResponseStats :=
  emit ELogResponsePart ;;
  ret (mkResponseStats (stats_prompt response_stats)
                       (stats_parts response_stats + 1)).

Definition write_to_log (response_stats : ResponseStats) (prefix : string)
  : M unit :=
  emit (EWriteToLog prefix response_stats).

Definition log_response_failure : M unit := emit ELogResponseFailure.

Definition log_response_success (response_stats : ResponseStats) : M unit :=
  emit (ELogResponseSuccess response_stats).

Definition request_as_string (prompt : string) : M Generator :=
  call (fun t => env_request_as_string env t prompt)
       (ERequest as_string prompt).

Definition request_by_sentence (prompt : string) : M Generator :=
  call (fun t => env_request_by_sentence env t prompt)
       (ERequest by_sentence prompt).

Definition send (channel : Channel) (text : string) : M RawMessage :=
  call_fallible (fun t => env_send env t channel text)
                (ESend channel text).

Definition log_message (channel : Z) (message : GenericMessage) : M unit :=
  emit (ELogMessage channel message).

(** The normaliser as the orchestrator calls it: the result of
    [discord_message_to_generic_message], after the warning of lines
    56-59 when the channel type is not recognised. *)
Definition normalize (raw_message : RawMessage) : M GenericMessage :=
  match channel_type (raw_channel raw_message) with
  | OtherChannel =>
      log Warning ("Unknown channel type, unsolicited replies disabled.: "
                   ++ channel_name (raw_channel raw_message))
  | _ => ret tt
  end ;;
  ret (discord_message_to_generic_message raw_message).

(** *** [recent_messages_following_thread] (lines 364-372) *)

Definition recent_messages_following_thread (channel : Channel)
  : M (list GenericMessage) :=
  self <- get_self ;;
  history <- channel_history channel
               (history_lines (prompt_generator self)) ;;
  let result :=
    history_plus_thread_kickoff_message history
      (history_lines (prompt_generator self)) in
  ret result.

(** *** [send_response_in_channel] (lines 374-446) *)

(** The [async for] of lines 410-438 over a generator that will yield
    [sentences] and then stop, or raise [failure].  [continue] is the
    recursive call, [break] returns; an exception leaves through
    [Raise].  The result is the stats handle as the loop leaves it. *)
Fixpoint send_sentences (raw_message : RawMessage)
    (response_channel : Channel)
    (sentences : list string) (failure : option Exception)
    (response_stats : ResponseStats) : M ResponseStats :=
  match sentences with
  | [] =>
      match failure with
      | None => emit (ENext StopAsyncIteration) ;; ret response_stats
      | Some err => emit (ENext (Raised err)) ;; raise err
      end
  | sentence :: rest =>
      emit (ENext (Yield sentence)) ;;
      self <- get_self ;;
      (if log_all_the_things self then print sentence else ret tt) ;;
      if String.eqb (bot_prompt_line (prompt_generator self)) sentence
      then
        log Warning ("Filtered out " ++ Str.dquote ++ sentence
                     ++ Str.dquote ++ " from response, continuing") ;;
        send_sentences raw_message response_channel rest failure
          response_stats
      else if Str.endswith sentence " says:" then
        log Warning ("Filtered out " ++ Str.dquote ++ sentence
                     ++ Str.dquote ++ " from response, aborting") ;;
        ret response_stats
      else
        response_message <- send response_channel sentence ;;
        generic_response_message <- normalize response_message ;;
        log_message (channel_id (raw_channel raw_message))
          generic_response_message ;;
        response_stats <- log_response_part response_stats ;;
        send_sentences raw_message response_channel rest failure
          response_stats
  end.

Definition send_response_in_channel (message : ref)
    (raw_message : RawMessage) (image_requested : bool)
    (response_channel : Channel) : M unit :=
  m <- load message ;;
  log Debug ("Request from " ++ author_name (generic_fields m)) ;;
  recent_messages <- recent_messages_following_thread response_channel ;;
  repeated_id <- get_throttle_message_id
                   (channel_id (raw_channel raw_message)) ;;
  self <- get_self ;;
  prompt_prefix <- generate (ai_user_id self) recent_messages
                     image_requested repeated_id ;;
  response_stats <- log_request_arrived prompt_prefix ;;
  (if log_all_the_things self then
     print ("prompt_prefix:" ++ Str.rule) ;;
     print prompt_prefix ;;
     print ("Response:" ++ Str.rule)
   else ret tt) ;;
  attempt <- try_except (
    generator <- (if dont_split_responses self
                  then request_as_string prompt_prefix
                  else request_by_sentence prompt_prefix) ;;
    send_sentences raw_message response_channel
      (sentences generator) (failure generator) response_stats) ;;
  match attempt with
  | Raise err =>
      log Error ("Error: " ++ str err) ;;
      log_response_failure
  | Return response_stats =>
      m <- load message ;;
      write_to_log response_stats
        ("Response to " ++ author_name (generic_fields m) ++ " done!  ") ;;
      log_response_success response_stats
  end.

(** *** Tasks *)

(** [asyncio.create_task(coro)]: the task is scheduled; it runs when
    the event loop next gets control. *)
Definition create_task (task : Task) : M unit :=
  fun s =>
    (Return tt,
     record [ECreateTask task] (with_spawned (fun ts => ts ++ [task]) s)).

(** Running one task to its end.  An exception that escapes the
    coroutine is kept by the task; it does not reach whoever waits.
    The image generator's task does its work outside the orchestrator. *)
Definition run_task (task : Task) : M unit :=
  match task with
  | MessageTask message raw_message image_requested response_channel =>
      _ <- try_except
             (send_response_in_channel message raw_message
                image_requested response_channel) ;;
      ret tt
  | ImageTask _ => ret tt
  end.

Fixpoint run_tasks (tasks : list Task) : M unit :=
  match tasks with
  | [] => ret tt
  | task :: rest => run_task task ;; run_tasks rest
  end.

(** The event loop gets control: every task scheduled so far runs to
    its end (one schedule among those asyncio allows: the tasks one
    after the other, in spawning order). *)
Definition event_loop : M unit :=
  fun s => run_tasks (spawned s) (with_spawned (fun _ => []) s).

(** [await asyncio.wait(response_tasks)]. *)
Definition asyncio_wait (response_tasks : list Task) : M unit :=
  emit (EWait response_tasks) ;;
  event_loop.

(** [async with raw_message.channel.typing(): body]: the indicator is
    released on every way out of the body. *)
Definition typing {A} (channel : Channel) (body : M A) : M A :=
  emit (ETypingEnter channel) ;;
  r <- try_except body ;;
  emit (ETypingExit channel) ;;
  reraise r.

(** *** [send_response] (lines 282-332) *)

Definition is_TextChannel (channel : Channel) : bool :=
  match channel_type channel with TextChannel => true | _ => false end.

Definition is_Thread (channel : Channel) : bool :=
  match channel_type channel with Thread => true | _ => false end.

Definition is_Member (author : Author) : bool :=
  match author_type author with Member => true | User => false end.

Definition send_response (message : ref) (raw_message : RawMessage)
    (image_requested : bool) : M (option Task * option Channel) :=
  self <- get_self ;;
  let response_channel := raw_channel raw_message in
  target <-
    (if reply_in_thread self
        && is_TextChannel (raw_channel raw_message)
        && is_Member (raw_author raw_message)
     then
       let perms := env_permissions_for env (raw_channel raw_message)
                      (raw_author raw_message) in
       if create_public_threads perms then
         response_channel <-
           create_thread raw_message
             (ai_name self ++ ": Response to "
              ++ user_name (raw_author raw_message)) ;;
         log Debug ("Created response thread "
                    ++ channel_name response_channel ++ " in "
                    ++ channel_name (raw_channel raw_message)) ;;
         ret (Some response_channel)
       else
         log Debug "User can't create threads, not responding." ;;
         ret None
     else ret (Some response_channel)) ;;
  match target with
  | None => ret (None, None)
  | Some response_channel =>
      let response_task :=
        MessageTask message raw_message image_requested response_channel in
      create_task response_task ;;
      ret (Some response_task, Some response_channel)
  end.

(** *** [on_message] (lines 227-280) *)

Definition is_not_None {A} (x : option A) : bool :=
  match x with Some _ => true | None => false end.

(** [[task for task in tasks if task is not None]] *)
Definition not_None_tasks (tasks : list (option Task)) : list Task :=
  omap id tasks.

Definition on_message (raw_message : RawMessage) : M unit :=
  attempt <- try_except (
    generic <- normalize raw_message ;;
    message <- new generic ;;
    self <- get_self ;;
    m <- load message ;;
    decision <- should_reply_to_message (ai_user_id self) m ;;
    let '(should_respond, is_summon) := decision in
    if negb should_respond then ret tt
    else
      typing (raw_channel raw_message) (
        image_prompt <-
          match image_generator self with
          | Some _ => maybe_get_image_prompt raw_message
          | None => ret None
          end ;;
        sent <- send_response message raw_message
                  (is_not_None image_prompt) ;;
        let '(message_task, response_channel) := sent in
        match response_channel with
        | None => ret tt
        | Some response_channel =>
            (if is_summon && is_ChannelMessage m then
               (if is_Thread response_channel
                then assign_channel_id message
                       (channel_id response_channel)
                else ret tt) ;;
               m <- load message ;;
               log_mention m
             else ret tt) ;;
            image_task <-
              match image_generator self, image_prompt with
              | Some _, Some image_prompt =>
                  task <- generate_image image_prompt raw_message
                            response_channel ;;
                  ret (Some task)
              | _, _ => ret None
              end ;;
            let response_tasks :=
              not_None_tasks [message_task; image_task] in
            asyncio_wait response_tasks
        end)) ;;
  match attempt with
  | Raise e => log Error ("Exception while processing message: " ++ str e)
  | Return _ => ret tt
  end.

(** *** [on_ready] (lines 176-225) *)

(** [user] is [self.user]; [guilds] gives, per guild, the number of its
    channels.  [init_commands] is not called (lines 181-188 are
    commented out), so the lobotomize command is never registered. *)
Definition on_ready (user : option Author) (guilds : list nat) : M unit :=
  let num_guilds := length guilds in
  let num_channels := list_sum guilds in
  user_id_str <-
    match user with
    | Some u =>
        (fun s => (Return tt, with_self (set_ai_user_id (user_id u)) s)) ;;
        self <- get_self ;;
        ret (Str.of_Z (ai_user_id self))
    | None => ret "<unknown>"
    end ;;
  self <- get_self ;;
  log Info ("Connected to discord as "
            ++ match user with Some u => user_name u | None => "None" end
            ++ " (ID: " ++ user_id_str ++ ")") ;;
  log Debug ("monitoring " ++ Str.of_Z (Z.of_nat num_channels)
             ++ " channels across " ++ Str.of_Z (Z.of_nat num_guilds)
             ++ " server(s)") ;;
  (if ignore_dms self then log Debug "Ignoring DMs"
   else log Debug "listening to DMs") ;;
  (if dont_split_responses self
   then log Debug "Responses: returned as single messages"
   else log Debug "Responses: streamed as separate sentences") ;;
  (if is_not_None (image_generator self)
   then log Debug "Image generation: enabled"
   else log Debug "Image generation: disabled") ;;
  log Debug ("AI name: " ++ ai_name self) ;;
  log Debug ("AI persona: " ++ persona self) ;;
  log Debug ("History: "
             ++ Str.of_Z (Z.of_nat (history_lines (prompt_generator self)))
             ++ " lines ") ;;
  let str_wakewords :=
    match wakewords (decide_to_respond self) with
    | [] => "<none>"
    | ws => Str.join ", " ws
    end in
  log Debug ("Wakewords: " ++ str_wakewords).

(** One inbound event, from the platform's dispatch to the moment the
    event loop has nothing left to run for it: the handler, then the
    tasks it spawned and did not live to await. *)
Definition dispatch (raw_message : RawMessage) : M unit :=
  on_message raw_message ;;
  event_loop.

End Orchestrator.

(** ** Reading a trace *)

Module Trace.

(** The texts handed to [send], failed calls included. *)
Definition send_text (e : Event) : option string :=
  match e with ESend _ text _ => Some text | _ => None end.

(** The texts of the calls of [send] that returned. *)
Definition sent_text (e : Event) : option string :=
  match e with ESend _ text (Return _) => Some text | _ => None end.

(** The platform messages that [send] returned. *)
Definition sent_message (e : Event) : option RawMessage :=
  match e with ESend _ _ (Return m) => Some m | _ => None end.

Definition failed_send (e : Event) : bool :=
  match e with ESend _ _ (Raise _) => true | _ => false end.

(** An exception during generation or sending. *)
Definition raised (e : Event) : bool :=
  match e with
  | ESend _ _ (Raise _) => true
  | ENext (Raised _) => true
  | _ => false
  end.

(** The sentences taken from the generator. *)
Definition yielded (e : Event) : option string :=
  match e with ENext (Yield sentence) => Some sentence | _ => None end.

Definition logged_message (e : Event) : option (Z * GenericMessage) :=
  match e with ELogMessage k m => Some (k, m) | _ => None end.

Definition response_part (e : Event) : option unit :=
  match e with ELogResponsePart => Some tt | _ => None end.

Definition request_arrived (e : Event) : option string :=
  match e with ELogRequestArrived p => Some p | _ => None end.

Definition response_success (e : Event) : option ResponseStats :=
  match e with ELogResponseSuccess st => Some st | _ => None end.

Definition response_failure (e : Event) : option unit :=
  match e with ELogResponseFailure => Some tt | _ => None end.

Definition thread_request (e : Event) : option (RawMessage * string) :=
  match e with ECreateThread m name _ => Some (m, name) | _ => None end.

Definition assignment (e : Event) : option (ref * Z) :=
  match e with EAssignChannelId r id => Some (r, id) | _ => None end.

Definition mention (e : Event) : option GenericMessage :=
  match e with ELogMention m => Some m | _ => None end.

End Trace.

(** ** The fragment filter, in the words of the specification *)

(** Section 4.5, rules 1 to 3, applied in this order to each fragment: a
    fragment equal to the marker is dropped and the next one is looked at;
    a fragment ending in [" says:"] is dropped and nothing after it is
    looked at; any other fragment is sent. *)
Fixpoint fragments_to_send (marker : string) (fragments : list string)
  : list string :=
  match fragments with
  | [] => []
  | fragment :: rest =>
      if String.eqb fragment marker then fragments_to_send marker rest
      else if Str.endswith fragment " says:" then []
      else fragment :: fragments_to_send marker rest
  end.

(** The fragments taken from the stream: all of them up to and including
    the first one that rule 2 stops at. *)
Fixpoint fragments_consumed (marker : string) (fragments : list string)
  : list string :=
  match fragments with
  | [] => []
  | fragment :: rest =>
      if String.eqb fragment marker
      then fragment :: fragments_consumed marker rest
      else if Str.endswith fragment " says:" then [fragment]
      else fragment :: fragments_consumed marker rest
  end.

(** ** What a run leaves in the trace *)

(** Taking one sentence from the generator. *)
Definition taken (bot : DiscordBot) (x : string) : list Event :=
  ENext (Yield x) :: (if log_all_the_things bot then [EPrint x] else []).

(** The diagnostic of lines 56-59. *)
Definition unknown_channel_warning (m : RawMessage) : list Event :=
  match channel_type (raw_channel m) with
  | OtherChannel =>
      [ELog Warning
         ("Unknown channel type, unsolicited replies disabled.: "
          ++ channel_name (raw_channel m))]
  | _ => []
  end.

(** The events the sending loop can produce. *)
Definition loop_event (raw_message : RawMessage) (response_channel : Channel)
    (e : Event) : Prop :=
  match e with
  | ENext _ | EPrint _ | ELog Warning _ | ELogResponsePart => True
  | ESend c _ _ => c = response_channel
  | ELogMessage k _ => k = channel_id (raw_channel raw_message)
  | _ => False
  end.

(** How the loop ended, read off the events it produced. *)
Definition loop_result (response_channel : Channel) (stats : ResponseStats)
    (d : list Event) (r : Outcome ResponseStats) : Prop :=
  match r with
  | Return stats' =>
      existsb Trace.raised d = false
      /\ stats' = mkResponseStats (stats_prompt stats)
                    (stats_parts stats + length (omap Trace.sent_message d))
  | Raise err =>
      existsb Trace.raised d = true
      /\ (last d = Some (ENext (Raised err))
          \/ exists text,
              last d = Some (ESend response_channel text (Raise err)))
  end.

(** Everything the proofs below need to know about one run of the loop
    over [sentences] that produced the events [d] and ended in [r]. *)
Definition loop_spec (raw_message : RawMessage) (response_channel : Channel)
    (bot : DiscordBot) (sentences : list string)
    (stats : ResponseStats) (d : list Event) (r : Outcome ResponseStats)
  : Prop :=
  Forall (loop_event raw_message response_channel) d
  /\ loop_result response_channel stats d r
  /\ (exists k,
        fragments_to_send (bot_prompt_line (prompt_generator bot)) sentences
        = omap Trace.send_text d ++ k
        /\ (existsb Trace.failed_send d = false -> k = []))
  /\ (exists k,
        omap Trace.send_text d = omap Trace.sent_text d ++ k
        /\ (existsb Trace.failed_send d = false -> k = []))
  /\ (exists k,
        fragments_consumed (bot_prompt_line (prompt_generator bot)) sentences
        = omap Trace.yielded d ++ k
        /\ (existsb Trace.failed_send d = false -> k = []))
  /\ omap Trace.logged_message d =
       map (fun m => (channel_id (raw_channel raw_message),
                      discord_message_to_generic_message m))
           (omap Trace.sent_message d)
  /\ length (omap Trace.response_part d) =
       length (omap Trace.sent_message d).

(** What the reply coroutine leaves in the trace before it asks for the
    generation stream. *)
Definition request_events (bot : DiscordBot) (m : GenericMessage)
    (raw_message : RawMessage) (image_requested : bool)
    (response_channel : Channel) (history : list RawMessage)
    (repeated_id : option Z) (answer : Outcome string) : list Event :=
  [ELog Debug ("Request from " ++ author_name (generic_fields m));
   EHistory response_channel (history_lines (prompt_generator bot)) history;
   EGetThrottleMessageId (channel_id (raw_channel raw_message)) repeated_id;
   EGenerate (ai_user_id bot)
     (history_plus_thread_kickoff_message history
        (history_lines (prompt_generator bot)))
     image_requested repeated_id answer].

Definition banner (bot : DiscordBot) (prompt_prefix : string) : list Event :=
  if log_all_the_things bot then
    [EPrint ("prompt_prefix:" ++ Str.rule); EPrint prompt_prefix;
     EPrint ("Response:" ++ Str.rule)]
  else [].

Definition request_kind (bot : DiscordBot) : RequestKind :=
  if dont_split_responses bot then as_string else by_sentence.

(** What follows the loop: the [except] branch, or lines 445-446. *)
Definition closing (m : GenericMessage) (r : Outcome ResponseStats)
  : list Event :=
  match r with
  | Raise err => [ELog Error ("Error: " ++ str err); ELogResponseFailure]
  | Return response_stats =>
      [EWriteToLog
         ("Response to " ++ author_name (generic_fields m) ++ " done!  ")
         response_stats;
       ELogResponseSuccess response_stats]
  end.

(** A run that got its prompt: the events before the loop, the loop's
    events [d], and the closing events for the outcome [r] of the loop. *)
Definition composite (bot : DiscordBot) (m : GenericMessage)
    (raw_message : RawMessage) (image_requested : bool)
    (response_channel : Channel) (history : list RawMessage)
    (repeated_id : option Z) (prompt_prefix : string)
    (generator : Generator) (d : list Event) (r : Outcome ResponseStats)
  : list Event :=
  request_events bot m raw_message image_requested response_channel
    history repeated_id (Return prompt_prefix)
  ++ [ELogRequestArrived prompt_prefix]
  ++ banner bot prompt_prefix
  ++ [ERequest (request_kind bot) prompt_prefix generator]
  ++ d ++ closing m r.

(** The three ways a run of the reply coroutine can go, with the events
    it leaves and its outcome. *)
Inductive reply_run (s : State) (message : ref) (raw_message : RawMessage)
    (image_requested : bool) (response_channel : Channel)
  : list Event -> Outcome unit -> Prop :=
| reply_dangling :
    store s !! message = None ->
    reply_run s message raw_message image_requested response_channel
      [] (Raise (Exc "dangling reference"))
| reply_no_prompt m history repeated_id err :
    store s !! message = Some m ->
    reply_run s message raw_message image_requested response_channel
      (request_events (self s) m raw_message image_requested
         response_channel history repeated_id (Raise err))
      (Raise err)
| reply_generated m history repeated_id prompt_prefix generator d r :
    store s !! message = Some m ->
    loop_spec raw_message response_channel (self s) (sentences generator)
      (mkResponseStats prompt_prefix 0) d r ->
    reply_run s message raw_message image_requested response_channel
      (composite (self s) m raw_message image_requested response_channel
         history repeated_id prompt_prefix generator d r)
      (Return tt).

(** The events a reply task can produce: no call on the decision gate,
    no thread, no task, no assignment; platform and tracker calls only for
    its own channels. *)
Definition reply_event (raw_message : RawMessage) (response_channel : Channel)
    (e : Event) : Prop :=
  match e with
  | ELog _ _ | EPrint _ | EGenerate _ _ _ _ _ | ELogRequestArrived _
  | ERequest _ _ _ | ENext _ | ELogResponsePart | ELogResponseFailure
  | EWriteToLog _ _ | ELogResponseSuccess _ => True
  | EHistory c _ _ => c = response_channel
  | ESend c _ _ => c = response_channel
  | EGetThrottleMessageId k _ => k = channel_id (raw_channel raw_message)
  | ELogMessage k _ => k = channel_id (raw_channel raw_message)
  | _ => False
  end.

(** ** What the handler leaves in the trace *)

(** The events of a handler that gives up without a word: the question
    to the decision gate, the typing indicator, the question to the image
    generator, and debug-level diagnostics. *)
Definition silent (e : Event) : Prop :=
  match e with
  | EShouldReply _ _ _ | ETypingEnter _ | ETypingExit _
  | EMaybeGetImagePrompt _ _ | ELog Debug _ => True
  | _ => False
  end.

(** Every [send] comes after the creation of the thread [name] for
    [raw_message], and goes to that thread. *)
Definition sends_follow_thread (raw_message : RawMessage) (name : string)
    (d : list Event) : Prop :=
  forall d1 c text answer d2,
    d = d1 ++ ESend c text answer :: d2 ->
    exists id,
      In (ECreateThread raw_message name (Return id)) d1
      /\ c = mkChannel Thread id name.

(** The mention is registered right after the assignment, with the
    message as rewritten. *)
Definition mention_follows_assignment (m0 : GenericMessage) (d : list Event)
  : Prop :=
  forall d1 r id d2,
    d = d1 ++ EAssignChannelId r id :: d2 ->
    exists d3, d2 = ELogMention (set_channel_id id m0) :: d3.

(** Two generic messages that differ at most in their channel id. *)
Definition same_but_channel_id (m m' : GenericMessage) : Prop :=
  match m, m' with
  | DirectMessage g, DirectMessage g' => g = g'
  | ChannelMessage g _ mentions, ChannelMessage g' _ mentions' =>
      g = g' /\ mentions = mentions'
  | PlainGenericMessage g, PlainGenericMessage g' => g = g'
  | _, _ => False
  end.

(** ** The timestamp table *)

(** The bot with another [channel_last_direct_response]. *)
Definition with_table (table : gmap Z timestamp) (bot : DiscordBot)
  : DiscordBot :=
  {| decide_to_respond := decide_to_respond bot;
     prompt_generator := prompt_generator bot;
     ai_name := ai_name bot;
     persona := persona bot;
     ai_user_id := ai_user_id bot;
     image_generator := image_generator bot;
     ignore_dms := ignore_dms bot;
     dont_split_responses := dont_split_responses bot;
     reply_in_thread := reply_in_thread bot;
     log_all_the_things := log_all_the_things bot;
     channel_last_direct_response := table |}.

(** A computation that neither reads nor writes the table: run with any
    table in place of the bot's, it has the same outcome and leaves the
    same state, with that table still in place. *)
Definition ignores_table {A} (c : M A) : Prop :=
  forall table s,
    c (with_self (with_table table) s) =
    (fst (c s), with_self (with_table table) (snd (c s))).

(** ** A concrete setting *)

(** The bot "Rosie" in the text channel "general" of a guild; Alice, a
    member, summons it; the generation client answers with a fixed list
    of sentences. *)
Module Demo.

Local Open Scope Z_scope.

Definition alice : Author := mkAuthor Member 7 "alice" false.
Definition rosie : Author := mkAuthor Member 99 "Rosie" true.
Definition general : Channel := mkChannel TextChannel 100 "general".

Definition hello : RawMessage :=
  mkRawMessage 1 alice "Rosie, how are you?" 0 general [rosie] None.

(** The message the platform returns for a text sent to a channel. *)
Definition sent_in (c : Channel) (text : string) : RawMessage :=
  mkRawMessage 2 rosie text 1 c [] None.

(** A reply to [hello] whose reference resolves, as the platform shows
    the first message of a thread. *)
Definition follow_up : RawMessage :=
  mkRawMessage 3 alice "And you?" 2 (mkChannel Thread 555 "t") []
    (Some (mkMessageReference (Some (ResolvedMessage hello)))).

Definition env (answer : list string) (may_create_threads : bool) : Env :=
  {| env_should_reply_to_message := fun _ _ _ => (true, true);
     env_maybe_get_image_prompt := fun _ _ => None;
     env_permissions_for := fun _ _ => mkPermissions may_create_threads;
     env_create_thread := fun _ _ _ => Return 555;
     env_channel_messages := fun _ _ => [];
     env_get_throttle_message_id := fun _ _ => None;
     env_generate := fun _ _ _ _ _ => Return "PROMPT";
     env_request_as_string := fun _ _ => mkGenerator answer None;
     env_request_by_sentence := fun _ _ => mkGenerator answer None;
     env_send := fun _ c text => Return (sent_in c text);
     env_generate_image := fun _ _ _ _ => Return 1 |}.

Definition bot (reply_in_thread : bool) : DiscordBot :=
  set_ai_user_id 99
    (__init__ (mkDecideToRespond []) (mkPromptGenerator 7 "Rosie says:")
       None "Rosie" "A helpful robot." false false reply_in_thread false).

(** Nothing has happened yet. *)
Definition idle (reply_in_thread : bool) : State :=
  mkState (bot reply_in_thread) ∅ [] [].

(** The reply task is about to run for [hello], stored at reference 0. *)
Definition replying : State :=
  mkState (bot false)
    {[ 0%nat := discord_message_to_generic_message hello ]} [] [].

Definition chatter : list string :=
  ["Hello."; "Rosie says:"; "I am well."; "Narrator says:"; "Never."].

End Demo.

(** ** Clean text *)

(** A string in which none of the forbidden characters occurs. *)
Fixpoint clean (s : string) : bool :=
  match s with
  | EmptyString => true
  | String c rest => negb (FORBIDDEN_CHARACTERS c) && clean rest
  end.

(** A generic message whose two texts are clean. *)
Definition clean_message (m : GenericMessage) : bool :=
  clean (author_name (generic_fields m))
  && clean (body_text (generic_fields m)).

(** The platform messages a history can draw on: those of the stream,
    and the message the last of them refers to. *)
Definition history_sources (aiter : list RawMessage) : list RawMessage :=
  aiter ++
  match last aiter with
  | Some last_returned =>
      match thread_kickoff_message last_returned with
      | Some ref => [ref]
      | None => []
      end
  | None => []
  end.

(** ** More ways of reading a trace *)

Module Calls.

(** The questions put to the decision gate, with the answers. *)
Definition gate (e : Event) : option (Z * GenericMessage * (bool * bool)) :=
  match e with
  | EShouldReply id m answer => Some (id, m, answer)
  | _ => None
  end.

(** The typing indicator: [true] when it is shown, [false] when it is
    taken away. *)
Definition typing_mark (e : Event) : option (bool * Channel) :=
  match e with
  | ETypingEnter c => Some (true, c)
  | ETypingExit c => Some (false, c)
  | _ => None
  end.

Definition printed (e : Event) : option string :=
  match e with EPrint text => Some text | _ => None end.

(** The questions put to the image generator, with the answers. *)
Definition image_question (e : Event)
  : option (RawMessage * option string) :=
  match e with
  | EMaybeGetImagePrompt m answer => Some (m, answer)
  | _ => None
  end.

Definition image_request (e : Event)
  : option (string * RawMessage * Channel * Outcome Z) :=
  match e with
  | EGenerateImage prompt m c answer => Some (prompt, m, c, answer)
  | _ => None
  end.

(** Where a message was sent, or was tried to be sent. *)
Definition sent_to (e : Event) : option Channel :=
  match e with ESend c _ _ => Some c | _ => None end.

Definition created (e : Event) : option Task :=
  match e with ECreateTask task => Some task | _ => None end.

Definition waited (e : Event) : option (list Task) :=
  match e with EWait tasks => Some tasks | _ => None end.

(** The exceptions of the two platform calls the handler makes
    itself. *)
Definition handler_failure (e : Event) : option Exception :=
  match e with
  | ECreateThread _ _ (Raise err) => Some err
  | EGenerateImage _ _ _ (Raise err) => Some err
  | _ => None
  end.


Definition is_log (e : Event) : bool :=
  match e with ELog _ _ => true | _ => false end.

End Calls.

(** The event that ended the sending loop with the exception [err]. *)
Definition raising (response_channel : Channel) (err : Exception) (e : Event)
  : Prop :=
  e = ENext (Raised err)
  \/ exists text, e = ESend response_channel text (Raise err).

(** ** The administrative command ([init_commands], lines 106-174) *)

(** [init_commands] defines the slash command [lobotomize] and registers
    it.  Its effects are of another kind than those of the message
    handler -- an interaction is answered, the repetition tracker is told
    to hide messages, commands are synchronised -- so it has a trace type
    of its own, and a monad over that trace alone: the command reads
    [self] but does not change it. *)
Module Commands.

Record Guild := mkGuild {
  guild_name : string;
  guild_id : Z
}.

(** What [self.get_channel] finds in the cache: a channel, which may or
    may not be a [discord.abc.Messageable] (a category, for one, is
    not), and which belongs to a guild or (a private channel) to
    none. *)
Record CachedChannel := mkCachedChannel {
  cached_id : Z;
  cached_guild : option Guild;
  is_Messageable : bool
}.

Record Interaction := mkInteraction {
  interaction_channel_id : option Z
}.

Record AppCommand := mkAppCommand {
  command_name : string;
  command_description : string
}.

Inductive CommandEvent :=
| CLog (level : LogLevel) (text : string)
| CGetChannel (id : Z) (answer : option CachedChannel)
| CHistory (channel : Z) (limit : nat)
           (answer : Outcome (list RawMessage))
| CHideMessagesBefore (channel_id : Z) (message_id : Z)
| CSendMessage (text : string) (ephemeral silent : bool)
               (answer : Outcome unit)
| CAddCommand (command : AppCommand)
| CSync (answer : Outcome (list AppCommand)).

(** The platform's answers, each as a function of what happened so
    far. *)
Record CommandEnv := mkCommandEnv {
  env_get_channel : list CommandEvent -> Z -> option CachedChannel;
  env_history : list CommandEvent -> Z -> Outcome (list RawMessage);
  env_send_message :
    list CommandEvent -> string -> bool -> bool -> Outcome unit;
  env_sync : list CommandEvent -> Outcome (list AppCommand)
}.

Definition C (A : Type) : Type :=
  list CommandEvent -> Outcome A * list CommandEvent.

Definition cret {A} (a : A) : C A := fun t => (Return a, t).

Definition cbind {A B} (m : C A) (k : A -> C B) : C B :=
  fun t =>
    match m t with
    | (Return a, t') => k a t'
    | (Raise err, t') => (Raise err, t')
    end.

Definition craise {A} (err : Exception) : C A := fun t => (Raise err, t).

Declare Scope command_scope.
Delimit Scope command_scope with command.
Notation "x <- m ;; k" := (cbind m (fun x => k))
  (at level 100, m at next level, right associativity) : command_scope.
Notation "m ;; k" := (cbind m (fun _ => k))
  (at level 100, right associativity) : command_scope.
Local Open Scope command_scope.

Definition cemit (e : CommandEvent) : C unit :=
  fun t => (Return tt, t ++ [e]).

Definition ccall {A} (answer : list CommandEvent -> A)
    (event : A -> CommandEvent) : C A :=
  fun t => let a := answer t in (Return a, t ++ [event a]).

Definition ccall_fallible {A} (answer : list CommandEvent -> Outcome A)
    (event : Outcome A -> CommandEvent) : C A :=
  fun t => let a := answer t in (a, t ++ [event a]).

Definition clog (level : LogLevel) (text : string) : C unit :=
  cemit (CLog level text).

(** [str(interaction.channel_id)] *)
Definition str_channel_id (id : option Z) : string :=
  match id with Some id => Str.of_Z id | None => "None" end.

Definition hide_messages_before (channel_id message_id : Z) : C unit :=
  cemit (CHideMessagesBefore channel_id message_id).

(** The body of the [async for] of lines 142-154 for one message.
    Reading [channel.guild.id] of a channel without a guild is an
    [AttributeError], raised while the second log line is being put
    together. *)
Definition hide_before (channel : CachedChannel) (message : RawMessage)
  : C unit :=
  clog Info ("lobotomize called in channel "
             ++ Str.of_Z (cached_id channel)
             ++ ", hiding messages before "
             ++ Str.of_Z (raw_id message)) ;;
  match cached_guild channel with
  | None => craise (Exc "'NoneType' object has no attribute 'id'")
  | Some guild =>
      clog Info ("lobotomize called for guid " ++ guild_name guild
                 ++ " # " ++ Str.of_Z (guild_id guild) ++ ", ") ;;
      hide_messages_before (cached_id channel) (raw_id message)
  end.

(** The [async for] over the messages the history yields. *)
Fixpoint hide_before_each (channel : CachedChannel)
    (messages : list RawMessage) : C unit :=
  match messages with
  | [] => cret tt
  | message :: rest =>
      hide_before channel message ;;
      hide_before_each channel rest
  end.

(** The command as it is declared (lines 107-112). *)
Definition lobotomize_command (bot : DiscordBot) : AppCommand :=
  mkAppCommand "lobotomize"
    ("Erase " ++ ai_name bot
     ++ "'s memory of any message before now in this channel.").

(** The [for] of lines 164-167. *)
Fixpoint log_registered (commands : list AppCommand) : C unit :=
  match commands with
  | [] => cret tt
  | command :: rest =>
      clog Info ("Registered command: " ++ command_name command
                 ++ ": " ++ command_description command) ;;
      log_registered rest
  end.

Section Commands.

Variable env : CommandEnv.

Definition get_channel (id : Z) : C (option CachedChannel) :=
  ccall (fun t => env_get_channel env t id) (CGetChannel id).

(** [channel.history(limit=...)], read to its end: at most [limit]
    messages, most recent first, or the exception of the fetch. *)
Definition history (channel : Z) (limit : nat) : C (list RawMessage) :=
  ccall_fallible
    (fun t => match env_history env t channel with
              | Return messages => Return (firstn limit messages)
              | Raise err => Raise err
              end)
    (CHistory channel limit).

(** [interaction.response.send_message(text, ephemeral=..., silent=...)] *)
Definition send_message (text : string) (ephemeral silent : bool)
  : C unit :=
  ccall_fallible (fun t => env_send_message env t text ephemeral silent)
                 (CSendMessage text ephemeral silent).

(** [fail] (lines 114-121) *)
Definition fail (interaction : Interaction) : C unit :=
  clog Warning ("lobotomize called from an unexpected channel: "
                ++ str_channel_id (interaction_channel_id interaction)) ;;
  send_message "failed to lobotomize" true true.

(** [lobotomize] (lines 113-157) *)
Definition lobotomize (interaction : Interaction) : C unit :=
  match interaction_channel_id interaction with
  | None => fail interaction
  | Some channel_id =>
      channel <- get_channel channel_id ;;
      match channel with
      | None => fail interaction
      | Some channel =>
          if negb (is_Messageable channel) then fail interaction
          else
            messages <- history (cached_id channel) 1 ;;
            hide_before_each channel messages ;;
            send_message "Memory wiped!" true true
      end
  end.

(** [init_commands] (lines 106-174) *)
Definition init_commands (bot : DiscordBot) : C unit :=
  clog Debug "Registering commands, this may take a while sometimes..." ;;
  cemit (CAddCommand (lobotomize_command bot)) ;;
  commands <- ccall_fallible (env_sync env) CSync ;;
  log_registered commands ;;
  clog Debug
    ("If you try to run any command within the first ~5 minutes of "
     ++ "the bot starting, it will fail with the error: 'This command "
     ++ "is outdated, please try again in a few minutes'.  "
     ++ "This is apparently what Discord just does, and nothing we can "
     ++ " fix.  Sorry!").

End Commands.

(** Reading a command trace. *)
Definition hidden (e : CommandEvent) : option (Z * Z) :=
  match e with CHideMessagesBefore c m => Some (c, m) | _ => None end.

Definition answered (e : CommandEvent)
  : option (string * bool * bool * Outcome unit) :=
  match e with
  | CSendMessage text ephemeral silent a =>
      Some (text, ephemeral, silent, a)
  | _ => None
  end.

Definition fetched (e : CommandEvent) : option (Z * nat) :=
  match e with CHistory c n _ => Some (c, n) | _ => None end.

Definition looked_up (e : CommandEvent) : option Z :=
  match e with CGetChannel id _ => Some id | _ => None end.

Definition added (e : CommandEvent) : option AppCommand :=
  match e with CAddCommand c => Some c | _ => None end.

Definition synced (e : CommandEvent) : option unit :=
  match e with CSync _ => Some tt | _ => None end.

Definition info_line (e : CommandEvent) : option string :=
  match e with CLog Info text => Some text | _ => None end.

Definition warning_line (e : CommandEvent) : option string :=
  match e with CLog Warning text => Some text | _ => None end.

(** The three ways the command has of not finding a channel to act
    on, at the trace [t]. *)
Definition unresolved (env : CommandEnv) (interaction : Interaction)
    (t : list CommandEvent) : Prop :=
  match interaction_channel_id interaction with
  | None => True
  | Some id =>
      match env_get_channel env t id with
      | None => True
      | Some channel => is_Messageable channel = false
      end
  end.

End Commands.

(** ** More concrete settings *)

Module Cases.

Local Open Scope Z_scope.


(** The generation stream breaks after its first sentence. *)
Definition broken_stream : Env :=
  {| env_should_reply_to_message := fun _ _ _ => (true, true);
     env_maybe_get_image_prompt := fun _ _ => None;
     env_permissions_for := fun _ _ => mkPermissions true;
     env_create_thread := fun _ _ _ => Return 555;
     env_channel_messages := fun _ _ => [];
     env_get_throttle_message_id := fun _ _ => None;
     env_generate := fun _ _ _ _ _ => Return "PROMPT";
     env_request_as_string :=
       fun _ _ => mkGenerator ["Hello."] (Some (Exc "connection lost"));
     env_request_by_sentence :=
       fun _ _ => mkGenerator ["Hello."] (Some (Exc "connection lost"));
     env_send := fun _ c text => Return (Demo.sent_in c text);
     env_generate_image := fun _ _ _ _ => Return 1 |}.

(** The message asks for a picture, and the image generator is there. *)
Definition painter : Env :=
  {| env_should_reply_to_message := fun _ _ _ => (true, true);
     env_maybe_get_image_prompt := fun _ _ => Some "a cat";
     env_permissions_for := fun _ _ => mkPermissions true;
     env_create_thread := fun _ _ _ => Return 555;
     env_channel_messages := fun _ _ => [];
     env_get_throttle_message_id := fun _ _ => None;
     env_generate := fun _ _ _ _ _ => Return "PROMPT";
     env_request_as_string := fun _ _ => mkGenerator ["Here you go."] None;
     env_request_by_sentence :=
       fun _ _ => mkGenerator ["Here you go."] None;
     env_send := fun _ c text => Return (Demo.sent_in c text);
     env_generate_image := fun _ _ _ _ => Return 1 |}.

Definition painting_bot : DiscordBot :=
  set_ai_user_id 99
    (__init__ (mkDecideToRespond []) (mkPromptGenerator 7 "Rosie says:")
       (Some tt) "Rosie" "A helpful robot." false false false false).

Definition painting : State := mkState painting_bot ∅ [] [].

(** The platform as the command sees it: one guild with one text
    channel, whose newest message is [Demo.hello]. *)
Definition home : Commands.Guild := Commands.mkGuild "home" 1.

Definition lounge : Commands.CachedChannel :=
  Commands.mkCachedChannel 100 (Some home) true.

Definition platform : Commands.CommandEnv :=
  {| Commands.env_get_channel :=
       fun _ id => if id =? 100 then Some lounge else None;
     Commands.env_history := fun _ _ => Return [Demo.hello];
     Commands.env_send_message := fun _ _ _ _ => Return tt;
     Commands.env_sync := fun _ => Return [] |}.

End Cases.

(** * Properties *)

(** ** Sanitisation *)

Lemma FORBIDDEN_CHARACTERS_spec c :
  FORBIDDEN_CHARACTERS c = true <->
  c = newline \/ c = carriage_return \/ c = tab.
Proof.
  unfold FORBIDDEN_CHARACTERS.
  rewrite !orb_true_iff, !Ascii.eqb_eq. tauto.
Qed.

Lemma sanitize_string_length raw_string :
  String.length (sanitize_string raw_string) = String.length raw_string.
Proof. induction raw_string as [|c r IH]; simpl; congruence. Qed.

Lemma sanitize_string_get raw_string n :
  String.get n (sanitize_string raw_string) =
  option_map (fun c => if FORBIDDEN_CHARACTERS c then space else c)
             (String.get n raw_string).
Proof.
  revert n. induction raw_string as [|c r IH]; intros n; simpl.
  - reflexivity.
  - destruct n as [|n]; [reflexivity | apply IH].
Qed.

Lemma sanitize_string_count c raw_string :
  FORBIDDEN_CHARACTERS c = true ->
  Str.count c (sanitize_string raw_string) = 0.
Proof.
  intros Hc. induction raw_string as [|d r IH]; simpl; [reflexivity|].
  rewrite IH.
  destruct (FORBIDDEN_CHARACTERS d) eqn:Hd.
  - destruct (Ascii.eqb_spec c space) as [->|]; [discriminate Hc|reflexivity].
  - destruct (Ascii.eqb_spec c d) as [->|]; [congruence|reflexivity].
Qed.

(** C9.  The sanitised string has the length of the input; at every
    position it holds a space where the input holds a newline, a carriage
    return or a tab, and the input's own character everywhere else; and
    none of the three characters occurs in it. *)
Theorem sanitize_string_spec (raw_string : string) :
  String.length (sanitize_string raw_string) = String.length raw_string
  /\ (forall n,
        String.get n (sanitize_string raw_string) =
        match String.get n raw_string with
        | Some c =>
            Some (if Ascii.eqb c newline || Ascii.eqb c carriage_return
                     || Ascii.eqb c tab
                  then space else c)
        | None => None
        end)
  /\ Str.count newline (sanitize_string raw_string) = 0
  /\ Str.count carriage_return (sanitize_string raw_string) = 0
  /\ Str.count tab (sanitize_string raw_string) = 0.
Proof.
  split; [apply sanitize_string_length|].
  split; [intros n; rewrite sanitize_string_get;
          destruct (String.get n raw_string); reflexivity|].
  repeat split; apply sanitize_string_count; reflexivity.
Qed.

(** ** History assembly *)

Lemma yield_history_spec aiter items last_returned :
  yield_history aiter items last_returned =
  (map discord_message_to_generic_message aiter,
   items + length aiter,
   match last aiter with Some m => Some m | None => last_returned end).
Proof.
  revert items last_returned.
  induction aiter as [|item rest IH]; intros items last_returned.
  - simpl. by rewrite Nat.add_0_r.
  - cbn [yield_history]. rewrite IH. cbn [map length].
    rewrite last_cons.
    replace (items + 1 + length rest) with (items + S (length rest)) by lia.
    by destruct (last rest).
Qed.

Lemma history_plus_thread_kickoff_message_eq aiter limit :
  history_plus_thread_kickoff_message aiter limit =
  map discord_message_to_generic_message aiter ++
  match last aiter with
  | Some last_returned =>
      if (length aiter <? limit)%nat then
        match thread_kickoff_message last_returned with
        | Some ref => [discord_message_to_generic_message ref]
        | None => []
        end
      else []
  | None => []
  end.
Proof.
  unfold history_plus_thread_kickoff_message.
  rewrite yield_history_spec. by destruct (last aiter).
Qed.

Lemma thread_kickoff_message_Some last_returned ref :
  thread_kickoff_message last_returned = Some ref <->
  exists reference,
    raw_reference last_returned = Some reference
    /\ resolved reference = Some (ResolvedMessage ref).
Proof.
  unfold thread_kickoff_message. split.
  - destruct (raw_reference last_returned) as [reference|]; [|discriminate].
    destruct (resolved reference) as [[m|]|] eqn:Hr; try discriminate.
    intros [= ->]. eauto.
  - intros (reference & -> & ->). reflexivity.
Qed.

Lemma history_length_bound aiter limit :
  length aiter <= limit ->
  length (history_plus_thread_kickoff_message aiter limit) <= limit.
Proof.
  intros Hlen. rewrite history_plus_thread_kickoff_message_eq, length_app,
    length_map.
  destruct (last aiter) as [m|]; [|simpl; lia].
  destruct (Nat.ltb_spec (length aiter) limit); [|simpl; lia].
  destruct (thread_kickoff_message m); simpl; lia.
Qed.

Lemma recent_messages_following_thread_run env channel s :
  let budget := history_lines (prompt_generator (self s)) in
  let history := firstn budget (env_channel_messages env (trace s) channel) in
  recent_messages_following_thread env channel s =
  (Return (history_plus_thread_kickoff_message history budget),
   record [EHistory channel budget history] s).
Proof. reflexivity. Qed.

(** C5.  For a source stream that yields [aiter] and is then exhausted,
    and a budget [limit]: (1) when the stream is shorter than the budget
    and its last message is a reply whose reference resolves to a message,
    the assembled sequence is the normalised stream followed by exactly
    that message, normalised; (2) when the stream reaches the budget, or
    its last message is no such reply, nothing is added; (3) the orchestrator
    asks the platform for no more than the budget, and what it assembles
    from the answer is never longer than the budget plus one. *)
Theorem history_assembly (env : Env) (channel : Channel) (s : State)
    (aiter : list RawMessage) (limit : nat) :
  let assembled := history_plus_thread_kickoff_message aiter limit in
  let raw_output := map discord_message_to_generic_message aiter in
  let budget := history_lines (prompt_generator (self s)) in
  (forall last_returned reference ref,
      length aiter < limit ->
      last aiter = Some last_returned ->
      raw_reference last_returned = Some reference ->
      resolved reference = Some (ResolvedMessage ref) ->
      assembled = raw_output ++ [discord_message_to_generic_message ref])
  /\ (limit <= length aiter
      \/ (forall last_returned reference ref,
            last aiter = Some last_returned ->
            raw_reference last_returned = Some reference ->
            resolved reference <> Some (ResolvedMessage ref)) ->
      assembled = raw_output)
  /\ (length aiter <= limit -> length assembled <= limit + 1)
  /\ (exists history,
        recent_messages_following_thread env channel s =
        (Return (history_plus_thread_kickoff_message history budget),
         record [EHistory channel budget history] s)
        /\ length history <= budget
        /\ length (history_plus_thread_kickoff_message history budget)
           <= budget + 1).
Proof.
  cbv zeta. repeat split.
  - intros last_returned reference ref Hlen Hlast Href Hres.
    rewrite history_plus_thread_kickoff_message_eq, Hlast.
    destruct (Nat.ltb_spec (length aiter) limit); [|lia].
    assert (thread_kickoff_message last_returned = Some ref) as ->
      by (apply thread_kickoff_message_Some; eauto).
    reflexivity.
  - intros Hcase. rewrite history_plus_thread_kickoff_message_eq.
    destruct (last aiter) as [last_returned|] eqn:Hlast;
      [|by rewrite app_nil_r].
    destruct Hcase as [Hfull|Hnone].
    + destruct (Nat.ltb_spec (length aiter) limit); [lia|by rewrite app_nil_r].
    + destruct (thread_kickoff_message last_returned) as [ref|] eqn:Hk.
      * apply thread_kickoff_message_Some in Hk as (reference & Href & Hres).
        by destruct (Hnone last_returned reference ref).
      * destruct (length aiter <? limit)%nat; by rewrite app_nil_r.
  - intros Hlen. pose proof (history_length_bound aiter limit Hlen). lia.
  - eexists. split; [apply recent_messages_following_thread_run|].
    pose proof (firstn_le_length
                  (history_lines (prompt_generator (self s)))
                  (env_channel_messages env (trace s) channel)) as Hle.
    split; [exact Hle|].
    pose proof (history_length_bound _ _ Hle). lia.
Qed.
(** ** Reasoning about computations *)

Lemma record_record d1 d2 s :
  record d2 (record d1 s) = record (d1 ++ d2) s.
Proof.
  unfold record, with_trace; simpl. f_equal. symmetry. apply app_assoc.
Qed.

Lemma record_nil s : record [] s = s.
Proof. destruct s; unfold record, with_trace; simpl. by rewrite app_nil_r. Qed.

Lemma trace_record d s : trace (record d s) = trace s ++ d.
Proof. reflexivity. Qed.

Lemma self_record d s : self (record d s) = self s.
Proof. reflexivity. Qed.

Lemma store_record d s : store (record d s) = store s.
Proof. reflexivity. Qed.

Lemma spawned_record d s : spawned (record d s) = spawned s.
Proof. reflexivity. Qed.

Lemma bind_run {A B} (m : M A) (k : A -> M B) s :
  bind m k s =
  match m s with
  | (Return a, s') => k a s'
  | (Raise err, s') => (Raise err, s')
  end.
Proof. reflexivity. Qed.

Section Loop.

Variable env : Env.
Variable raw_message : RawMessage.
Variable response_channel : Channel.

Lemma normalize_run m s :
  normalize m s =
  (Return (discord_message_to_generic_message m),
   record (unknown_channel_warning m) s).
Proof.
  unfold normalize, unknown_channel_warning.
  destruct (channel_type (raw_channel m)); cbn; try reflexivity.
  all: by rewrite record_nil.
Qed.

Local Abbreviation marker s := (bot_prompt_line (prompt_generator (self s))).
Local Abbreviation loop := (send_sentences env raw_message response_channel).

Lemma send_sentences_continue x rest failure stats s :
  String.eqb (marker s) x = true ->
  loop (x :: rest) failure stats s =
  loop rest failure stats
    (record (taken (self s) x ++
             [ELog Warning ("Filtered out " ++ Str.dquote ++ x
                            ++ Str.dquote ++ " from response, continuing")])
       s).
Proof.
  intros Hm. cbn [send_sentences].
  cbn -[send_sentences String.append Str.endswith String.eqb].
  unfold taken.
  destruct (log_all_the_things (self s));
    cbn -[send_sentences String.append Str.endswith String.eqb];
    rewrite Hm;
    cbn -[send_sentences String.append Str.endswith String.eqb];
    rewrite ?record_record; reflexivity.
Qed.

Lemma send_sentences_break x rest failure stats s :
  String.eqb (marker s) x = false ->
  Str.endswith x " says:" = true ->
  loop (x :: rest) failure stats s =
  (Return stats,
   record (taken (self s) x ++
           [ELog Warning ("Filtered out " ++ Str.dquote ++ x
                          ++ Str.dquote ++ " from response, aborting")])
     s).
Proof.
  intros Hm He. cbn [send_sentences].
  cbn -[send_sentences String.append Str.endswith String.eqb].
  unfold taken.
  destruct (log_all_the_things (self s));
    cbn -[send_sentences String.append Str.endswith String.eqb];
    rewrite Hm, He;
    cbn -[send_sentences String.append Str.endswith String.eqb];
    rewrite ?record_record; reflexivity.
Qed.

Lemma send_sentences_sent x rest failure stats s m :
  String.eqb (marker s) x = false ->
  Str.endswith x " says:" = false ->
  env_send env (trace s ++ taken (self s) x) response_channel x = Return m ->
  loop (x :: rest) failure stats s =
  loop rest failure
    (mkResponseStats (stats_prompt stats) (stats_parts stats + 1))
    (record (taken (self s) x
             ++ [ESend response_channel x (Return m)]
             ++ unknown_channel_warning m
             ++ [ELogMessage (channel_id (raw_channel raw_message))
                   (discord_message_to_generic_message m);
                 ELogResponsePart])
       s).
Proof.
  intros Hm He Hs. cbn [send_sentences].
  cbn -[send_sentences String.append Str.endswith String.eqb normalize].
  unfold taken in *.
  destruct (log_all_the_things (self s));
    cbn -[send_sentences String.append Str.endswith String.eqb normalize] in *;
    rewrite Hm, He;
    rewrite bind_run; unfold send, call_fallible;
    cbn -[send_sentences String.append Str.endswith String.eqb normalize];
    rewrite <- ?app_assoc; cbn [app];
    rewrite Hs, bind_run, normalize_run;
    cbn -[send_sentences String.append Str.endswith String.eqb normalize];
    rewrite ?record_record; cbn [app]; rewrite <- ?app_assoc;
    reflexivity.
Qed.

Lemma send_sentences_failed x rest failure stats s err :
  String.eqb (marker s) x = false ->
  Str.endswith x " says:" = false ->
  env_send env (trace s ++ taken (self s) x) response_channel x = Raise err ->
  loop (x :: rest) failure stats s =
  (Raise err,
   record (taken (self s) x ++ [ESend response_channel x (Raise err)]) s).
Proof.
  intros Hm He Hs. cbn [send_sentences].
  cbn -[send_sentences String.append Str.endswith String.eqb normalize].
  unfold taken in *.
  destruct (log_all_the_things (self s));
    cbn -[send_sentences String.append Str.endswith String.eqb normalize] in *;
    rewrite Hm, He;
    rewrite bind_run; unfold send, call_fallible;
    cbn -[send_sentences String.append Str.endswith String.eqb normalize];
    rewrite <- ?app_assoc; cbn [app];
    rewrite Hs;
    rewrite ?record_record; reflexivity.
Qed.

Lemma last_prepend (pre d : list Event) e :
  last d = Some e -> last (pre ++ d) = Some e.
Proof. intros H. rewrite last_app, H. reflexivity. Qed.

Lemma loop_result_prepend stats pre d r :
  existsb Trace.raised pre = false ->
  loop_result response_channel
    (mkResponseStats (stats_prompt stats)
       (stats_parts stats + length (omap Trace.sent_message pre))) d r ->
  loop_result response_channel stats (pre ++ d) r.
Proof.
  intros Hpre. unfold loop_result.
  destruct r as [stats'|err]; rewrite existsb_app, Hpre; cbn.
  - intros [-> ->]. split; [reflexivity|].
    rewrite omap_app, length_app. f_equal. lia.
  - intros [-> Hlast]. split; [reflexivity|].
    destruct Hlast as [H|[text H]]; [left|right; exists text];
      by apply last_prepend.
Qed.

Lemma loop_spec_step bot sentences sentences' stats pre d r :
  Forall (loop_event raw_message response_channel) pre ->
  existsb Trace.raised pre = false ->
  existsb Trace.failed_send pre = false ->
  omap Trace.send_text pre = omap Trace.sent_text pre ->
  omap Trace.logged_message pre =
    map (fun m => (channel_id (raw_channel raw_message),
                   discord_message_to_generic_message m))
        (omap Trace.sent_message pre) ->
  length (omap Trace.response_part pre) =
    length (omap Trace.sent_message pre) ->
  fragments_to_send (bot_prompt_line (prompt_generator bot)) sentences =
    omap Trace.send_text pre
    ++ fragments_to_send (bot_prompt_line (prompt_generator bot)) sentences' ->
  fragments_consumed (bot_prompt_line (prompt_generator bot)) sentences =
    omap Trace.yielded pre
    ++ fragments_consumed (bot_prompt_line (prompt_generator bot))
         sentences' ->
  loop_spec raw_message response_channel bot sentences'
    (mkResponseStats (stats_prompt stats)
       (stats_parts stats + length (omap Trace.sent_message pre))) d r ->
  loop_spec raw_message response_channel bot sentences stats (pre ++ d) r.
Proof.
  intros Hev Hraised Hfailed Hsent Hlog Hparts Hsend Hcons
    (Hev' & Hres & (k1 & Hk1 & Hk1') & (k3 & Hk3 & Hk3')
     & (k2 & Hk2 & Hk2') & Hlog' & Hparts').
  unfold loop_spec.
  rewrite !omap_app, !existsb_app, Hfailed, map_app, !length_app.
  repeat split.
  - by apply Forall_app.
  - by apply loop_result_prepend.
  - exists k1. split; [|exact Hk1']. by rewrite Hsend, Hk1, app_assoc.
  - exists k3. split; [|exact Hk3']. by rewrite Hsent, Hk3, app_assoc.
  - exists k2. split; [|exact Hk2']. by rewrite Hcons, Hk2, app_assoc.
  - by rewrite Hlog, Hlog'.
  - by rewrite Hparts, Hparts'.
Qed.

Ltac pre_facts :=
  unfold taken, unknown_channel_warning;
  repeat match goal with
    | |- context [if log_all_the_things ?b then _ else _] =>
        destruct (log_all_the_things b)
    | |- context [match channel_type ?c with _ => _ end] =>
        destruct (channel_type c)
    end;
  cbn; first [reflexivity | by repeat constructor].

Lemma send_sentences_spec sentences failure stats s :
  exists d,
    snd (loop sentences failure stats s) = record d s
    /\ loop_spec raw_message response_channel (self s) sentences stats d
         (fst (loop sentences failure stats s)).
Proof.
  revert stats s. induction sentences as [|x rest IH]; intros stats s.
  - destruct failure as [err|]; cbn.
    + exists [ENext (Raised err)]. split; [reflexivity|].
      unfold loop_spec; cbn. repeat split; eauto.
      all: try (exists []; by auto).
      all: repeat constructor.
    + exists [ENext StopAsyncIteration]. split; [reflexivity|].
      unfold loop_spec; cbn. repeat split; eauto.
      all: try (exists []; by auto).
      all: try (destruct stats; cbn; f_equal; lia).
      all: repeat constructor.
  - destruct (String.eqb (marker s) x) eqn:Hm;
      [|destruct (Str.endswith x " says:") eqn:He;
        [|destruct (env_send env (trace s ++ taken (self s) x)
                      response_channel x) as [m|err] eqn:Hsnd]].
    + rewrite send_sentences_continue by exact Hm.
      match goal with |- context [record ?pre s] =>
        destruct (IH stats (record pre s)) as (d & Hs & Hspec);
        exists (pre ++ d)
      end.
      rewrite Hs, record_record. split; [reflexivity|].
      rewrite self_record in Hspec.
      assert (Hx : String.eqb x (marker s) = true)
        by (by rewrite String.eqb_sym).
      apply loop_spec_step with (sentences' := rest);
        cbn [fragments_to_send fragments_consumed]; rewrite ?Hx;
        [pre_facts ..|].
      replace (mkResponseStats _ _) with stats; [exact Hspec|].
      destruct stats; f_equal. 
      unfold taken; destruct (log_all_the_things (self s)); cbn; lia.
    + rewrite send_sentences_break by assumption.
      eexists. split; [reflexivity|]. cbn [fst].
      assert (Hx : String.eqb x (marker s) = false)
        by (by rewrite String.eqb_sym).
      unfold loop_spec. cbn [fragments_to_send fragments_consumed].
      rewrite Hx, He.
      repeat split.
      * pre_facts.
      * pre_facts.
      * destruct stats; cbn. f_equal. pre_facts; lia.
      * exists []. split; [pre_facts | reflexivity].
      * exists []. split; [pre_facts | reflexivity].
      * exists []. split; [pre_facts | reflexivity].
      * pre_facts.
      * pre_facts.
    + rewrite send_sentences_sent with (m := m) by assumption.
      match goal with |- context [record ?pre s] =>
        destruct (IH (mkResponseStats (stats_prompt stats)
                        (stats_parts stats + 1)) (record pre s))
          as (d & Hs & Hspec);
        exists (pre ++ d)
      end.
      rewrite Hs, record_record. split; [reflexivity|].
      rewrite self_record in Hspec.
      assert (Hx : String.eqb x (marker s) = false)
        by (by rewrite String.eqb_sym).
      apply loop_spec_step with (sentences' := rest);
        cbn [fragments_to_send fragments_consumed]; rewrite ?Hx, ?He;
        [pre_facts ..|].
      match goal with
      | |- loop_spec _ _ _ _ ?st _ _ =>
          replace st with (mkResponseStats (stats_prompt stats)
                             (stats_parts stats + 1));
          [exact Hspec|]
      end.
      f_equal. pre_facts.
    + rewrite send_sentences_failed with (err := err) by assumption.
      eexists. split; [reflexivity|]. cbn [fst].
      assert (Hx : String.eqb x (marker s) = false)
        by (by rewrite String.eqb_sym).
      unfold loop_spec. cbn [fragments_to_send fragments_consumed].
      rewrite Hx, He.
      repeat split.
      * pre_facts.
      * pre_facts.
      * right. exists x. pre_facts.
      * eexists. split; [pre_facts|]. pre_facts; discriminate.
      * exists [x]. split; [pre_facts|]. pre_facts; discriminate.
      * eexists. split; [pre_facts|]. pre_facts; discriminate.
      * pre_facts.
      * pre_facts.
Qed.
End Loop.

(** ** The reply coroutine *)

Section Reply.

Variable env : Env.

Lemma closing_run message m (r : Outcome ResponseStats) s :
  store s !! message = Some m ->
  match r with
  | Return response_stats =>
      m <- load message ;;
      write_to_log response_stats
        ("Response to " ++ author_name (generic_fields m) ++ " done!  ") ;;
      log_response_success response_stats
  | Raise err =>
      log Error ("Error: " ++ str err) ;;
      log_response_failure
  end%monad s = (Return tt, record (closing m r) s).
Proof.
  intros Hm. destruct r as [response_stats|err].
  - rewrite bind_run. unfold load. rewrite Hm.
    cbn -[String.append record].
    unfold log_response_success, emit. by rewrite record_record.
  - cbn -[String.append record].
    unfold log_response_failure, emit. by rewrite record_record.
Qed.

Lemma send_response_in_channel_spec message raw_message image_requested
    response_channel s :
  exists d,
    snd (send_response_in_channel env message raw_message image_requested
           response_channel s) = record d s
    /\ reply_run s message raw_message image_requested response_channel d
         (fst (send_response_in_channel env message raw_message
                 image_requested response_channel s)).
Proof.
  unfold send_response_in_channel. rewrite bind_run.
  change (load message s) with
    (match store s !! message with
     | Some m => (Return m, s)
     | None => (Raise (Exc "dangling reference"), s)
     end).
  destruct (store s !! message) as [m|] eqn:Hm.
  2:{ exists []. rewrite record_nil. split; [reflexivity|]. by constructor. }
  cbn -[send_sentences String.append history_plus_thread_kickoff_message].
  match goal with |- context [take ?n (env_channel_messages env ?t ?c)] =>
    generalize (take n (env_channel_messages env t c)); intros history end.
  match goal with |- context [env_get_throttle_message_id env ?t ?c] =>
    generalize (env_get_throttle_message_id env t c); intros repeated_id end.
  match goal with |- context [env_generate env ?t ?a ?b ?c ?d] =>
    destruct (env_generate env t a b c d) as [prompt_prefix|err] end.
  2:{ eexists. rewrite !record_record. split; [reflexivity|].
      by apply reply_no_prompt. }
  destruct (log_all_the_things (self s)) eqn:Hlog;
    destruct (dont_split_responses (self s)) eqn:Hsplit;
    cbn -[send_sentences String.append history_plus_thread_kickoff_message];
    rewrite !record_record; cbn [app];
    rewrite bind_run; unfold try_except; rewrite bind_run;
    unfold request_as_string, request_by_sentence, call;
    cbn [trace record with_trace];
    match goal with
    | |- context [env_request_as_string env ?t ?p] =>
        generalize (env_request_as_string env t p); intros generator
    | |- context [env_request_by_sentence env ?t ?p] =>
        generalize (env_request_by_sentence env t p); intros generator
    end;
    fold (record [ERequest as_string prompt_prefix generator]);
    fold (record [ERequest by_sentence prompt_prefix generator]);
    rewrite !record_record; cbn [app];
    match goal with
    | |- context [send_sentences env ?raw ?rc ?xs ?f ?st ?s1] =>
        destruct (send_sentences_spec env raw rc xs f st s1)
          as (d & Hs & Hspec);
        destruct (send_sentences env raw rc xs f st s1) as [r s2]
    end;
    cbn [fst snd] in Hs, Hspec; subst s2;
    rewrite self_record in Hspec;
    rewrite (closing_run message m r) by exact Hm;
    rewrite !record_record; cbn [fst snd];
    pose proof (reply_generated s message raw_message image_requested
                  response_channel m history repeated_id prompt_prefix
                  generator d r Hm Hspec) as Hrun;
    unfold composite, banner, request_kind, request_events in Hrun;
    rewrite Hlog, Hsplit in Hrun; cbn [app] in Hrun;
    (eexists; split; [reflexivity|exact Hrun]).
Qed.

Lemma reply_run_events s message raw_message image_requested
    response_channel d r :
  reply_run s message raw_message image_requested response_channel d r ->
  Forall (reply_event raw_message response_channel) d.
Proof.
  destruct 1 as [Hm|m history repeated_id err Hm
                |m history repeated_id prompt_prefix generator d r Hm Hspec].
  - constructor.
  - unfold request_events. by repeat constructor.
  - destruct Hspec as (Hev & _). unfold composite.
    rewrite !Forall_app. repeat split.
    + unfold request_events. by repeat constructor.
    + by repeat constructor.
    + unfold banner. destruct (log_all_the_things (self s));
        by repeat constructor.
    + by repeat constructor.
    + eapply Forall_impl; [exact Hev|].
      intros [] He; try exact He; try exact I; try contradiction.
    + destruct r; by repeat constructor.
Qed.

Lemma omap_nil_of_Forall {B} (f : Event -> option B) (P : Event -> Prop)
    (d : list Event) :
  (forall e, P e -> f e = None) -> Forall P d -> omap f d = [].
Proof.
  intros Hf. induction 1 as [|e d He _ IH]; [reflexivity|].
  cbn. by rewrite (Hf e He), IH.
Qed.

Lemma loop_event_quiet raw_message response_channel d :
  Forall (loop_event raw_message response_channel) d ->
  omap Trace.request_arrived d = []
  /\ omap Trace.response_success d = []
  /\ omap Trace.response_failure d = []
  /\ forall kind prompt generator, ~ In (ERequest kind prompt generator) d.
Proof.
  intros Hev. repeat split.
  1-3: eapply omap_nil_of_Forall; [|exact Hev]; by intros [].
  intros kind prompt generator Hin.
  rewrite List.Forall_forall in Hev. apply (Hev _ Hin).
Qed.

Lemma composite_loop_part {B} (f : Event -> option B) bot m raw_message
    image_requested response_channel history repeated_id prompt_prefix
    generator d r :
  (forall level text, f (ELog level text) = None) ->
  (forall text, f (EPrint text) = None) ->
  (forall c n h, f (EHistory c n h) = None) ->
  (forall k a, f (EGetThrottleMessageId k a) = None) ->
  (forall i h b t a, f (EGenerate i h b t a) = None) ->
  (forall p, f (ELogRequestArrived p) = None) ->
  (forall k p g, f (ERequest k p g) = None) ->
  f ELogResponseFailure = None ->
  (forall p st, f (EWriteToLog p st) = None) ->
  (forall st, f (ELogResponseSuccess st) = None) ->
  omap f (composite bot m raw_message image_requested response_channel
            history repeated_id prompt_prefix generator d r)
  = omap f d.
Proof.
  intros H1 H2 H3 H4 H5 H6 H7 H8 H9 H10.
  unfold composite, request_events, banner, closing.
  rewrite !omap_app. cbn.
  rewrite H1, H3, H4, H5, H6, H7. cbn.
  assert (omap f (if log_all_the_things bot
                  then [EPrint ("prompt_prefix:" ++ Str.rule);
                        EPrint prompt_prefix;
                        EPrint ("Response:" ++ Str.rule)]
                  else []) = []) as ->.
  { destruct (log_all_the_things bot); cbn; by rewrite ?H2. }
  assert (omap f match r with
                 | Return response_stats =>
                     [EWriteToLog
                        ("Response to " ++ author_name (generic_fields m)
                         ++ " done!  ") response_stats;
                      ELogResponseSuccess response_stats]
                 | Raise err =>
                     [ELog Error ("Error: " ++ str err);
                      ELogResponseFailure]
                 end = []) as ->.
  { destruct r; cbn; by rewrite ?H1, ?H8, ?H9, ?H10. }
  cbn. by rewrite app_nil_r.
Qed.

Lemma composite_existsb (f : Event -> bool) bot m raw_message
    image_requested response_channel history repeated_id prompt_prefix
    generator d r :
  (forall e, f e = true -> Trace.raised e = true) ->
  existsb f (composite bot m raw_message image_requested response_channel
               history repeated_id prompt_prefix generator d r)
  = existsb f d.
Proof.
  intros Hf.
  assert (Hno : forall e, Trace.raised e = false -> f e = false).
  { intros e He. destruct (f e) eqn:Hfe; [|reflexivity].
    apply Hf in Hfe. congruence. }
  unfold composite, request_events, banner, closing.
  rewrite !existsb_app. cbn. rewrite !Hno by reflexivity. cbn.
  assert (existsb f (if log_all_the_things bot
                     then [EPrint ("prompt_prefix:" ++ Str.rule);
                           EPrint prompt_prefix;
                           EPrint ("Response:" ++ Str.rule)]
                     else []) = false) as ->.
  { destruct (log_all_the_things bot); cbn; by rewrite ?Hno. }
  cbn. destruct r; cbn; rewrite !Hno by reflexivity; by rewrite !orb_false_r.
Qed.

Lemma composite_request bot m raw_message image_requested response_channel
    history repeated_id prompt_prefix generator d r kind prompt generator' :
  Forall (loop_event raw_message response_channel) d ->
  In (ERequest kind prompt generator')
     (composite bot m raw_message image_requested response_channel
        history repeated_id prompt_prefix generator d r) ->
  generator' = generator /\ prompt = prompt_prefix.
Proof.
  intros Hev. unfold composite, request_events, banner, closing.
  rewrite !in_app_iff. cbn.
  intros [H|[H|[H|[H|[H|H]]]]].
  - repeat destruct H as [H|H]; try discriminate H; contradiction.
  - repeat destruct H as [H|H]; try discriminate H; contradiction.
  - destruct (log_all_the_things bot); cbn in H;
      repeat destruct H as [H|H]; try discriminate H; contradiction.
  - destruct H as [H|[]]. by injection H as _ -> ->.
  - by apply (loop_event_quiet _ _ _ Hev) in H.
  - destruct r; cbn in H;
      repeat destruct H as [H|H]; try discriminate H; contradiction.
Qed.

End Reply.

Lemma fragments_to_send_In marker fragments x :
  In x (fragments_to_send marker fragments) ->
  x <> marker /\ Str.endswith x " says:" = false /\ In x fragments.
Proof.
  induction fragments as [|f rest IH]; cbn; [contradiction|].
  destruct (String.eqb_spec f marker) as [->|Hne].
  - intros H. destruct (IH H) as (? & ? & ?). auto.
  - destruct (Str.endswith f " says:") eqn:He; [contradiction|].
    intros [<-|H]; [auto|]. destruct (IH H) as (? & ? & ?). auto.
Qed.

Lemma send_text_In d text :
  In text (omap Trace.send_text d) <-> exists c a, In (ESend c text a) d.
Proof.
  induction d as [|e d IH]; cbn.
  - split; [contradiction|]. by intros (? & ? & []).
  - destruct e; cbn; rewrite ?IH;
      try (split; [intros (c & a & H); exists c, a; by right
                  |intros (c & a & [H|H]); [discriminate H|eauto]]).
    split.
    + intros [->|(c & a & H)]; [eauto|]. exists c, a. by right.
    + intros (c & a & [H|H]); [injection H as _ -> _; by left|].
      right. eauto.
Qed.

Ltac project_composite :=
  rewrite ?(composite_loop_part Trace.send_text),
    ?(composite_loop_part Trace.sent_text),
    ?(composite_loop_part Trace.yielded),
    ?(composite_loop_part Trace.sent_message),
    ?(composite_loop_part Trace.logged_message),
    ?(composite_loop_part Trace.response_part) by reflexivity;
  rewrite ?(composite_existsb Trace.failed_send),
    ?(composite_existsb Trace.raised)
    by (intros []; cbn; try discriminate;
        match goal with |- context [match ?a with _ => _ end] =>
          destruct a end; cbn; congruence).

(** C2.  In a run of [send_response_in_channel] that asked the generation
    client for a stream, with [fragments] the fragments of that stream and
    [marker] the configured bot prompt line: the texts handed to the
    platform's [send], in order, are a prefix of what the three rules of
    the specification select from [fragments] (the marker dropped, nothing
    from the first fragment ending in [" says:"] on, every other fragment
    once), and all of it when no [send] failed; the same holds of the texts
    that were sent; the fragments taken from the stream are a prefix of
    those up to and including the first one ending in [" says:"]; and every
    text handed to [send] is a fragment of the stream that is not the
    marker and does not end in [" says:"], sent to the response channel. *)
Theorem fragment_filtering (env : Env) (message : ref)
    (raw_message : RawMessage) (image_requested : bool)
    (response_channel : Channel) (s : State) :
  let marker := bot_prompt_line (prompt_generator (self s)) in
  exists d,
    snd (send_response_in_channel env message raw_message image_requested
           response_channel s) = record d s
    /\ forall kind prompt generator,
         In (ERequest kind prompt generator) d ->
         let fragments := sentences generator in
         (exists rest,
             fragments_to_send marker fragments
             = omap Trace.send_text d ++ rest
             /\ (existsb Trace.failed_send d = false -> rest = []))
         /\ (exists rest,
               fragments_to_send marker fragments
               = omap Trace.sent_text d ++ rest
               /\ (existsb Trace.failed_send d = false -> rest = []))
         /\ (exists rest,
               fragments_consumed marker fragments
               = omap Trace.yielded d ++ rest
               /\ (existsb Trace.failed_send d = false -> rest = []))
         /\ (forall c text answer,
               In (ESend c text answer) d ->
               c = response_channel
               /\ text <> marker
               /\ Str.endswith text " says:" = false
               /\ In text fragments).
Proof.
  cbv zeta.
  destruct (send_response_in_channel_spec env message raw_message
              image_requested response_channel s) as (d & Hs & Hrun).
  exists d. split; [exact Hs|].
  intros kind prompt generator' Hin.
  destruct Hrun as [Hm|m history repeated_id err Hm
                   |m history repeated_id prompt_prefix generator d r Hm Hspec].
  - destruct Hin.
  - cbn in Hin. repeat destruct Hin as [Hin|Hin]; try discriminate Hin.
    destruct Hin.
  - pose proof Hspec as (Hev & _ & (k1 & Hk1 & Hk1') & (k2 & Hk2 & Hk2')
                         & (k3 & Hk3 & Hk3') & _).
    destruct (composite_request _ _ _ _ _ _ _ _ _ _ _ _ _ _ Hev Hin)
      as [-> ->].
    assert (Hsends :
      forall c text answer,
        In (ESend c text answer)
           (composite (self s) m raw_message image_requested
              response_channel history repeated_id prompt_prefix generator
              d r) ->
        c = response_channel /\ In (ESend c text answer) d).
    { intros c text answer. unfold composite, request_events, banner, closing.
      rewrite !in_app_iff. cbn.
      intros [H|[H|[H|[H|[H|H]]]]].
      - repeat destruct H as [H|H]; try discriminate H; contradiction.
      - repeat destruct H as [H|H]; try discriminate H; contradiction.
      - destruct (log_all_the_things (self s)); cbn in H;
          repeat destruct H as [H|H]; try discriminate H; contradiction.
      - repeat destruct H as [H|H]; try discriminate H; contradiction.
      - split; [|exact H]. rewrite List.Forall_forall in Hev.
        exact (Hev _ H).
      - destruct r; cbn in H;
          repeat destruct H as [H|H]; try discriminate H; contradiction. }
    project_composite.
    split; [by exists k1|].
    split.
    { exists (k2 ++ k1). split; [by rewrite Hk1, Hk2, app_assoc|].
      intros Hok. by rewrite (Hk1' Hok), (Hk2' Hok). }
    split; [by exists k3|].
    intros c text answer Hsend.
    destruct (Hsends _ _ _ Hsend) as [-> Hd]. split; [reflexivity|].
    apply fragments_to_send_In. rewrite Hk1. apply in_app_iff. left.
    apply send_text_In. eauto.
Qed.

Lemma composite_stats bot m raw_message image_requested response_channel
    history repeated_id prompt_prefix generator d r :
  Forall (loop_event raw_message response_channel) d ->
  let events :=
    composite bot m raw_message image_requested response_channel history
      repeated_id prompt_prefix generator d r in
  omap Trace.request_arrived events = [prompt_prefix]
  /\ omap Trace.response_success events
     = match r with Return stats => [stats] | Raise _ => [] end
  /\ omap Trace.response_failure events
     = match r with Return _ => [] | Raise _ => [tt] end
  /\ last events
     = Some match r with
            | Return stats => ELogResponseSuccess stats
            | Raise _ => ELogResponseFailure
            end.
Proof.
  intros Hev. destruct (loop_event_quiet _ _ _ Hev) as (Ha & Hs & Hf & _).
  cbv zeta. unfold composite, request_events, banner, closing.
  rewrite !omap_app, Ha, Hs, Hf.
  repeat split.
  - destruct (log_all_the_things bot), r; reflexivity.
  - destruct (log_all_the_things bot), r; reflexivity.
  - destruct (log_all_the_things bot), r; reflexivity.
  - rewrite !app_assoc. destruct r.
    + rewrite (last_app_cons _ [_] _). reflexivity.
    + rewrite (last_app_cons _ [_] _). reflexivity.
Qed.

(** C6.  In every run of [send_response_in_channel]: [log_request_arrived]
    is called at most once; when it is not called, neither reporter is;
    when it is called, exactly one of the two reporters is called, once.
    If a [send] or the generation stream raised, that call is
    [log_response_failure], and it is the last thing the run does.  If
    nothing raised -- the stream ended, or the loop stopped at a fragment
    ending in [" says:"] -- that call is [log_response_success] with the
    handle of this request, its part counter at the number of messages
    sent, and it is the last thing the run does.  The trace only grows:
    what was sent stays sent. *)
Theorem stats_reported_once (env : Env) (message : ref)
    (raw_message : RawMessage) (image_requested : bool)
    (response_channel : Channel) (s : State) :
  exists d,
    snd (send_response_in_channel env message raw_message image_requested
           response_channel s) = record d s
    /\ length (omap Trace.request_arrived d) <= 1
    /\ (omap Trace.request_arrived d = [] ->
        omap Trace.response_success d = []
        /\ omap Trace.response_failure d = [])
    /\ (forall prompt,
          In (ELogRequestArrived prompt) d ->
          let stats :=
            mkResponseStats prompt (length (omap Trace.sent_message d)) in
          length (omap Trace.response_success d)
          + length (omap Trace.response_failure d) = 1
          /\ (existsb Trace.raised d = true ->
              omap Trace.response_failure d = [tt]
              /\ omap Trace.response_success d = []
              /\ last d = Some ELogResponseFailure)
          /\ (existsb Trace.raised d = false ->
              omap Trace.response_failure d = []
              /\ omap Trace.response_success d = [stats]
              /\ last d = Some (ELogResponseSuccess stats))).
Proof.
  destruct (send_response_in_channel_spec env message raw_message
              image_requested response_channel s) as (d & Hs & Hrun).
  exists d. split; [exact Hs|].
  destruct Hrun as [Hm|m history repeated_id err Hm
                   |m history repeated_id prompt_prefix generator d r Hm Hspec].
  - cbn. split; [lia|]. split; [done|]. intros prompt [].
  - cbn. split; [lia|]. split; [done|]. intros prompt Hin.
    repeat destruct Hin as [Hin|Hin]; try discriminate Hin. destruct Hin.
  - destruct Hspec as (Hev & Hres & _).
    destruct (composite_stats (self s) m raw_message image_requested
                response_channel history repeated_id prompt_prefix generator
                d r Hev) as (Ha & Hsucc & Hfail & Hlast).
    cbv zeta in *. rewrite Ha, Hsucc, Hfail, Hlast.
    project_composite.
    split; [cbn; lia|]. split; [discriminate|].
    intros prompt Hin.
    assert (prompt = prompt_prefix) as ->.
    { assert (Hp : In prompt (omap Trace.request_arrived
                (composite (self s) m raw_message image_requested
                   response_channel history repeated_id prompt_prefix
                   generator d r))).
      { apply list_elem_of_In, list_elem_of_omap.
        exists (ELogRequestArrived prompt).
        split; [by apply list_elem_of_In|reflexivity]. }
      rewrite Ha in Hp. destruct Hp as [->|[]]. reflexivity. }
    unfold loop_result in Hres.
    destruct r as [stats|err]; cbn in Hres; destruct Hres as [Hraised Hr].
    + rewrite Hraised. subst stats. cbn.
      repeat split; try discriminate; reflexivity.
    + rewrite Hraised. cbn. repeat split; try discriminate; reflexivity.
Qed.

(** C8.  In every run of [send_response_in_channel] for the triggering
    message [raw_message], whatever the response channel (the origin
    channel or a thread): the messages reported to the repetition tracker
    are, in order, exactly the platform messages that [send] returned, each
    normalised and each keyed by the id of the channel of [raw_message];
    [log_response_part] is called as many times as messages were sent; and
    [get_throttle_message_id] is only ever asked for the id of the channel
    of [raw_message]. *)
Theorem tracker_keyed_by_origin (env : Env) (message : ref)
    (raw_message : RawMessage) (image_requested : bool)
    (response_channel : Channel) (s : State) :
  let origin := channel_id (raw_channel raw_message) in
  exists d,
    snd (send_response_in_channel env message raw_message image_requested
           response_channel s) = record d s
    /\ omap Trace.logged_message d
       = map (fun sent => (origin, discord_message_to_generic_message sent))
             (omap Trace.sent_message d)
    /\ length (omap Trace.response_part d)
       = length (omap Trace.sent_message d)
    /\ (forall k m, In (ELogMessage k m) d -> k = origin)
    /\ (forall k answer, In (EGetThrottleMessageId k answer) d -> k = origin)
    /\ (forall c text answer,
          In (ESend c text answer) d -> c = response_channel).
Proof.
  cbv zeta.
  destruct (send_response_in_channel_spec env message raw_message
              image_requested response_channel s) as (d & Hs & Hrun).
  exists d. split; [exact Hs|].
  pose proof (reply_run_events _ _ _ _ _ _ _ Hrun) as Hev.
  rewrite List.Forall_forall in Hev.
  assert (Hkeys :
    (forall k m, In (ELogMessage k m) d ->
                 k = channel_id (raw_channel raw_message))
    /\ (forall k answer, In (EGetThrottleMessageId k answer) d ->
                         k = channel_id (raw_channel raw_message))
    /\ (forall c text answer,
          In (ESend c text answer) d -> c = response_channel)).
  { repeat split; intros ? ? ?; try intros ?;
      match goal with H : In _ d |- _ => exact (Hev _ H) end. }
  destruct Hrun as [Hm|m history repeated_id err Hm
                   |m history repeated_id prompt_prefix generator d r Hm Hspec].
  - by repeat split.
  - repeat split; try reflexivity; apply Hkeys.
  - destruct Hspec as (_ & _ & _ & _ & _ & Hlog & Hparts).
    project_composite.
    repeat split; try assumption; apply Hkeys.
Qed.

(** ** The handler *)

Lemma is_ChannelMessage_normalized raw_message :
  is_ChannelMessage (discord_message_to_generic_message raw_message) =
  match channel_type (raw_channel raw_message) with
  | DMChannel | OtherChannel => false
  | _ => true
  end.
Proof.
  unfold discord_message_to_generic_message.
  by destruct (channel_type (raw_channel raw_message)).
Qed.

Lemma reply_event_quiet raw_message response_channel d :
  Forall (reply_event raw_message response_channel) d ->
  omap Trace.thread_request d = []
  /\ omap Trace.assignment d = []
  /\ omap Trace.mention d = [].
Proof.
  intros Hev. repeat split.
  all: eapply omap_nil_of_Forall; [|exact Hev]; by intros [].
Qed.

Lemma Forall_In_impl {A} (P : A -> Prop) (l : list A) x :
  Forall P l -> In x l -> P x.
Proof. rewrite List.Forall_forall. auto. Qed.

Lemma sends_follow_thread_skip raw_message name e d :
  Trace.send_text e = None ->
  sends_follow_thread raw_message name d ->
  sends_follow_thread raw_message name (e :: d).
Proof.
  intros He H d1 c text answer d2 Heq.
  destruct d1 as [|e' d1]; cbn in Heq; injection Heq as -> Hd.
  - discriminate He.
  - destruct (H _ _ _ _ _ Hd) as (id & Hin & ->).
    exists id. split; [by right|reflexivity].
Qed.

Lemma sends_follow_thread_found raw_message name id d :
  Forall (fun e => match e with
                   | ESend c _ _ => c = mkChannel Thread id name
                   | _ => True
                   end) d ->
  sends_follow_thread raw_message name
    (ECreateThread raw_message name (Return id) :: d).
Proof.
  intros H d1 c text answer d2 Heq.
  destruct d1 as [|e' d1]; cbn in Heq; [discriminate Heq|].
  injection Heq as <- ->.
  exists id. split; [by left|].
  apply (Forall_In_impl _ _ (ESend c text answer) H).
  apply in_app_iff. right. by left.
Qed.

Lemma sends_follow_thread_none raw_message name d :
  Forall (fun e => Trace.send_text e = None) d ->
  sends_follow_thread raw_message name d.
Proof.
  intros H d1 c text answer d2 ->.
  assert (Hin : In (ESend c text answer) (d1 ++ ESend c text answer :: d2))
    by (apply in_app_iff; right; by left).
  discriminate (Forall_In_impl _ _ _ H Hin).
Qed.

Lemma sends_to_of_Forall channel d :
  Forall (fun e => match e with
                   | ESend c _ _ => c = channel
                   | _ => True
                   end) d ->
  forall c text answer, In (ESend c text answer) d -> c = channel.
Proof. intros H c text answer Hin. exact (Forall_In_impl _ _ _ H Hin). Qed.

(** Symbolic execution of the handler: unfold the monad, split on every
    test the code makes and on every answer of the environment, and
    replace a run of the reply task by what [send_response_in_channel_spec]
    says of it. *)
Ltac exec_step env :=
  first
    [ rewrite lookup_insert_eq
    | rewrite lookup_alter_eq
    | rewrite is_ChannelMessage_normalized
    | match goal with
      | H : channel_type ?c = _ |- context [channel_type ?c] => rewrite H
      | H : reply_in_thread ?b = _ |- context [reply_in_thread ?b] =>
          rewrite H
      | H : author_type ?a = _ |- context [author_type ?a] => rewrite H
      | H : create_public_threads ?p = _
        |- context [create_public_threads ?p] => rewrite H
      | |- context [match channel_type ?c with _ => _ end] =>
          destruct (channel_type c) eqn:?
      | |- context [env_should_reply_to_message env ?t ?i ?m] =>
          destruct (env_should_reply_to_message env t i m)
            as [[|] [|]] eqn:?
      | |- context [match image_generator ?b with _ => _ end] =>
          destruct (image_generator b) eqn:?
      | |- context [env_maybe_get_image_prompt env ?t ?m] =>
          destruct (env_maybe_get_image_prompt env t m) eqn:?
      | |- context [if reply_in_thread ?b && _ && _ then _ else _] =>
          destruct (reply_in_thread b) eqn:?
      | |- context [match author_type ?a with _ => _ end] =>
          destruct (author_type a) eqn:?
      | |- context [if create_public_threads ?p then _ else _] =>
          destruct (create_public_threads p) eqn:?
      | |- context [env_create_thread env ?t ?m ?n] =>
          destruct (env_create_thread env t m n) eqn:?
      | |- context [env_generate_image env ?t ?p ?m ?c] =>
          destruct (env_generate_image env t p m c) eqn:?
      | |- context [send_response_in_channel env ?m ?raw ?img ?rc ?st] =>
          let d := fresh "d" in
          let Hs := fresh "Hs" in
          let Hrun := fresh "Hrun" in
          let Hev := fresh "Hev" in
          let r := fresh "r" in
          let s' := fresh "s'" in
          destruct (send_response_in_channel_spec env m raw img rc st)
            as (d & Hs & Hrun);
          destruct (send_response_in_channel env m raw img rc st)
            as [r s'];
          cbn [fst snd] in Hs, Hrun; subst s';
          pose proof (reply_run_events _ _ _ _ _ _ _ Hrun) as Hev;
          clear Hrun;
          pose proof (reply_event_quiet _ _ _ Hev) as (? & ? & ?)
      end ].

Ltac exec env :=
  repeat progress
    (unfold dispatch, on_message, typing, send_response, asyncio_wait,
       event_loop, run_task, normalize, should_reply_to_message,
       maybe_get_image_prompt, create_thread, generate_image, create_task,
       log_mention, assign_channel_id, load, new, log, emit, call,
       call_fallible, get_self, reraise, try_except, bind, ret,
       is_TextChannel, is_Thread, is_Member;
     cbn -[send_response_in_channel String.append
           discord_message_to_generic_message];
     try exec_step env).

(** Closing a goal [Forall P d] for an explicit [d] around the events of
    a reply task. *)
Ltac solve_Forall :=
  rewrite <- ?app_assoc; cbn [app];
  repeat first
    [ apply List.Forall_nil
    | apply List.Forall_cons;
        [first [exact I | reflexivity | done | idtac]|]
    | apply Forall_app; split
    | match goal with
      | H : Forall (reply_event _ _) ?d |- Forall _ ?d =>
          eapply Forall_impl; [exact H|];
          intros []; cbn; try done; try (intros ->; done)
      end ].

(** C4.  When the reply-in-thread policy is on, the message comes from a
    text channel, and its author is a member without the permission to
    create public threads: [send_response] returns [(None, None)] after a
    debug line and nothing else; and [on_message] returns normally, having
    asked the decision gate (and, if it said yes, shown the typing
    indicator and asked the image generator) and nothing more: no thread,
    no task, no message sent, no mention registered, no call on the stats
    collector, no error logged. *)
Theorem declined_silently (env : Env) (raw_message : RawMessage) (s : State) :
  reply_in_thread (self s) = true ->
  channel_type (raw_channel raw_message) = TextChannel ->
  author_type (raw_author raw_message) = Member ->
  create_public_threads
    (env_permissions_for env (raw_channel raw_message)
       (raw_author raw_message)) = false ->
  (forall message image_requested,
      send_response env message raw_message image_requested s =
      (Return (None, None),
       record [ELog Debug "User can't create threads, not responding."] s))
  /\ exists d,
       fst (on_message env raw_message s) = Return tt
       /\ trace (snd (on_message env raw_message s)) = trace s ++ d
       /\ spawned (snd (on_message env raw_message s)) = spawned s
       /\ Forall silent d.
Proof.
  intros Hpolicy Hchannel Hauthor Hperms. split.
  - intros message image_requested. unfold send_response.
    rewrite bind_run. unfold get_self.
    unfold is_TextChannel, is_Member.
    rewrite Hpolicy, Hchannel, Hauthor, Hperms. reflexivity.
  - destruct s as [bot st sp tr]. cbn in Hpolicy |- *.
    exec env.
    all: eexists; split; [reflexivity|];
      split; [rewrite <- ?app_assoc; cbn [app]; reflexivity|];
      split; [reflexivity|]; solve_Forall.
Qed.

(** Computing a projection of an explicit trace around the events of a
    reply task. *)
Ltac project :=
  rewrite <- ?app_assoc; cbn [app];
  repeat progress
    (cbn -[String.append discord_message_to_generic_message];
     rewrite ?omap_app;
     repeat match goal with
       | H : omap _ ?d = [] |- context [omap _ ?d] => rewrite H
       end).

Ltac absurd_In H :=
  cbn in H;
  repeat (destruct H as [H|H]; [try discriminate H|]);
  try contradiction; try discriminate H.

Ltac solve_ordering :=
  rewrite <- ?app_assoc; cbn [app];
  repeat lazymatch goal with
    | |- sends_follow_thread _ _ (ECreateThread _ _ (Return _) :: _) =>
        apply sends_follow_thread_found; solve_Forall
    | |- sends_follow_thread _ _ (_ :: _) =>
        apply sends_follow_thread_skip; [reflexivity|]
    end;
  try (apply sends_follow_thread_none; solve_Forall).

(** C3.  The first two parts are about [send_response] itself.  (1) When
    the policy is off, or the origin channel is not a text channel, or the
    author is not a guild member, it spawns the reply task on the origin
    channel and returns that channel; nothing else happens, in particular
    no thread is asked for.  (2) When the policy is on, the origin is a
    text channel and the author is a member who may create public threads,
    it asks the platform once for a thread named after the agent and the
    author; if the platform makes it, the reply task is spawned on that
    thread and the thread is returned; if the platform refuses, the
    exception leaves [send_response] and no task exists.  (3) Over the
    whole handling of one event, started with no task pending: in case (1)
    no thread is ever asked for and every message sent goes to the origin
    channel; in case (2) at most one thread is asked for, exactly one once
    the decision gate has said yes, and every message sent comes after the
    creation of that thread and goes to it. *)
Theorem reply_target (env : Env) (raw_message : RawMessage) (s : State) :
  let origin := raw_channel raw_message in
  let author := raw_author raw_message in
  let name :=
    (ai_name (self s) ++ ": Response to " ++ user_name author)%string in
  (reply_in_thread (self s) = false
   \/ channel_type origin <> TextChannel
   \/ author_type author <> Member ->
   forall message image_requested,
     let task := MessageTask message raw_message image_requested origin in
     send_response env message raw_message image_requested s =
     (Return (Some task, Some origin),
      record [ECreateTask task] (with_spawned (fun ts => ts ++ [task]) s)))
  /\ (reply_in_thread (self s) = true ->
      channel_type origin = TextChannel ->
      author_type author = Member ->
      create_public_threads (env_permissions_for env origin author) = true ->
      forall message image_requested,
        match env_create_thread env (trace s) raw_message name with
        | Return id =>
            let thread := mkChannel Thread id name in
            let task :=
              MessageTask message raw_message image_requested thread in
            send_response env message raw_message image_requested s =
            (Return (Some task, Some thread),
             record [ECreateTask task]
               (with_spawned (fun ts => ts ++ [task])
                  (record
                     [ECreateThread raw_message name (Return id);
                      ELog Debug ("Created response thread " ++ name
                                  ++ " in " ++ channel_name origin)]
                     s)))
        | Raise err =>
            send_response env message raw_message image_requested s =
            (Raise err,
             record [ECreateThread raw_message name (Raise err)] s)
        end)
  /\ (spawned s = [] ->
      exists d,
        trace (snd (dispatch env raw_message s)) = trace s ++ d
        /\ (reply_in_thread (self s) = false
            \/ channel_type origin <> TextChannel
            \/ author_type author <> Member ->
            omap Trace.thread_request d = []
            /\ forall c text answer,
                 In (ESend c text answer) d -> c = origin)
        /\ (reply_in_thread (self s) = true ->
            channel_type origin = TextChannel ->
            author_type author = Member ->
            create_public_threads (env_permissions_for env origin author)
              = true ->
            length (omap Trace.thread_request d) <= 1
            /\ (forall uid m summon,
                  In (EShouldReply uid m (true, summon)) d ->
                  omap Trace.thread_request d = [(raw_message, name)])
            /\ sends_follow_thread raw_message name d)).
Proof.
  cbv zeta. split; [|split].
  - intros Hcase message image_requested. unfold send_response.
    rewrite bind_run. unfold get_self, is_TextChannel, is_Member.
    destruct (reply_in_thread (self s)) eqn:Hpolicy;
      destruct (channel_type (raw_channel raw_message)) eqn:Hchannel;
      destruct (author_type (raw_author raw_message)) eqn:Hauthor;
      try reflexivity.
    destruct Hcase as [H|[H|H]]; [discriminate H|by destruct H..].
  - intros Hpolicy Hchannel Hauthor Hperms message image_requested.
    unfold send_response. rewrite bind_run.
    unfold get_self, is_TextChannel, is_Member.
    rewrite Hpolicy, Hchannel, Hauthor, Hperms.
    unfold create_thread, create_task, call_fallible, log, emit, bind, ret.
    cbn -[String.append].
    destruct (env_create_thread env (trace s) raw_message _);
      unfold record, with_trace, with_spawned; cbn -[String.append];
      rewrite <- ?app_assoc; reflexivity.
  - intros Hsp. destruct s as [bot st sp tr]. cbn in Hsp. subst sp.
    cbn [self trace].
    exec env.
    all: eexists; split; [rewrite <- ?app_assoc; cbn [app]; reflexivity|].
    all: split;
      [ intros [Hc|[Hc|Hc]];
        try discriminate Hc; try (by destruct Hc);
        (split;
         [project; reflexivity
         |apply sends_to_of_Forall; solve_Forall])
      | intros Hc1 Hc2 Hc3 Hc4;
        try discriminate Hc1; try discriminate Hc2; try discriminate Hc3;
        try discriminate Hc4;
        (split; [project; cbn; lia|]);
        (split;
         [intros uid m summon Hin;
          first [project; reflexivity | exfalso; absurd_In Hin]
         |solve_ordering]) ].
Qed.

(** *** The rewrite of the channel id *)

Lemma omap_In {B} (f : Event -> option B) (d : list Event) e b :
  f e = Some b -> In e d -> In b (omap f d).
Proof.
  intros Hf Hin. apply list_elem_of_In, list_elem_of_omap.
  exists e. split; [by apply list_elem_of_In|exact Hf].
Qed.

Lemma mention_follows_assignment_none m0 d :
  omap Trace.assignment d = [] -> mention_follows_assignment m0 d.
Proof.
  intros Hno d1 r id d2 ->.
  rewrite omap_app in Hno. cbn in Hno.
  by destruct (omap Trace.assignment d1).
Qed.

Lemma mention_follows_assignment_skip m0 e d :
  Trace.assignment e = None ->
  mention_follows_assignment m0 d ->
  mention_follows_assignment m0 (e :: d).
Proof.
  intros He H d1 r id d2 Heq.
  destruct d1 as [|e' d1]; cbn in Heq; injection Heq as -> Hd.
  - discriminate He.
  - exact (H _ _ _ _ Hd).
Qed.

Lemma mention_follows_assignment_found m0 r id d :
  omap Trace.assignment d = [] ->
  mention_follows_assignment m0
    (EAssignChannelId r id :: ELogMention (set_channel_id id m0) :: d).
Proof.
  intros Hno d1 r' id' d2 Heq.
  destruct d1 as [|e' d1]; cbn in Heq.
  - injection Heq as -> -> <-. eauto.
  - injection Heq as _ Hd.
    assert (H : mention_follows_assignment m0
                  (ELogMention (set_channel_id id m0) :: d))
      by (by apply mention_follows_assignment_none).
    exact (H _ _ _ _ Hd).
Qed.

Lemma same_but_channel_id_refl m : same_but_channel_id m m.
Proof. by destruct m. Qed.

Lemma same_but_channel_id_set id m :
  same_but_channel_id m (set_channel_id id m).
Proof. by destruct m. Qed.

Lemma message_channel_id_set id m :
  is_ChannelMessage m = true ->
  message_channel_id (set_channel_id id m) = Some id.
Proof. by destruct m. Qed.

Ltac find_In :=
  rewrite <- ?app_assoc; cbn [app In];
  repeat first [ left; reflexivity | right ].

Ltac solve_mention :=
  rewrite <- ?app_assoc; cbn [app];
  repeat lazymatch goal with
    | |- mention_follows_assignment _ (EAssignChannelId _ _ :: _) =>
        apply mention_follows_assignment_found; project; reflexivity
    | |- mention_follows_assignment _ (_ :: _) =>
        apply mention_follows_assignment_skip; [reflexivity|]
    end;
  try (apply mention_follows_assignment_none; project; reflexivity).

Lemma set_channel_id_origin raw_message :
  channel_type (raw_channel raw_message) = Thread ->
  set_channel_id (channel_id (raw_channel raw_message))
    (discord_message_to_generic_message raw_message)
  = discord_message_to_generic_message raw_message.
Proof.
  intros H. unfold discord_message_to_generic_message. by rewrite H.
Qed.

(** C7.  Over the whole handling of one event, started with no task
    pending, with [m0] the message as normalised and [m'] the message
    object as it is at the end: [m'] differs from [m0] at most in its
    channel id; the assignment of lines 260-261 runs at most once, and
    when it does not run [m'] is [m0]; the channel id of [m'] differs from
    that of [m0] only if a thread was created for this message, and is
    then the id of that thread; when the assignment runs, it is on this
    message, which is a [ChannelMessage], the decision gate had answered
    that the message is a summon, the reply channel is a thread whose id
    is the one assigned -- either the origin channel itself, and then the
    id written is the id the message already had, or the thread that was
    created for this message -- and [m'] is [m0] with that channel id; the
    mention is registered right after the assignment with the rewritten
    message; and every mention registered is registered with [m']. *)
Theorem channel_id_rewrite (env : Env) (raw_message : RawMessage) (s : State) :
  spawned s = [] ->
  let message := fresh (dom (store s)) in
  let m0 := discord_message_to_generic_message raw_message in
  exists d m',
    trace (snd (dispatch env raw_message s)) = trace s ++ d
    /\ store (snd (dispatch env raw_message s)) = <[message := m']> (store s)
    /\ same_but_channel_id m0 m'
    /\ length (omap Trace.assignment d) <= 1
    /\ (omap Trace.assignment d = [] -> m' = m0)
    /\ (message_channel_id m' <> message_channel_id m0 ->
        exists name id,
          In (ECreateThread raw_message name (Return id)) d
          /\ message_channel_id m' = Some id)
    /\ (forall r id,
          In (EAssignChannelId r id) d ->
          r = message
          /\ m' = set_channel_id id m0
          /\ message_channel_id m' = Some id
          /\ (exists uid, In (EShouldReply uid m0 (true, true)) d)
          /\ exists image_requested response_channel,
               In (ECreateTask (MessageTask message raw_message
                                  image_requested response_channel)) d
               /\ channel_type response_channel = Thread
               /\ channel_id response_channel = id
               /\ (response_channel = raw_channel raw_message /\ m' = m0
                   \/ exists name,
                        response_channel = mkChannel Thread id name
                        /\ In (ECreateThread raw_message name (Return id)) d))
    /\ mention_follows_assignment m0 d
    /\ (forall m, In (ELogMention m) d -> m = m').
Proof.
  intros Hsp. destruct s as [bot st sp tr]. cbn in Hsp. subst sp.
  cbn [self trace store].
  exec env.
  all: eexists; eexists.
  all: split; [rewrite <- ?app_assoc; cbn [app]; reflexivity|].
  all: split; [rewrite ?alter_insert_eq; reflexivity|].
  all: split;
    [first [apply same_but_channel_id_refl | apply same_but_channel_id_set]|].
  all: split; [project; cbn; lia|].
  all: split;
    [intros Hno; first [reflexivity | revert Hno; project; discriminate]|].
  all: split;
    [intros Hne;
     first
       [ exfalso; apply Hne; reflexivity
       | exfalso; apply Hne; rewrite set_channel_id_origin by assumption;
         reflexivity
       | eexists _, _; split;
         [find_In
         |apply message_channel_id_set;
          rewrite is_ChannelMessage_normalized;
          match goal with H : channel_type _ = _ |- _ => rewrite H end;
          reflexivity] ]|].
  all: split; [|split; [solve_mention|]].
  all: try (intros m Hin;
            apply (omap_In Trace.mention _ (ELogMention m) m eq_refl) in Hin;
            revert Hin; project;
            first [intros [<-|[]]; reflexivity | intros []]).
  all: intros r0 id Hin;
    apply (omap_In Trace.assignment _ (EAssignChannelId r0 id) (r0, id)
             eq_refl) in Hin;
    revert Hin; project;
    first [intros [[= <- <-]|[]] | intros []].
  all: split; [reflexivity|].
  all: split; [reflexivity|].
  all: split;
    [apply message_channel_id_set; rewrite is_ChannelMessage_normalized;
     match goal with H : channel_type _ = _ |- _ => rewrite H end;
     reflexivity|].
  all: split; [eexists; find_In|].
  all: eexists _, _.
  all: split; [find_In|].
  all: split; [first [reflexivity | assumption]|].
  all: split; [reflexivity|].
  all: first [left; split;
                [reflexivity|apply set_channel_id_origin; assumption]
             |right; eexists; split; [reflexivity|find_In]].
Qed.

(** ** The timestamp table is never touched *)

Section Frame.

Variable env : Env.

Lemma ignores_table_ret {A} (a : A) : ignores_table (ret a).
Proof. by intros table s. Qed.

Lemma ignores_table_raise {A} err : ignores_table (@raise A err).
Proof. by intros table s. Qed.

Lemma ignores_table_reraise {A} (r : Outcome A) : ignores_table (reraise r).
Proof. by intros table s. Qed.

Lemma ignores_table_bind {A B} (c : M A) (k : A -> M B) :
  ignores_table c -> (forall a, ignores_table (k a)) ->
  ignores_table (bind c k).
Proof.
  intros Hc Hk table s. unfold bind. rewrite Hc.
  destruct (c s) as [[a|err] s']; cbn; [apply Hk|reflexivity].
Qed.

Lemma ignores_table_get_self_bind {B} (k : DiscordBot -> M B) :
  (forall bot, ignores_table (k bot)) ->
  (forall table bot, k (with_table table bot) = k bot) ->
  ignores_table (bind get_self k).
Proof.
  intros Hk Hsame table s. unfold bind, get_self. cbn.
  rewrite Hsame. apply Hk.
Qed.

Lemma ignores_table_try_except {A} (c : M A) :
  ignores_table c -> ignores_table (try_except c).
Proof.
  intros Hc table s. unfold try_except. rewrite Hc.
  by destruct (c s).
Qed.

Lemma ignores_table_emit e : ignores_table (emit e).
Proof. by intros table s. Qed.

Lemma ignores_table_call {A} (answer : list Event -> A) event :
  ignores_table (call answer event).
Proof. by intros table s. Qed.

Lemma ignores_table_call_fallible {A} (answer : list Event -> Outcome A)
    event :
  ignores_table (call_fallible answer event).
Proof. by intros table s. Qed.

Lemma ignores_table_new m : ignores_table (new m).
Proof. by intros table s. Qed.

Lemma ignores_table_load r : ignores_table (load r).
Proof. intros table s. unfold load. cbn. by destruct (store s !! r). Qed.

Lemma ignores_table_assign_channel_id r id :
  ignores_table (assign_channel_id r id).
Proof. by intros table s. Qed.

Lemma ignores_table_create_task task : ignores_table (create_task task).
Proof. by intros table s. Qed.

Ltac frame :=
  repeat first
    [ solve [auto 2]
    | apply ignores_table_get_self_bind; [intros ?|intros ? ?; reflexivity]
    | apply ignores_table_bind; [|intros ?]
    | apply ignores_table_ret
    | apply ignores_table_raise
    | apply ignores_table_reraise
    | apply ignores_table_try_except
    | apply ignores_table_emit
    | apply ignores_table_call
    | apply ignores_table_call_fallible
    | apply ignores_table_new
    | apply ignores_table_load
    | apply ignores_table_assign_channel_id
    | apply ignores_table_create_task
    | match goal with
      | |- ignores_table (if ?b then _ else _) => destruct b
      | |- ignores_table (match ?x with _ => _ end) => destruct x
      | |- ignores_table (let '(_, _) := ?x in _) => destruct x
      end ].

Lemma ignores_table_normalize m : ignores_table (normalize m).
Proof. unfold normalize, log. frame. Qed.

Lemma ignores_table_recent_messages channel :
  ignores_table (recent_messages_following_thread env channel).
Proof. unfold recent_messages_following_thread, channel_history. frame. Qed.

Lemma ignores_table_send_sentences raw_message response_channel sentences
    failure stats :
  ignores_table
    (send_sentences env raw_message response_channel sentences failure
       stats).
Proof.
  revert stats. induction sentences as [|x rest IH]; intros stats;
    cbn [send_sentences].
  - destruct failure; frame.
  - pose proof ignores_table_normalize.
    unfold log, print, send, log_message, log_response_part. frame.
    all: apply IH.
Qed.

Lemma ignores_table_send_response_in_channel message raw_message
    image_requested response_channel :
  ignores_table
    (send_response_in_channel env message raw_message image_requested
       response_channel).
Proof.
  pose proof ignores_table_recent_messages.
  pose proof ignores_table_send_sentences.
  unfold send_response_in_channel, log, print, get_throttle_message_id,
    generate, log_request_arrived, request_as_string, request_by_sentence,
    write_to_log, log_response_failure, log_response_success.
  frame.
Qed.

Lemma ignores_table_run_tasks tasks : ignores_table (run_tasks env tasks).
Proof.
  pose proof ignores_table_send_response_in_channel.
  induction tasks as [|task rest IH]; cbn [run_tasks]; [frame|].
  unfold run_task. frame.
Qed.

Lemma ignores_table_event_loop : ignores_table (event_loop env).
Proof.
  intros table s. unfold event_loop.
  exact (ignores_table_run_tasks (spawned s) table
           (with_spawned (fun _ => []) s)).
Qed.

Lemma ignores_table_send_response message raw_message image_requested :
  ignores_table (send_response env message raw_message image_requested).
Proof.
  pose proof ignores_table_create_task.
  unfold send_response, create_thread, log. frame.
Qed.

Lemma ignores_table_on_message raw_message :
  ignores_table (on_message env raw_message).
Proof.
  pose proof ignores_table_normalize.
  pose proof ignores_table_send_response.
  pose proof ignores_table_event_loop.
  unfold on_message, typing, asyncio_wait, should_reply_to_message,
    maybe_get_image_prompt, generate_image, log_mention, log.
  frame.
Qed.

Lemma ignores_table_dispatch raw_message :
  ignores_table (dispatch env raw_message).
Proof.
  pose proof ignores_table_on_message.
  pose proof ignores_table_event_loop.
  unfold dispatch. frame.
Qed.

Lemma ignores_table_on_ready user guilds :
  ignores_table (on_ready user guilds).
Proof.
  unfold on_ready, log. frame.
  all: by intros table s.
Qed.

Lemma ignores_table_unchanged {A} (c : M A) s :
  ignores_table c ->
  channel_last_direct_response (self (snd (c s)))
  = channel_last_direct_response (self s).
Proof.
  intros Hc.
  pose proof (Hc (channel_last_direct_response (self s)) s) as H.
  assert (Hs : with_self
                 (with_table (channel_last_direct_response (self s))) s
               = s) by (by destruct s as [[] ? ? ?]).
  rewrite Hs in H.
  apply (f_equal (fun p => channel_last_direct_response (self (snd p))))
    in H.
  exact H.
Qed.

End Frame.

(** C10.  The table is empty when the bot is constructed.  Every operation
    of the bot -- [on_ready], [on_message], the whole handling of an event,
    [send_response], [recent_messages_following_thread],
    [send_response_in_channel] -- runs the same whatever the table holds
    (same outcome, same trace, same store, same tasks) and leaves the table
    as it found it. *)
Theorem timestamp_table_untouched (env : Env) :
  (forall decide_to_respond prompt_generator image_generator ai_name persona
          ignore_dms dont_split_responses reply_in_thread log_all_the_things,
      channel_last_direct_response
        (__init__ decide_to_respond prompt_generator image_generator ai_name
           persona ignore_dms dont_split_responses reply_in_thread
           log_all_the_things) = ∅)
  /\ (forall user guilds,
        ignores_table (on_ready user guilds)
        /\ forall s,
             channel_last_direct_response
               (self (snd (on_ready user guilds s)))
             = channel_last_direct_response (self s))
  /\ (forall raw_message,
        ignores_table (on_message env raw_message)
        /\ ignores_table (dispatch env raw_message)
        /\ forall s,
             channel_last_direct_response
               (self (snd (on_message env raw_message s)))
             = channel_last_direct_response (self s)
             /\ channel_last_direct_response
                  (self (snd (dispatch env raw_message s)))
                = channel_last_direct_response (self s))
  /\ (forall message raw_message image_requested,
        ignores_table
          (send_response env message raw_message image_requested)
        /\ forall s,
             channel_last_direct_response
               (self (snd (send_response env message raw_message
                             image_requested s)))
             = channel_last_direct_response (self s))
  /\ (forall channel,
        ignores_table (recent_messages_following_thread env channel)
        /\ forall s,
             channel_last_direct_response
               (self (snd (recent_messages_following_thread env channel s)))
             = channel_last_direct_response (self s))
  /\ (forall message raw_message image_requested response_channel,
        ignores_table
          (send_response_in_channel env message raw_message image_requested
             response_channel)
        /\ forall s,
             channel_last_direct_response
               (self (snd (send_response_in_channel env message raw_message
                             image_requested response_channel s)))
             = channel_last_direct_response (self s)).
Proof.
  split; [reflexivity|].
  split; [intros; split; [apply ignores_table_on_ready|];
          intros; apply ignores_table_unchanged, ignores_table_on_ready|].
  split; [intros; split; [apply ignores_table_on_message|];
          split; [apply ignores_table_dispatch|];
          intros; split; apply ignores_table_unchanged;
          [apply ignores_table_on_message|apply ignores_table_dispatch]|].
  split; [intros; split; [apply ignores_table_send_response|];
          intros; apply ignores_table_unchanged, ignores_table_send_response|].
  split; [intros; split; [apply ignores_table_recent_messages|];
          intros; apply ignores_table_unchanged,
            ignores_table_recent_messages|].
  intros; split; [apply ignores_table_send_response_in_channel|].
  intros; apply ignores_table_unchanged,
    ignores_table_send_response_in_channel.
Qed.


(** ** The theorems at work *)

(** Scenario B of the specification: a summon in a text channel with the
    thread policy on and the permission granted, two sentences generated.
    One thread, two messages sent to it in order, two tracker reports
    under the origin channel, one success report with two parts. *)
Example scenario_B :
  let d := trace (snd (dispatch (Demo.env ["Hello."; "I am well."] true)
                         Demo.hello (Demo.idle true))) in
  let thread := mkChannel Thread 555 "Rosie: Response to alice" in
  omap Trace.thread_request d =
    [(Demo.hello, "Rosie: Response to alice"%string)]
  /\ omap (fun e => match e with
                    | ESend c text _ => Some (c, text)
                    | _ => None
                    end) d
     = [(thread, "Hello."%string); (thread, "I am well."%string)]
  /\ map fst (omap Trace.logged_message d) = [100%Z; 100%Z]
  /\ omap Trace.response_success d = [mkResponseStats "PROMPT" 2]
  /\ omap Trace.response_failure d = [].
Proof. vm_compute. repeat split. Qed.

(** Scenario C: the second sentence ends in [" says:"]. Only the first
    is sent; success is reported, with one part; no failure. *)
Example scenario_C :
  let d := trace (snd (dispatch (Demo.env ["Hello."; "Narrator says:"] true)
                         Demo.hello (Demo.idle true))) in
  omap Trace.send_text d = ["Hello."%string]
  /\ omap Trace.response_success d = [mkResponseStats "PROMPT" 1]
  /\ omap Trace.response_failure d = [].
Proof. vm_compute. repeat split. Qed.

Ltac read_trace d Hs :=
  let Hd := fresh "Hd" in
  assert (Hd : d = trace (record d Demo.replying)) by reflexivity;
  rewrite <- Hs in Hd; vm_compute in Hd; subst d.

(** C2 at work: the stream [Demo.chatter] was asked for, and what was
    sent is what the rules select from it. *)
Lemma fragment_filtering_witness :
  exists d,
    snd (send_response_in_channel (Demo.env Demo.chatter true) 0 Demo.hello
           false Demo.general Demo.replying) = record d Demo.replying
    /\ In (ERequest by_sentence "PROMPT" (mkGenerator Demo.chatter None)) d
    /\ (exists rest,
          fragments_to_send "Rosie says:" Demo.chatter
          = omap Trace.sent_text d ++ rest
          /\ (existsb Trace.failed_send d = false -> rest = [])).
Proof.
  destruct (fragment_filtering (Demo.env Demo.chatter true) 0 Demo.hello
              false Demo.general Demo.replying) as (d & Hs & H).
  exists d. split; [exact Hs|].
  assert (Hin : In (ERequest by_sentence "PROMPT"
                      (mkGenerator Demo.chatter None)) d).
  { read_trace d Hs. vm_compute. tauto. }
  split; [exact Hin|].
  exact (proj1 (proj2 (H _ _ _ Hin))).
Defined.

(** C3 at work: with the policy off the reply goes to "general"; with the
    policy on and the permission granted every send follows the thread. *)
Lemma reply_target_witness :
  (forall message image_requested,
      send_response (Demo.env Demo.chatter true) message Demo.hello
        image_requested (Demo.idle false)
      = (Return (Some (MessageTask message Demo.hello image_requested
                         Demo.general),
                 Some Demo.general),
         record [ECreateTask (MessageTask message Demo.hello image_requested
                                Demo.general)]
           (with_spawned
              (fun ts => ts ++ [MessageTask message Demo.hello
                                  image_requested Demo.general])
              (Demo.idle false))))
  /\ exists d,
       trace (snd (dispatch (Demo.env Demo.chatter true) Demo.hello
                     (Demo.idle true))) = d
       /\ length (omap Trace.thread_request d) <= 1
       /\ sends_follow_thread Demo.hello "Rosie: Response to alice" d.
Proof.
  split.
  - apply (proj1 (reply_target (Demo.env Demo.chatter true) Demo.hello
                    (Demo.idle false))).
    left. reflexivity.
  - destruct (proj2 (proj2 (reply_target (Demo.env Demo.chatter true)
                              Demo.hello (Demo.idle true))) eq_refl)
      as (d & Ht & _ & H).
    exists d. split; [exact Ht|].
    destruct (H eq_refl eq_refl eq_refl eq_refl) as (Hlen & _ & Hord).
    split; [exact Hlen|exact Hord].
Defined.

(** C4 at work: Alice may not create threads. *)
Lemma declined_silently_witness :
  reply_in_thread (self (Demo.idle true)) = true
  /\ channel_type (raw_channel Demo.hello) = TextChannel
  /\ author_type (raw_author Demo.hello) = Member
  /\ create_public_threads
       (env_permissions_for (Demo.env Demo.chatter false)
          (raw_channel Demo.hello) (raw_author Demo.hello)) = false
  /\ (forall message image_requested,
        send_response (Demo.env Demo.chatter false) message Demo.hello
          image_requested (Demo.idle true)
        = (Return (None, None),
           record [ELog Debug "User can't create threads, not responding."]
             (Demo.idle true)))
  /\ exists d,
       fst (on_message (Demo.env Demo.chatter false) Demo.hello
              (Demo.idle true)) = Return tt
       /\ trace (snd (on_message (Demo.env Demo.chatter false) Demo.hello
                        (Demo.idle true)))
          = trace (Demo.idle true) ++ d
       /\ spawned (snd (on_message (Demo.env Demo.chatter false) Demo.hello
                          (Demo.idle true)))
          = spawned (Demo.idle true)
       /\ Forall silent d.
Proof.
  repeat (split; [reflexivity|]).
  apply (declined_silently (Demo.env Demo.chatter false) Demo.hello
           (Demo.idle true)); reflexivity.
Defined.

(** C5 at work: a one-message thread whose message replies to [hello]. *)
Lemma history_assembly_witness :
  length [Demo.follow_up] < 3
  /\ history_plus_thread_kickoff_message [Demo.follow_up] 3
     = map discord_message_to_generic_message [Demo.follow_up]
       ++ [discord_message_to_generic_message Demo.hello].
Proof.
  split; [cbn; lia|].
  apply (proj1 (history_assembly (Demo.env Demo.chatter true) Demo.general
                  (Demo.idle true) [Demo.follow_up] 3)
           Demo.follow_up
           (mkMessageReference (Some (ResolvedMessage Demo.hello)))
           Demo.hello).
  - cbn; lia.
  - reflexivity.
  - reflexivity.
  - reflexivity.
Defined.

(** C6 at work: the request arrived, one reporter was called. *)
Lemma stats_reported_once_witness :
  exists d,
    snd (send_response_in_channel (Demo.env Demo.chatter true) 0 Demo.hello
           false Demo.general Demo.replying) = record d Demo.replying
    /\ In (ELogRequestArrived "PROMPT") d
    /\ length (omap Trace.response_success d)
       + length (omap Trace.response_failure d) = 1.
Proof.
  destruct (stats_reported_once (Demo.env Demo.chatter true) 0 Demo.hello
              false Demo.general Demo.replying) as (d & Hs & _ & _ & H).
  exists d. split; [exact Hs|].
  assert (Hin : In (ELogRequestArrived "PROMPT") d).
  { read_trace d Hs. vm_compute. tauto. }
  split; [exact Hin|].
  exact (proj1 (H _ Hin)).
Defined.

(** C7 at work: a summon answered in a new thread. *)
Lemma channel_id_rewrite_witness :
  spawned (Demo.idle true) = []
  /\ exists d m',
       trace (snd (dispatch (Demo.env Demo.chatter true) Demo.hello
                     (Demo.idle true))) = trace (Demo.idle true) ++ d
       /\ store (snd (dispatch (Demo.env Demo.chatter true) Demo.hello
                        (Demo.idle true)))
          = <[fresh (dom (store (Demo.idle true))) := m']>
              (store (Demo.idle true))
       /\ same_but_channel_id
            (discord_message_to_generic_message Demo.hello) m'
       /\ length (omap Trace.assignment d) <= 1
       /\ mention_follows_assignment
            (discord_message_to_generic_message Demo.hello) d.
Proof.
  split; [reflexivity|].
  destruct (channel_id_rewrite (Demo.env Demo.chatter true) Demo.hello
              (Demo.idle true) eq_refl)
    as (d & m' & Ht & Hst & Hsame & Hlen & _ & _ & _ & Hord & _).
  exists d, m'. repeat split; assumption.
Defined.

(** C8 at work: the reply goes to a thread, the tracker hears of
    channel 100. *)
Lemma tracker_keyed_by_origin_witness :
  exists d,
    snd (send_response_in_channel (Demo.env Demo.chatter true) 0 Demo.hello
           false (mkChannel Thread 555 "t") Demo.replying)
    = record d Demo.replying
    /\ In (ELogMessage 100
             (discord_message_to_generic_message
                (Demo.sent_in (mkChannel Thread 555 "t") "Hello."))) d
    /\ (forall k m, In (ELogMessage k m) d -> k = 100%Z).
Proof.
  destruct (tracker_keyed_by_origin (Demo.env Demo.chatter true) 0
              Demo.hello false (mkChannel Thread 555 "t") Demo.replying)
    as (d & Hs & _ & _ & Hkey & _).
  exists d. split; [exact Hs|].
  split; [|exact Hkey].
  read_trace d Hs. vm_compute. tauto.
Defined.

(** * Further properties *)

(** ** Sanitisation and normalisation *)

Lemma clean_spec s :
  clean s = true <->
  forall c, In c (list_ascii_of_string s) -> FORBIDDEN_CHARACTERS c = false.
Proof.
  induction s as [|c rest IH]; cbn.
  - split; [intros _ c []|reflexivity].
  - rewrite andb_true_iff, negb_true_iff, IH. split.
    + intros [Hc Hrest] c' [<-|Hin]; auto.
    + intros H. split; [apply H; by left|]. intros c' Hin. apply H. by right.
Qed.

Lemma clean_sanitize_string raw_string :
  clean (sanitize_string raw_string) = true.
Proof.
  induction raw_string as [|c rest IH]; [reflexivity|].
  cbn. rewrite IH, andb_true_r.
  by destruct (FORBIDDEN_CHARACTERS c) eqn:Hc; [|rewrite Hc].
Qed.

Lemma sanitize_string_clean s :
  clean s = true -> sanitize_string s = s.
Proof.
  induction s as [|c rest IH]; [reflexivity|].
  cbn. rewrite andb_true_iff, negb_true_iff. intros [-> Hrest].
  by rewrite IH.
Qed.

(** X1.  Sanitising twice is sanitising once. *)
Theorem sanitize_string_idempotent (raw_string : string) :
  sanitize_string (sanitize_string raw_string) = sanitize_string raw_string.
Proof. apply sanitize_string_clean, clean_sanitize_string. Qed.

(** X2.  Sanitising works character by character: the sanitised form of
    a concatenation is the concatenation of the sanitised parts. *)
Theorem sanitize_string_app (a b : string) :
  sanitize_string (a ++ b) = (sanitize_string a ++ sanitize_string b)%string.
Proof. induction a as [|c rest IH]; simpl; [reflexivity|by rewrite IH]. Qed.

(** X3.  The strings that [sanitize_string] leaves as they are, are
    exactly those without a newline, a carriage return or a tab. *)
Theorem sanitize_string_fixed_points (raw_string : string) :
  sanitize_string raw_string = raw_string <->
  forall c,
    In c (list_ascii_of_string raw_string) ->
    c <> newline /\ c <> carriage_return /\ c <> tab.
Proof.
  assert (Hchar : forall c,
    FORBIDDEN_CHARACTERS c = false <->
    c <> newline /\ c <> carriage_return /\ c <> tab).
  { intros c. rewrite <- not_true_iff_false, FORBIDDEN_CHARACTERS_spec.
    tauto. }
  split.
  - intros Hfix c Hin. apply Hchar.
    pose proof (clean_sanitize_string raw_string) as Hclean.
    rewrite Hfix in Hclean. by apply (proj1 (clean_spec raw_string)).
  - intros Hno. apply sanitize_string_clean, clean_spec.
    intros c Hin. apply Hchar, Hno, Hin.
Qed.

Lemma clean_message_normalized raw_message :
  clean_message (discord_message_to_generic_message raw_message) = true.
Proof.
  unfold clean_message, discord_message_to_generic_message.
  destruct (channel_type (raw_channel raw_message)); cbn;
    by rewrite !clean_sanitize_string.
Qed.

(** X4.  Whatever the platform holds, every message of the history that
    [history_plus_thread_kickoff_message] assembles is the normalised form
    of a message of the stream or of the message its last element refers
    to, and its author name and body text contain no newline, carriage
    return or tab; so does every message of what
    [recent_messages_following_thread] hands to the prompt generator. *)
Theorem history_is_clean (env : Env) (channel : Channel) (s : State)
    (aiter : list RawMessage) (limit : nat) :
  (forall m,
      In m (history_plus_thread_kickoff_message aiter limit) ->
      clean_message m = true
      /\ exists raw_message,
           In raw_message (history_sources aiter)
           /\ m = discord_message_to_generic_message raw_message)
  /\ exists recent_messages,
       fst (recent_messages_following_thread env channel s)
       = Return recent_messages
       /\ Forall (fun m => clean_message m = true) recent_messages.
Proof.
  assert (Hpure : forall aiter limit m,
    In m (history_plus_thread_kickoff_message aiter limit) ->
    clean_message m = true
    /\ exists raw_message,
         In raw_message (history_sources aiter)
         /\ m = discord_message_to_generic_message raw_message).
  { clear. intros aiter limit m.
    rewrite history_plus_thread_kickoff_message_eq. unfold history_sources.
    rewrite in_app_iff, in_map_iff.
    intros [(raw & <- & Hin)|Hin].
    - split; [apply clean_message_normalized|].
      exists raw. split; [|reflexivity]. apply in_app_iff. by left.
    - destruct (last aiter) as [last_returned|]; [|destruct Hin].
      destruct (length aiter <? limit)%nat; [|destruct Hin].
      destruct (thread_kickoff_message last_returned) as [ref|];
        [|destruct Hin].
      destruct Hin as [<-|[]].
      split; [apply clean_message_normalized|].
      exists ref. split; [|reflexivity]. apply in_app_iff. right. by left. }
  split; [apply Hpure|].
  rewrite recent_messages_following_thread_run. cbv zeta.
  eexists. split; [reflexivity|].
  apply List.Forall_forall. intros m Hin. by apply Hpure in Hin as [? _].
Qed.


(** ** The reply coroutine, further *)

Lemma In_composite e bot m raw_message image_requested response_channel
    history repeated_id prompt_prefix generator d r :
  In e (composite bot m raw_message image_requested response_channel
          history repeated_id prompt_prefix generator d r) <->
  In e (request_events bot m raw_message image_requested response_channel
          history repeated_id (Return prompt_prefix))
  \/ e = ELogRequestArrived prompt_prefix
  \/ In e (banner bot prompt_prefix)
  \/ e = ERequest (request_kind bot) prompt_prefix generator
  \/ In e d
  \/ In e (closing m r).
Proof.
  unfold composite. rewrite !in_app_iff. cbn [In]. split.
  - intros [H|[[H|[]]|[H|[[H|[]]|[H|H]]]]]; auto 8.
  - intros [H|[H|[H|[H|[H|H]]]]]; auto 10.
Qed.

Lemma In_banner e bot prompt_prefix :
  In e (banner bot prompt_prefix) -> exists text, e = EPrint text.
Proof.
  unfold banner. destruct (log_all_the_things bot); cbn; [|intros []].
  intros [<-|[<-|[<-|[]]]]; eauto.
Qed.

Lemma In_closing e m r :
  In e (closing m r) ->
  (exists text, e = ELog Error text) \/ e = ELogResponseFailure
  \/ (exists prefix stats, e = EWriteToLog prefix stats)
  \/ exists stats, e = ELogResponseSuccess stats.
Proof.
  destruct r; cbn; intros [<-|[<-|[]]]; eauto 6.
Qed.


(** X6.  [send_response_in_channel] returns normally exactly when the
    prompt was generated: an exception of the generation stream or of a
    [send] never leaves it.  When one is raised, the run ends with the
    call that raised, an error line with the text of that exception, and
    the failure report; nothing is sent after it.  *)
Theorem stream_errors_are_contained (env : Env) (message : ref)
    (raw_message : RawMessage) (image_requested : bool)
    (response_channel : Channel) (s : State) :
  exists d,
    snd (send_response_in_channel env message raw_message image_requested
           response_channel s) = record d s
    /\ (fst (send_response_in_channel env message raw_message
               image_requested response_channel s) = Return tt
        <-> omap Trace.request_arrived d <> [])
    /\ (existsb Trace.raised d = true ->
        fst (send_response_in_channel env message raw_message
               image_requested response_channel s) = Return tt
        /\ exists before e err,
             d = before ++ [e; ELog Error ("Error: " ++ str err);
                            ELogResponseFailure]
             /\ raising response_channel err e).
Proof.
  destruct (send_response_in_channel_spec env message raw_message
              image_requested response_channel s) as (d & Hs & Hrun).
  exists d. split; [exact Hs|].
  destruct Hrun as [Hm|m history repeated_id err' Hm
                   |m history repeated_id prompt_prefix generator d r Hm Hspec].
  - split; [split; [discriminate|by intros []]|discriminate].
  - split; [split; [discriminate|by intros []]|discriminate].
  - destruct Hspec as (Hev & Hres & _).
    destruct (composite_stats (self s) m raw_message image_requested
                response_channel history repeated_id prompt_prefix generator
                d r Hev) as (Ha & _).
    cbv zeta in Ha. rewrite Ha.
    split; [split; [discriminate|reflexivity]|].
    rewrite (composite_existsb Trace.raised) by auto.
    intros Hraised. split; [reflexivity|].
    unfold loop_result in Hres.
    destruct r as [stats|err]; destruct Hres as [Hr Hlast]; [congruence|].
    assert (Hend : exists before e,
              d = before ++ [e] /\ raising response_channel err e).
    { destruct Hlast as [Hl|[text Hl]];
        apply last_Some in Hl as [before ->]; eexists _, _;
        (split; [reflexivity|]); [by left|right; eauto]. }
    destruct Hend as (before & e & -> & He).
    eexists _, e, err. split; [|exact He].
    unfold composite, closing. rewrite !app_assoc.
    rewrite <- (app_assoc _ [e]). reflexivity.
Qed.

Lemma In_request_events e bot m raw_message image_requested response_channel
    history repeated_id answer :
  In e (request_events bot m raw_message image_requested response_channel
          history repeated_id answer) <->
  e = ELog Debug ("Request from " ++ author_name (generic_fields m))
  \/ e = EHistory response_channel (history_lines (prompt_generator bot))
           history
  \/ e = EGetThrottleMessageId (channel_id (raw_channel raw_message))
           repeated_id
  \/ e = EGenerate (ai_user_id bot)
           (history_plus_thread_kickoff_message history
              (history_lines (prompt_generator bot)))
           image_requested repeated_id answer.
Proof.
  unfold request_events. cbn [In]. split.
  - intros [<-|[<-|[<-|[<-|[]]]]]; auto.
  - intros [-> | [-> | [-> | ->]]]; auto.
Qed.

(** X7.  How the calls of [send_response_in_channel] feed each other.
    The prompt generator is given the bot's own user id, the flag
    [image_requested] as passed in, the throttle id that the repetition
    tracker answered for the channel of the triggering message, and the
    history assembled from what the response channel returned for the
    configured number of lines.  The generation client is asked in one
    piece when [dont_split_responses] is set and sentence by sentence
    otherwise, with the very prompt the generator returned, which is also
    the one reported to the stats collector. *)
Theorem prompt_inputs (env : Env) (message : ref)
    (raw_message : RawMessage) (image_requested : bool)
    (response_channel : Channel) (s : State) :
  let budget := history_lines (prompt_generator (self s)) in
  exists d,
    snd (send_response_in_channel env message raw_message image_requested
           response_channel s) = record d s
    /\ (forall uid h img id answer,
          In (EGenerate uid h img id answer) d ->
          uid = ai_user_id (self s)
          /\ img = image_requested
          /\ In (EGetThrottleMessageId (channel_id (raw_channel raw_message))
                   id) d
          /\ exists history,
               In (EHistory response_channel budget history) d
               /\ h = history_plus_thread_kickoff_message history budget)
    /\ (forall c limit history,
          In (EHistory c limit history) d ->
          c = response_channel /\ limit = budget)
    /\ (forall kind prompt generator,
          In (ERequest kind prompt generator) d ->
          kind = (if dont_split_responses (self s)
                  then as_string else by_sentence)
          /\ omap Trace.request_arrived d = [prompt]
          /\ exists h id,
               In (EGenerate (ai_user_id (self s)) h image_requested id
                     (Return prompt)) d).
Proof.
  cbv zeta.
  destruct (send_response_in_channel_spec env message raw_message
              image_requested response_channel s) as (d & Hs & Hrun).
  exists d. split; [exact Hs|].
  destruct Hrun as [Hm|m history repeated_id err' Hm
                   |m history repeated_id prompt_prefix generator d r Hm Hspec].
  - repeat split; intros; try contradiction.
  - split; [|split].
    + intros uid h img id answer Hin.
      apply In_request_events in Hin as [H|[H|[H|H]]]; try discriminate H.
      injection H as -> -> -> -> ->.
      split; [reflexivity|]. split; [reflexivity|].
      split; [apply In_request_events; auto|].
      exists history. split; [apply In_request_events; auto|reflexivity].
    + intros c limit h Hin.
      apply In_request_events in Hin as [H|[H|[H|H]]]; try discriminate H.
      by injection H as -> -> ->.
    + intros kind prompt generator Hin.
      apply In_request_events in Hin as [H|[H|[H|H]]]; discriminate H.
  - pose proof Hspec as (Hev & _).
    assert (Hloop : forall e, In e d ->
              loop_event raw_message response_channel e)
      by (intros e; apply Forall_In_impl; exact Hev).
    split; [|split].
    + intros uid h img id answer Hin.
      apply In_composite in Hin as [H|[H|[H|[H|[H|H]]]]];
        try discriminate H.
      * apply In_request_events in H as [H|[H|[H|H]]]; try discriminate H.
        injection H as -> -> -> -> ->.
        split; [reflexivity|]. split; [reflexivity|].
        split; [apply In_composite; left; apply In_request_events; auto|].
        exists history.
        split; [apply In_composite; left; apply In_request_events; auto
               |reflexivity].
      * apply In_banner in H as [text H]. discriminate H.
      * destruct (Hloop _ H).
      * apply In_closing in H as [[? H]|[H|[(? & ? & H)|[? H]]]];
          discriminate H.
    + intros c limit h Hin.
      apply In_composite in Hin as [H|[H|[H|[H|[H|H]]]]];
        try discriminate H.
      * apply In_request_events in H as [H|[H|[H|H]]]; try discriminate H.
        by injection H as -> -> ->.
      * apply In_banner in H as [text H]. discriminate H.
      * destruct (Hloop _ H).
      * apply In_closing in H as [[? H]|[H|[(? & ? & H)|[? H]]]];
          discriminate H.
    + intros kind prompt generator' Hin.
      destruct (composite_request _ _ _ _ _ _ _ _ _ _ _ _ _ _ Hev Hin)
        as [-> ->].
      destruct (composite_stats (self s) m raw_message image_requested
                  response_channel history repeated_id prompt_prefix
                  generator d r Hev) as (Ha & _).
      cbv zeta in Ha. rewrite Ha. split; [|split; [reflexivity|]].
      * apply In_composite in Hin as [H|[H|[H|[H|[H|H]]]]];
          try discriminate H.
        -- apply In_request_events in H as [H|[H|[H|H]]]; discriminate H.
        -- apply In_banner in H as [text H]. discriminate H.
        -- by injection H as ->.
        -- destruct (Hloop _ H).
        -- apply In_closing in H as [[? H]|[H|[(? & ? & H)|[? H]]]];
             discriminate H.
      * eexists _, _. apply In_composite. left.
        apply In_request_events. auto.
Qed.

(** *** Verbose mode *)

Lemma send_sentences_prints env raw_message response_channel sentences
    failure stats s :
  exists d,
    snd (send_sentences env raw_message response_channel sentences failure
           stats s) = record d s
    /\ omap Calls.printed d
       = (if log_all_the_things (self s) then omap Trace.yielded d else [])
    /\ omap Trace.request_arrived d = [].
Proof.
  revert stats s. induction sentences as [|x rest IH]; intros stats s.
  - destruct failure as [err|]; cbn; eexists; (split; [reflexivity|]);
      by destruct (log_all_the_things (self s)).
  - assert (Hstep : forall pre st,
      omap Calls.printed pre
      = (if log_all_the_things (self s) then omap Trace.yielded pre else [])
      -> omap Trace.request_arrived pre = []
      -> exists d,
           snd (send_sentences env raw_message response_channel rest failure
                  st (record pre s)) = record d s
           /\ omap Calls.printed d
              = (if log_all_the_things (self s)
                 then omap Trace.yielded d else [])
           /\ omap Trace.request_arrived d = []).
    { intros pre st Hpre Hq.
      destruct (IH st (record pre s)) as (d & Hs & Hd & Hq').
      exists (pre ++ d). rewrite Hs, record_record. split; [reflexivity|].
      rewrite self_record in Hd. rewrite !omap_app, Hpre, Hd, Hq, Hq'.
      by destruct (log_all_the_things (self s)). }
    assert (Hpre : forall tail,
      omap Calls.printed tail = [] -> omap Trace.yielded tail = [] ->
      omap Calls.printed (taken (self s) x ++ tail)
      = (if log_all_the_things (self s)
         then omap Trace.yielded (taken (self s) x ++ tail) else [])).
    { intros tail Hp Hy. rewrite !omap_app, Hp, Hy. unfold taken.
      by destruct (log_all_the_things (self s)). }
    assert (Hquiet : forall tail,
      omap Trace.request_arrived tail = [] ->
      omap Trace.request_arrived (taken (self s) x ++ tail) = []).
    { intros tail Hq. rewrite omap_app, Hq. unfold taken.
      by destruct (log_all_the_things (self s)). }
    destruct (String.eqb (bot_prompt_line (prompt_generator (self s))) x)
      eqn:Hm;
      [|destruct (Str.endswith x " says:") eqn:He;
        [|destruct (env_send env (trace s ++ taken (self s) x)
                      response_channel x) as [m|err] eqn:Hsnd]].
    + rewrite send_sentences_continue by exact Hm.
      apply Hstep; [apply Hpre|apply Hquiet]; reflexivity.
    + rewrite send_sentences_break by assumption.
      eexists. split; [reflexivity|].
      split; [apply Hpre|apply Hquiet]; reflexivity.
    + rewrite send_sentences_sent with (m := m) by assumption.
      apply Hstep; [apply Hpre|apply Hquiet];
        unfold unknown_channel_warning;
        by destruct (channel_type (raw_channel m)).
    + rewrite send_sentences_failed with (err := err) by assumption.
      eexists. split; [reflexivity|].
      split; [apply Hpre|apply Hquiet]; reflexivity.
Qed.

(** X8.  With [log_all_the_things] off, [send_response_in_channel] prints
    nothing.  With it on, it prints nothing until the prompt is there;
    then the prompt between its two banners, and after that every fragment
    it takes from the generation stream, in order -- the fragments that are
    filtered out included. *)
Theorem verbose_printing (env : Env) (message : ref)
    (raw_message : RawMessage) (image_requested : bool)
    (response_channel : Channel) (s : State) :
  exists d,
    snd (send_response_in_channel env message raw_message image_requested
           response_channel s) = record d s
    /\ omap Calls.printed d
       = if log_all_the_things (self s) then
           match omap Trace.request_arrived d with
           | prompt_prefix :: _ =>
               [("prompt_prefix:" ++ Str.rule)%string; prompt_prefix;
                ("Response:" ++ Str.rule)%string]
               ++ omap Trace.yielded d
           | [] => []
           end
         else [].
Proof.
  unfold send_response_in_channel. rewrite bind_run.
  change (load message s) with
    (match store s !! message with
     | Some m => (Return m, s)
     | None => (Raise (Exc "dangling reference"), s)
     end).
  destruct (store s !! message) as [m|] eqn:Hm.
  2:{ exists []. rewrite record_nil. split; [reflexivity|].
      by destruct (log_all_the_things (self s)). }
  cbn -[send_sentences String.append history_plus_thread_kickoff_message].
  match goal with |- context [take ?n (env_channel_messages env ?t ?c)] =>
    generalize (take n (env_channel_messages env t c)); intros history end.
  match goal with |- context [env_get_throttle_message_id env ?t ?c] =>
    generalize (env_get_throttle_message_id env t c); intros repeated_id end.
  match goal with |- context [env_generate env ?t ?a ?b ?c ?d] =>
    destruct (env_generate env t a b c d) as [prompt_prefix|err] end.
  2:{ eexists. rewrite !record_record. split; [reflexivity|].
      by destruct (log_all_the_things (self s)). }
  destruct (log_all_the_things (self s)) eqn:Hlog;
    destruct (dont_split_responses (self s)) eqn:Hsplit;
    cbn -[send_sentences String.append history_plus_thread_kickoff_message];
    rewrite !record_record; cbn [app];
    rewrite bind_run; unfold try_except; rewrite bind_run;
    unfold request_as_string, request_by_sentence, call;
    cbn [trace record with_trace];
    match goal with
    | |- context [env_request_as_string env ?t ?p] =>
        generalize (env_request_as_string env t p); intros generator
    | |- context [env_request_by_sentence env ?t ?p] =>
        generalize (env_request_by_sentence env t p); intros generator
    end;
    fold (record [ERequest as_string prompt_prefix generator]);
    fold (record [ERequest by_sentence prompt_prefix generator]);
    rewrite !record_record; cbn [app];
    match goal with
    | |- context [send_sentences env ?raw ?rc ?xs ?f ?st ?s1] =>
        destruct (send_sentences_prints env raw rc xs f st s1)
          as (d & Hs & Hd & Hq);
        destruct (send_sentences env raw rc xs f st s1) as [r s2]
    end;
    cbn [fst snd] in Hs; subst s2;
    rewrite self_record, Hlog in Hd;
    rewrite (closing_run message m r) by exact Hm;
    rewrite !record_record; cbn [fst snd];
    (eexists; split; [reflexivity|]);
    cbn -[String.append]; rewrite ?omap_app, ?Hd, ?Hq;
    destruct r; cbn -[String.append]; by rewrite ?app_nil_r.
Qed.


(** ** The handler, further *)

Lemma reply_event_calls raw_message response_channel d :
  Forall (reply_event raw_message response_channel) d ->
  omap Calls.gate d = []
  /\ omap Calls.typing_mark d = []
  /\ omap Calls.image_question d = []
  /\ omap Calls.image_request d = []
  /\ omap Calls.created d = []
  /\ omap Calls.waited d = []
  /\ omap Calls.handler_failure d = [].
Proof.
  intros Hev. repeat split.
  all: eapply omap_nil_of_Forall; [|exact Hev]; by intros [].
Qed.

Lemma peel_cons {A} (x : A) l before after :
  l = before ++ after -> x :: l = (x :: before) ++ after.
Proof. by intros ->. Qed.

Lemma peel_app {A} (d l before after : list A) :
  l = before ++ after -> d ++ l = (d ++ before) ++ after.
Proof. intros ->. apply app_assoc. Qed.

Lemma peel_here {A} (l : list A) : l = [] ++ l.
Proof. reflexivity. Qed.


(** The facts about each run of a reply task that the symbolic execution
    came across. *)
Ltac reply_facts :=
  repeat match goal with
    | H : Forall (reply_event _ _) ?d |- _ =>
        lazymatch goal with
        | _ : omap Calls.gate d = [] |- _ => fail
        | _ => pose proof (reply_event_calls _ _ _ H) as (? & ? & ? & ? & ? & ? & ?)
        end
    end.


Lemma reply_event_sent_to raw_message response_channel d :
  Forall (reply_event raw_message response_channel) d ->
  Forall (fun c => c = response_channel) (omap Calls.sent_to d).
Proof.
  induction 1 as [|e d He _ IH]; [constructor|].
  destruct e; cbn; try exact IH. constructor; [exact He|exact IH].
Qed.

(** Computing a projection of an explicit trace in a hypothesis. *)
Ltac project_in H :=
  rewrite <- ?app_assoc in H; cbn [app] in H;
  repeat progress
    (cbn -[String.append discord_message_to_generic_message] in H;
     rewrite ?omap_app in H;
     repeat match goal with
       | Hn : omap ?f ?d = [] |- _ =>
           match type of H with context [omap f d] => rewrite Hn in H end
       end);
  rewrite ?app_nil_r in H.

(** Reading a hypothesis [In e l], for an explicit [l] around the events
    of a reply task, through the projection [f]. *)
Ltac read_In f H :=
  eapply (omap_In f) in H; [|reflexivity]; project_in H.


(** X10.  What [on_message] does about images, started with no task
    pending.  Without an image generator it never asks one.  With one, it
    asks at most once whether the message wants an image, about the message
    at hand.  The reply task is told that an image was requested exactly
    when that question was asked and answered with a prompt.  An image is
    generated at most once, only from a prompt so obtained, for the
    message at hand, in the channel of the reply task, and only after the
    reply task has been created. *)
Theorem image_pipeline (env : Env) (raw_message : RawMessage) (s : State) :
  spawned s = [] ->
  exists d,
    trace (snd (on_message env raw_message s)) = trace s ++ d
    /\ length (omap Calls.image_question d) <= 1
    /\ length (omap Calls.image_request d) <= 1
    /\ (image_generator (self s) = None ->
        omap Calls.image_question d = []
        /\ omap Calls.image_request d = [])
    /\ (forall m answer,
          In (EMaybeGetImagePrompt m answer) d -> m = raw_message)
    /\ (forall message m image_requested c,
          In (ECreateTask (MessageTask message m image_requested c)) d ->
          m = raw_message
          /\ (image_requested = true <->
              exists prompt,
                In (EMaybeGetImagePrompt raw_message (Some prompt)) d))
    /\ (forall prompt m c answer,
          In (EGenerateImage prompt m c answer) d ->
          m = raw_message
          /\ In (EMaybeGetImagePrompt raw_message (Some prompt)) d
          /\ exists message before after,
               d = before ++ EGenerateImage prompt m c answer :: after
               /\ In (ECreateTask (MessageTask message raw_message true c))
                    before).
Proof.
  intros Hsp. destruct s as [bot st sp tr]. cbn in Hsp. subst sp.
  cbn [self trace].
  exec env.
  all: reply_facts.
  all: eexists; split; [rewrite <- ?app_assoc; cbn [app]; reflexivity|].
  all: split; [project; cbn; lia|].
  all: split; [project; cbn; lia|].
  all: split; [intros Hnone; try discriminate Hnone;
               split; project; reflexivity|].
  all: split;
    [intros m answer Hin; read_In Calls.image_question Hin;
     first [destruct Hin as [[= <- <-]|[]]; reflexivity | destruct Hin]|].
  all: split;
    [intros message m image_requested c Hin; read_In Calls.created Hin;
     first [destruct Hin as [[= <- <- <- <-]|[]] | destruct Hin];
     (split; [reflexivity|]);
     first
       [ split; [intros _; eexists; find_In|reflexivity]
       | split; [discriminate|];
         intros [prompt Hin]; exfalso; read_In Calls.image_question Hin;
         first [destruct Hin as [[=]|[]] | destruct Hin] ]|].
  all: intros prompt m c answer Hin; read_In Calls.image_request Hin;
    first [destruct Hin as [[= <- <- <- <-]|[]] | destruct Hin].
  all: split; [reflexivity|]. 
  all: split; [find_In|].
  all: eexists _, _, _; split;
    [repeat lazymatch goal with
       | |- EGenerateImage _ _ _ _ :: _ = _ => apply peel_here
       | |- _ :: _ = _ => apply peel_cons
       | |- _ ++ _ = _ => apply peel_app
       end
    |find_In].
Qed.

(** X11.  Started with no task pending, [on_message] creates at most one
    task, the reply task for the message at hand, and waits at most once.
    What it waits for is never empty: it is the reply task, followed by
    the image task when an image was started.  The reply task it created
    is waited for unless starting the image generation raised: then the
    handler gives up without waiting, the reply task having been
    created. *)
Theorem tasks_awaited (env : Env) (raw_message : RawMessage) (s : State) :
  spawned s = [] ->
  exists d,
    trace (snd (on_message env raw_message s)) = trace s ++ d
    /\ length (omap Calls.created d) <= 1
    /\ length (omap Calls.waited d) <= 1
    /\ (forall task,
          In (ECreateTask task) d ->
          exists message image_requested c,
            task = MessageTask message raw_message image_requested c)
    /\ (forall tasks,
          In (EWait tasks) d ->
          exists task,
            omap Calls.created d = [task]
            /\ (tasks = [task]
                \/ exists prompt c id,
                     tasks = [task; ImageTask id]
                     /\ In (EGenerateImage prompt raw_message c (Return id))
                          d))
    /\ (forall task,
          In (ECreateTask task) d ->
          (exists rest, omap Calls.waited d = [task :: rest])
          \/ omap Calls.waited d = []
             /\ exists prompt c err,
                  In (EGenerateImage prompt raw_message c (Raise err)) d).
Proof.
  intros Hsp. destruct s as [bot st sp tr]. cbn in Hsp. subst sp.
  cbn [self trace].
  exec env.
  all: reply_facts.
  all: eexists; split; [rewrite <- ?app_assoc; cbn [app]; reflexivity|].
  all: split; [project; cbn; lia|].
  all: split; [project; cbn; lia|].
  all: split;
    [intros task Hin; read_In Calls.created Hin;
     first [destruct Hin as [<-|[]]; eauto | destruct Hin]|].
  all: split;
    [intros tasks Hin; read_In Calls.waited Hin;
     first [destruct Hin as [<-|[]] | destruct Hin];
     eexists; (split; [project; reflexivity|]);
     first [left; reflexivity
           |right; eexists _, _, _; (split; [reflexivity|find_In])]|].
  all: intros task Hin; read_In Calls.created Hin;
    first [destruct Hin as [<-|[]] | destruct Hin].
  all: first
    [ left; eexists; project; reflexivity
    | right; (split; [project; reflexivity|]); eexists _, _, _; find_In ].
Qed.

(** X12.  Started with no task pending, [on_message] registers a mention at
    most once, and only for a channel message that the decision gate
    called a summon and for which a reply task was created; and for every
    such message it does. *)
Theorem mention_registered (env : Env) (raw_message : RawMessage)
    (s : State) :
  spawned s = [] ->
  let m0 := discord_message_to_generic_message raw_message in
  exists d,
    trace (snd (on_message env raw_message s)) = trace s ++ d
    /\ length (omap Trace.mention d) <= 1
    /\ (forall m,
          In (ELogMention m) d ->
          is_ChannelMessage m0 = true
          /\ (exists uid, In (EShouldReply uid m0 (true, true)) d)
          /\ exists before after task,
               d = before ++ ELogMention m :: after
               /\ In (ECreateTask task) before
               /\ omap Calls.waited before = []
               /\ omap Calls.image_request before = [])
    /\ (forall uid task,
          In (EShouldReply uid m0 (true, true)) d ->
          is_ChannelMessage m0 = true ->
          In (ECreateTask task) d ->
          omap Trace.mention d <> []).
Proof.
  intros Hsp. destruct s as [bot st sp tr]. cbn in Hsp. subst sp.
  cbn [self trace]. cbv zeta.
  exec env.
  all: reply_facts.
  all: eexists; split; [rewrite <- ?app_assoc; cbn [app]; reflexivity|].
  all: split; [project; cbn; lia|].
  all: split;
    [intros m Hin; read_In Trace.mention Hin;
     first [destruct Hin as [<-|[]] | destruct Hin];
     (split; [reflexivity|]);
     (split; [eexists; find_In|]);
     eexists _, _, _;
     (split;
      [repeat lazymatch goal with
         | |- ELogMention _ :: _ = _ => apply peel_here
         | |- _ :: _ = _ => apply peel_cons
         | |- _ ++ _ = _ => apply peel_app
         end
      |split; [find_In|split; reflexivity]])|].
  all: intros uid task Hgate Hkind Hin.
  all: read_In Calls.created Hin;
    first [destruct Hin as [<-|[]] | destruct Hin].
  all: read_In Calls.gate Hgate;
    first [destruct Hgate as [[= <-]|[]] | destruct Hgate
          | destruct Hgate as [[=]|[]] ].
  all: try discriminate Hkind.
  all: project; discriminate.
Qed.

(** X13.  Over the whole handling of one event, started with no task
    pending: nothing is sent unless the decision gate said yes, and every
    message goes to the channel of the reply task that was created for
    the message at hand.  When the gate says no, the handling ends there:
    no typing indicator, no thread, no task, no call on the prompt
    generator or on the generation client. *)
Theorem speaks_only_when_asked (env : Env) (raw_message : RawMessage)
    (s : State) :
  spawned s = [] ->
  let m0 := discord_message_to_generic_message raw_message in
  exists d,
    trace (snd (dispatch env raw_message s)) = trace s ++ d
    /\ (forall c text answer,
          In (ESend c text answer) d ->
          (exists uid summon, In (EShouldReply uid m0 (true, summon)) d)
          /\ exists message image_requested,
               omap Calls.created d
               = [MessageTask message raw_message image_requested c])
    /\ (forall uid m summon,
          In (EShouldReply uid m (false, summon)) d ->
          d = unknown_channel_warning raw_message
              ++ [EShouldReply uid m0 (false, summon)]).
Proof.
  intros Hsp. destruct s as [bot st sp tr]. cbn in Hsp. subst sp.
  cbn [self trace]. cbv zeta.
  exec env.
  all: reply_facts.
  all: repeat match goal with
    | H : Forall (reply_event _ _) _ |- _ =>
        apply reply_event_sent_to in H
    end.
  all: eexists; split; [rewrite <- ?app_assoc; cbn [app]; reflexivity|].
  all: split;
    [intros c text answer Hin;
     eapply (omap_In Calls.sent_to) in Hin; [|reflexivity];
     project_in Hin;
     first
       [ destruct Hin
       | match goal with
         | H : Forall _ (omap Calls.sent_to ?d) |- _ =>
             apply (Forall_In_impl _ _ _ H) in Hin; subst c
         end;
         (split; [eexists _, _; find_In|]);
         eexists _, _; project; reflexivity ]|].
  all: intros uid m summon Hin; read_In Calls.gate Hin;
    first [destruct Hin as [[= <- <- <-]|[]] | destruct Hin
          | destruct Hin as [[=]|[]] ].
  all: unfold unknown_channel_warning;
    match goal with H : channel_type _ = _ |- _ => rewrite H end;
    reflexivity.
Qed.

(** X14.  [on_ready] never raises and only logs: it sends nothing, asks
    nothing, creates no task, and leaves the message store alone.  Of the
    bot it changes one thing: when the client knows its user, the bot's
    user id becomes that user's id (it stays what it was otherwise).  A
    message handled afterwards, with no task pending, is put to the
    decision gate once, under that id. *)
Theorem identity_known_after_ready (env : Env) (user : option Author)
    (guilds : list nat) (raw_message : RawMessage) (s : State) :
  spawned s = [] ->
  let ready := snd (on_ready user guilds s) in
  let id := match user with
            | Some u => user_id u
            | None => ai_user_id (self s)
            end in
  fst (on_ready user guilds s) = Return tt
  /\ self ready = match user with
                  | Some u => set_ai_user_id (user_id u) (self s)
                  | None => self s
                  end
  /\ store ready = store s
  /\ spawned ready = []
  /\ (exists d,
        trace ready = trace s ++ d /\ forallb Calls.is_log d = true)
  /\ exists d answer,
       trace (snd (on_message env raw_message ready)) = trace ready ++ d
       /\ omap Calls.gate d
          = [(id, discord_message_to_generic_message raw_message, answer)].
Proof.
  intros Hsp. destruct s as [bot st sp tr]. cbn in Hsp. subst sp.
  cbv zeta.
  assert (Hready : exists d,
    on_ready user guilds (mkState bot st [] tr)
    = (Return tt,
       mkState match user with
               | Some u => set_ai_user_id (user_id u) bot
               | None => bot
               end st [] (tr ++ d))
    /\ forallb Calls.is_log d = true).
  { unfold on_ready, bind, log, emit, get_self, ret, record, with_trace,
      with_self.
    destruct user as [u|]; cbn -[String.append Str.of_Z Str.join];
      destruct (ignore_dms bot), (dont_split_responses bot),
        (image_generator bot);
      cbn -[String.append Str.of_Z Str.join];
      rewrite <- !app_assoc; cbn [app];
      (eexists; split; [reflexivity|reflexivity]). }
  destruct Hready as (d & -> & Hlog). cbn [fst snd self store spawned trace].
  do 4 (split; [reflexivity|]).
  split; [by exists d|].
  set (bot' := match user with
               | Some u => set_ai_user_id (user_id u) bot
               | None => bot
               end).
  assert (Hid : match user with
                | Some u => user_id u
                | None => ai_user_id bot
                end = ai_user_id bot') by (by destruct user).
  rewrite Hid. clearbody bot'. clear Hid Hlog.
  generalize (tr ++ d). clear tr d. intros tr.
  exec env.
  all: reply_facts.
  all: eexists _, (_, _).
  all: split; [rewrite <- ?app_assoc; cbn [app]; reflexivity|].
  all: project; reflexivity.
Qed.


(** ** The administrative command *)

Lemma hide_before_run channel message t :
  Commands.hide_before channel message t =
  match Commands.cached_guild channel with
  | Some guild =>
      (Return tt,
       t ++ [Commands.CLog Info
               ("lobotomize called in channel "
                ++ Str.of_Z (Commands.cached_id channel)
                ++ ", hiding messages before "
                ++ Str.of_Z (raw_id message));
             Commands.CLog Info
               ("lobotomize called for guid " ++ Commands.guild_name guild
                ++ " # " ++ Str.of_Z (Commands.guild_id guild) ++ ", ");
             Commands.CHideMessagesBefore (Commands.cached_id channel)
               (raw_id message)])
  | None =>
      (Raise (Exc "'NoneType' object has no attribute 'id'"),
       t ++ [Commands.CLog Info
               ("lobotomize called in channel "
                ++ Str.of_Z (Commands.cached_id channel)
                ++ ", hiding messages before "
                ++ Str.of_Z (raw_id message))])
  end.
Proof.
  unfold Commands.hide_before, Commands.cbind, Commands.clog,
    Commands.hide_messages_before, Commands.cemit, Commands.craise.
  destruct (Commands.cached_guild channel);
    cbn -[String.append]; rewrite <- ?app_assoc; reflexivity.
Qed.

(** What the loop over the history leaves: with a guild, one call of
    [hide_messages_before] per message; without one, nothing hidden. *)
Lemma hide_before_each_run channel messages t :
  exists d,
    snd (Commands.hide_before_each channel messages t) = t ++ d
    /\ omap Commands.answered d = []
    /\ omap Commands.fetched d = []
    /\ omap Commands.looked_up d = []
    /\ omap Commands.warning_line d = []
    /\ match Commands.cached_guild channel, messages with
       | None, _ :: _ =>
           fst (Commands.hide_before_each channel messages t)
           = Raise (Exc "'NoneType' object has no attribute 'id'")
           /\ omap Commands.hidden d = []
       | _, _ =>
           fst (Commands.hide_before_each channel messages t) = Return tt
           /\ omap Commands.hidden d
              = map (fun m => (Commands.cached_id channel, raw_id m)) messages
       end.
Proof.
  revert t. induction messages as [|m rest IH]; intros t.
  - exists []. cbn. rewrite app_nil_r.
    by destruct (Commands.cached_guild channel).
  - cbn [Commands.hide_before_each]. unfold Commands.cbind.
    rewrite !hide_before_run.
    destruct (Commands.cached_guild channel) as [guild|] eqn:Hguild;
      cbv beta iota.
    + match goal with
      | |- context [Commands.hide_before_each channel rest ?t1] =>
          destruct (IH t1) as (d & Hs & Ha & Hf & Hl & Hw & Hr & Hh)
      end.
      rewrite Hs, Hr. eexists. rewrite <- !app_assoc.
      split; [reflexivity|]. cbn -[String.append].
      rewrite Ha, Hf, Hl, Hw, Hh. by repeat split.
    + eexists. split; [reflexivity|]. by repeat split.
Qed.

Lemma fail_run env interaction t :
  let warning :=
    Commands.CLog Warning
      ("lobotomize called from an unexpected channel: "
       ++ Commands.str_channel_id
            (Commands.interaction_channel_id interaction)) in
  let answer :=
    Commands.env_send_message env (t ++ [warning])
      "failed to lobotomize" true true in
  Commands.fail env interaction t =
  (answer,
   t ++ [warning; Commands.CSendMessage "failed to lobotomize" true true
                    answer]).
Proof.
  unfold Commands.fail, Commands.cbind, Commands.clog, Commands.cemit,
    Commands.send_message, Commands.ccall_fallible.
  cbn -[String.append]. by rewrite <- app_assoc.
Qed.

(** X15.  When the interaction names no channel, or the channel is not in
    the cache, or it is not a messageable channel, [lobotomize] logs a
    warning with the channel id and answers ["failed to lobotomize"],
    ephemeral and silent, once; it asks for no history and tells the
    repetition tracker nothing; its outcome is that of the answer. *)
Theorem lobotomize_fails_closed (env : Commands.CommandEnv)
    (interaction : Commands.Interaction) (t : list Commands.CommandEvent) :
  Commands.unresolved env interaction t ->
  exists d,
    snd (Commands.lobotomize env interaction t) = t ++ d
    /\ omap Commands.hidden d = []
    /\ omap Commands.fetched d = []
    /\ omap Commands.answered d
       = [("failed to lobotomize"%string, true, true,
           fst (Commands.lobotomize env interaction t))]
    /\ omap Commands.warning_line d
       = [("lobotomize called from an unexpected channel: "
           ++ Commands.str_channel_id
                (Commands.interaction_channel_id interaction))%string].
Proof.
  destruct (Commands.lobotomize env interaction t) as [r t'] eqn:Hrun.
  cbn [fst snd]. revert Hrun.
  unfold Commands.unresolved, Commands.lobotomize.
  destruct (Commands.interaction_channel_id interaction) as [id|] eqn:Hid.
  - unfold Commands.cbind, Commands.get_channel, Commands.ccall.
    destruct (Commands.env_get_channel env t id) as [channel|].
    + intros Hrun Hno. rewrite Hno in Hrun. revert Hrun. cbn [negb].
      rewrite fail_run, Hid.
      cbv zeta. intros [= <- <-].
      eexists. rewrite <- !app_assoc. split; [reflexivity|].
      by repeat split.
    + rewrite fail_run, Hid. cbv zeta. intros [= <- <-] _.
      eexists. rewrite <- !app_assoc. split; [reflexivity|].
      by repeat split.
  - rewrite fail_run, Hid. cbv zeta. intros [= <- <-] _.
    eexists. split; [reflexivity|]. by repeat split.
Qed.

(** X16.  In a messageable channel of a guild, [lobotomize] asks for the
    history of that channel with limit 1.  If the fetch raises, the
    exception leaves the command: nothing is hidden and the interaction
    gets no answer.  Otherwise the tracker is told to hide what precedes
    the newest message of the channel -- once, under the channel's id; not
    at all when the channel is empty -- and the interaction is answered
    ["Memory wiped!"], ephemeral and silent, whose outcome is the
    command's. *)
Theorem lobotomize_hides_before_latest (env : Commands.CommandEnv)
    (interaction : Commands.Interaction) (t : list Commands.CommandEvent)
    (id : Z) (channel : Commands.CachedChannel) (guild : Commands.Guild) :
  Commands.interaction_channel_id interaction = Some id ->
  Commands.env_get_channel env t id = Some channel ->
  Commands.is_Messageable channel = true ->
  Commands.cached_guild channel = Some guild ->
  exists d,
    snd (Commands.lobotomize env interaction t) = t ++ d
    /\ omap Commands.fetched d = [(Commands.cached_id channel, 1)]
    /\ omap Commands.warning_line d = []
    /\ match Commands.env_history env
               (t ++ [Commands.CGetChannel id (Some channel)])
               (Commands.cached_id channel) with
       | Raise err =>
           fst (Commands.lobotomize env interaction t) = Raise err
           /\ omap Commands.hidden d = []
           /\ omap Commands.answered d = []
       | Return messages =>
           omap Commands.hidden d
           = match messages with
             | latest :: _ => [(Commands.cached_id channel, raw_id latest)]
             | [] => []
             end
           /\ omap Commands.answered d
              = [("Memory wiped!"%string, true, true,
                  fst (Commands.lobotomize env interaction t))]
       end.
Proof.
  intros Hid Hsome Hyes Hguild.
  destruct (Commands.lobotomize env interaction t) as [r t'] eqn:Hrun.
  cbn [fst snd]. revert Hrun. unfold Commands.lobotomize.
  rewrite Hid. unfold Commands.cbind at 1.
  unfold Commands.get_channel, Commands.ccall.
  rewrite Hsome, Hyes. cbn [negb].
  unfold Commands.cbind at 1.
  unfold Commands.history, Commands.ccall_fallible.
  destruct (Commands.env_history env _ (Commands.cached_id channel))
    as [messages|err].
  - unfold Commands.cbind.
    match goal with
    | |- context [Commands.hide_before_each channel ?ms ?t1] =>
        destruct (hide_before_each_run channel ms t1)
          as (d & Hs & Ha & Hf & Hl & Hw & Hh);
        destruct (Commands.hide_before_each channel ms t1) as [r' t2]
    end.
    cbn [fst snd] in Hs, Hh. subst t2. rewrite Hguild in Hh.
    assert (Hr : r' = Return tt /\ omap Commands.hidden d
                 = map (fun m => (Commands.cached_id channel, raw_id m))
                       (take 1 messages)).
    { by destruct (take 1 messages). }
    destruct Hr as [-> Hh'].
    unfold Commands.send_message, Commands.ccall_fallible.
    intros [= <- <-].
    eexists. rewrite <- !app_assoc. split; [reflexivity|].
    repeat progress (cbn -[String.append]; rewrite ?omap_app).
    rewrite Hh', Ha, Hf, Hw.
    repeat split. rewrite app_nil_r. by destruct messages.
  - intros [= <- <-]. eexists. rewrite <- !app_assoc.
    split; [reflexivity|]. by repeat split.
Qed.

(** X17.  Whatever the platform answers, [lobotomize] answers the
    interaction at most once, always ephemeral and silent, and its outcome
    is then that of the answer; it tells the tracker to hide at most once;
    whenever it did, the answer is ["Memory wiped!"]; and whenever it
    answers ["failed to lobotomize"], it has neither asked for a history
    nor hidden anything. *)
Theorem lobotomize_answers_once (env : Commands.CommandEnv)
    (interaction : Commands.Interaction) (t : list Commands.CommandEvent) :
  exists d,
    snd (Commands.lobotomize env interaction t) = t ++ d
    /\ length (omap Commands.answered d) <= 1
    /\ length (omap Commands.hidden d) <= 1
    /\ (forall text ephemeral silent answer,
          In (text, ephemeral, silent, answer) (omap Commands.answered d) ->
          ephemeral = true /\ silent = true
          /\ answer = fst (Commands.lobotomize env interaction t)
          /\ (text = "Memory wiped!"%string
              \/ text = "failed to lobotomize"%string
                 /\ omap Commands.hidden d = []
                 /\ omap Commands.fetched d = []))
    /\ (omap Commands.hidden d <> [] ->
        exists answer,
          omap Commands.answered d
          = [("Memory wiped!"%string, true, true, answer)]).
Proof.
  destruct (Commands.lobotomize env interaction t) as [r t'] eqn:Hrun.
  cbn [fst snd]. revert Hrun. unfold Commands.lobotomize.
  assert (Hfail : forall t0,
    Commands.fail env interaction t0 = (r, t') ->
    exists d0,
      t' = t0 ++ d0
      /\ omap Commands.hidden d0 = []
      /\ omap Commands.fetched d0 = []
      /\ omap Commands.answered d0
         = [("failed to lobotomize"%string, true, true, r)]).
  { intros t0. rewrite fail_run. cbv zeta. intros [= <- <-].
    eexists. split; [reflexivity|]. by repeat split. }
  assert (Hfailed : forall pre t0,
    omap Commands.hidden pre = [] -> omap Commands.fetched pre = [] ->
    omap Commands.answered pre = [] -> t0 = t ++ pre ->
    Commands.fail env interaction t0 = (r, t') ->
    exists d,
      t' = t ++ d
      /\ length (omap Commands.answered d) <= 1
      /\ length (omap Commands.hidden d) <= 1
      /\ (forall text ephemeral silent answer,
            In (text, ephemeral, silent, answer)
               (omap Commands.answered d) ->
            ephemeral = true /\ silent = true /\ answer = r
            /\ (text = "Memory wiped!"%string
                \/ text = "failed to lobotomize"%string
                   /\ omap Commands.hidden d = []
                   /\ omap Commands.fetched d = []))
      /\ (omap Commands.hidden d <> [] ->
          exists answer,
            omap Commands.answered d
            = [("Memory wiped!"%string, true, true, answer)])).
  { intros pre t0 Hh Hf Ha -> Hrun.
    destruct (Hfail _ Hrun) as (d0 & -> & Hh0 & Hf0 & Ha0).
    exists (pre ++ d0). rewrite app_assoc. split; [reflexivity|].
    rewrite !omap_app, Hh, Hf, Ha, Hh0, Hf0, Ha0. cbn.
    split; [lia|]. split; [lia|]. split.
    - intros ? ? ? ? [[= <- <- <- <-]|[]]. repeat split. by right.
    - by intros []. }
  destruct (Commands.interaction_channel_id interaction) as [id|] eqn:Hid.
  2:{ apply (Hfailed []); try reflexivity. by rewrite app_nil_r. }
  unfold Commands.cbind at 1. unfold Commands.get_channel, Commands.ccall.
  destruct (Commands.env_get_channel env t id) as [channel|].
  2:{ apply (Hfailed [Commands.CGetChannel id None]); reflexivity. }
  destruct (Commands.is_Messageable channel); cbn [negb].
  2:{ apply (Hfailed [Commands.CGetChannel id (Some channel)]);
        reflexivity. }
  clear Hfail Hfailed.
  unfold Commands.cbind at 1.
  unfold Commands.history, Commands.ccall_fallible.
  destruct (Commands.env_history env _ (Commands.cached_id channel))
    as [messages|err].
  2:{ intros [= <- <-]. eexists. rewrite <- !app_assoc.
      split; [reflexivity|]. cbn. split; [lia|]. split; [lia|].
      split; [by intros ? ? ? ? []|by intros []]. }
  unfold Commands.cbind.
  match goal with
  | |- context [Commands.hide_before_each channel ?ms ?t1] =>
      destruct (hide_before_each_run channel ms t1)
        as (d & Hs & Ha & Hf & Hl & Hw & Hh);
      destruct (Commands.hide_before_each channel ms t1) as [r' t2]
  end.
  cbn [fst snd] in Hs, Hh. subst t2.
  assert (Hlen : length (omap Commands.hidden d) <= 1).
  { destruct (Commands.cached_guild channel), messages as [|m [|m' ms]];
      cbn in Hh; destruct Hh as [_ ->]; cbn; lia. }
  destruct r' as [[]|err].
  - unfold Commands.send_message, Commands.ccall_fallible.
    intros [= <- <-].
    eexists. rewrite <- !app_assoc. split; [reflexivity|].
    repeat progress (cbn -[String.append]; rewrite ?omap_app).
    rewrite Ha. cbn.
    split; [lia|]. split; [by rewrite app_nil_r|]. split.
    + intros ? ? ? ? [[= <- <- <- <-]|[]].
      do 3 (split; [reflexivity|]). by left.
    + intros _. eauto.
  - intros [= <- <-]. eexists. rewrite <- !app_assoc. split; [reflexivity|].
    repeat progress (cbn -[String.append]; rewrite ?omap_app).
    rewrite Ha.
    split; [cbn; lia|]. split; [exact Hlen|].
    split; [by intros ? ? ? ? []|].
    intros Hne. exfalso. apply Hne.
    destruct (Commands.cached_guild channel), messages as [|m [|m' ms]];
      cbn in Hh; destruct Hh as [Hr Hh]; try discriminate Hr; exact Hh.
Qed.

Lemma log_registered_run commands t :
  Commands.log_registered commands t =
  (Return tt,
   t ++ map (fun c => Commands.CLog Info
                        ("Registered command: " ++ Commands.command_name c
                         ++ ": " ++ Commands.command_description c))
            commands).
Proof.
  revert t. induction commands as [|c rest IH]; intros t.
  - cbn. by rewrite app_nil_r.
  - cbn -[String.append]. unfold Commands.cbind, Commands.clog,
      Commands.cemit. rewrite IH, <- app_assoc. reflexivity.
Qed.

Lemma omap_registered_lines {B} (f : Commands.CommandEvent -> option B)
    (g : string -> option B) (commands : list Commands.AppCommand) :
  (forall text, f (Commands.CLog Info text) = g text) ->
  omap f
    (map (fun c => Commands.CLog Info
                     ("Registered command: " ++ Commands.command_name c
                      ++ ": " ++ Commands.command_description c)) commands)
  = omap g
      (map (fun c => ("Registered command: " ++ Commands.command_name c
                      ++ ": " ++ Commands.command_description c)%string)
           commands).
Proof.
  intros Hf. induction commands as [|c cs IH]; [reflexivity|].
  cbn -[String.append]. by rewrite Hf, IH.
Qed.

(** X18.  [init_commands] adds one command to the tree, named
    ["lobotomize"] and described with the agent's name, and then
    synchronises once.  If the synchronisation raises, so does
    [init_commands], and no command is reported as registered.  Otherwise
    it returns, having logged one line per command the platform reported
    back, in order, each with the name and the description of the
    command. *)
Theorem init_commands_registers (env : Commands.CommandEnv)
    (bot : DiscordBot) (t : list Commands.CommandEvent) :
  exists d1 answer d2,
    snd (Commands.init_commands env bot t)
    = t ++ d1 ++ [Commands.CSync answer] ++ d2
    /\ omap Commands.added d1
       = [Commands.mkAppCommand "lobotomize"
            ("Erase " ++ ai_name bot
             ++ "'s memory of any message before now in this channel.")]
    /\ omap Commands.synced (d1 ++ d2) = []
    /\ omap Commands.added d2 = []
    /\ omap Commands.info_line d1 = []
    /\ match answer with
       | Raise err =>
           fst (Commands.init_commands env bot t) = Raise err /\ d2 = []
       | Return commands =>
           fst (Commands.init_commands env bot t) = Return tt
           /\ omap Commands.info_line d2
              = map (fun c =>
                       ("Registered command: " ++ Commands.command_name c
                        ++ ": " ++ Commands.command_description c)%string)
                    commands
       end.
Proof.
  destruct (Commands.init_commands env bot t) as [r t'] eqn:Hrun.
  cbn [fst snd]. revert Hrun.
  unfold Commands.init_commands, Commands.cbind, Commands.clog,
    Commands.cemit, Commands.ccall_fallible.
  cbv beta iota zeta.
  match goal with
  | |- context [Commands.CLog Debug ?text :: nil] =>
      lazymatch text with
      | String.append _ _ => generalize text; intros note
      end
  end.
  set (start := Commands.CLog Debug
                  "Registering commands, this may take a while sometimes...").
  destruct (Commands.env_sync env _) as [commands|err].
  - rewrite log_registered_run. intros [= <- <-].
    exists [start; Commands.CAddCommand (Commands.lobotomize_command bot)],
      (Return commands),
      (map (fun c => Commands.CLog Info
                       ("Registered command: " ++ Commands.command_name c
                        ++ ": " ++ Commands.command_description c)) commands
       ++ [Commands.CLog Debug note]).
    split; [by rewrite <- !app_assoc|].
    rewrite !omap_app.
    rewrite (omap_registered_lines Commands.synced (fun _ => None)),
      (omap_registered_lines Commands.added (fun _ => None)),
      (omap_registered_lines Commands.info_line Some) by reflexivity.
    assert (Hnone : forall {A B} (l : list A),
              omap (fun _ : A => @None B) l = []).
    { intros A B l. by induction l. }
    assert (Hsome : forall {A} (l : list A), omap Some l = l).
    { intros A l. induction l as [|x l IH]; [reflexivity|].
      cbn. by rewrite IH. }
    rewrite !Hnone, Hsome. repeat split. apply app_nil_r.
  - intros [= <- <-].
    exists [start; Commands.CAddCommand (Commands.lobotomize_command bot)],
      (Raise err), [].
    split; [by rewrite <- !app_assoc|]. by repeat split.
Qed.


(** ** The further properties at work *)


(** X6 at work: the stream breaks after ["Hello."] was sent; the task
    returns all the same. *)
Lemma stream_errors_are_contained_witness :
  exists d,
    snd (send_response_in_channel Cases.broken_stream 0 Demo.hello false
           Demo.general Demo.replying) = record d Demo.replying
    /\ existsb Trace.raised d = true
    /\ fst (send_response_in_channel Cases.broken_stream 0 Demo.hello false
              Demo.general Demo.replying) = Return tt.
Proof.
  destruct (stream_errors_are_contained Cases.broken_stream 0 Demo.hello
              false Demo.general Demo.replying) as (d & Hs & _ & H).
  exists d. split; [exact Hs|].
  assert (Hraised : existsb Trace.raised d = true).
  { read_trace d Hs. reflexivity. }
  split; [exact Hraised|]. exact (proj1 (H Hraised)).
Defined.


(** X10 at work: a picture is asked for. *)
Lemma image_pipeline_witness :
  spawned Cases.painting = []
  /\ exists d,
       trace (snd (on_message Cases.painter Demo.hello Cases.painting))
       = trace Cases.painting ++ d
       /\ In (EGenerateImage "a cat" Demo.hello Demo.general (Return 1%Z)) d
       /\ In (EMaybeGetImagePrompt Demo.hello (Some "a cat"%string)) d.
Proof.
  split; [reflexivity|].
  destruct (image_pipeline Cases.painter Demo.hello Cases.painting eq_refl)
    as (d & Ht & _ & _ & _ & _ & _ & H).
  exists d. split; [exact Ht|].
  assert (Hin : In (EGenerateImage "a cat" Demo.hello Demo.general
                      (Return 1%Z)) d).
  { vm_compute in Ht. subst d. vm_compute. tauto. }
  split; [exact Hin|]. exact (proj1 (proj2 (H _ _ _ _ Hin))).
Defined.

(** X11 at work. *)
Lemma tasks_awaited_witness :
  spawned Cases.painting = []
  /\ exists d,
       trace (snd (on_message Cases.painter Demo.hello Cases.painting))
       = trace Cases.painting ++ d
       /\ length (omap Calls.created d) <= 1
       /\ length (omap Calls.waited d) <= 1.
Proof.
  split; [reflexivity|].
  destruct (tasks_awaited Cases.painter Demo.hello Cases.painting eq_refl)
    as (d & Ht & Hc & Hw & _).
  exists d. repeat split; assumption.
Defined.

(** X12 at work. *)
Lemma mention_registered_witness :
  spawned (Demo.idle true) = []
  /\ exists d,
       trace (snd (on_message (Demo.env Demo.chatter true) Demo.hello
                     (Demo.idle true)))
       = trace (Demo.idle true) ++ d
       /\ length (omap Trace.mention d) <= 1.
Proof.
  split; [reflexivity|].
  destruct (mention_registered (Demo.env Demo.chatter true) Demo.hello
              (Demo.idle true) eq_refl) as (d & Ht & Hlen & _).
  exists d. split; assumption.
Defined.

(** X13 at work: Rosie speaks, in the thread of her reply task. *)
Lemma speaks_only_when_asked_witness :
  spawned (Demo.idle true) = []
  /\ exists d,
       trace (snd (dispatch (Demo.env Demo.chatter true) Demo.hello
                     (Demo.idle true)))
       = trace (Demo.idle true) ++ d
       /\ In (ESend (mkChannel Thread 555 "Rosie: Response to alice")
                "Hello."
                (Return (Demo.sent_in
                           (mkChannel Thread 555 "Rosie: Response to alice")
                           "Hello."))) d
       /\ exists message image_requested,
            omap Calls.created d
            = [MessageTask message Demo.hello image_requested
                 (mkChannel Thread 555 "Rosie: Response to alice")].
Proof.
  split; [reflexivity|].
  destruct (speaks_only_when_asked (Demo.env Demo.chatter true) Demo.hello
              (Demo.idle true) eq_refl) as (d & Ht & H & _).
  exists d. split; [exact Ht|].
  assert (Hin : In (ESend (mkChannel Thread 555 "Rosie: Response to alice")
                      "Hello."
                      (Return (Demo.sent_in
                                 (mkChannel Thread 555
                                    "Rosie: Response to alice")
                                 "Hello."))) d).
  { vm_compute in Ht. subst d. vm_compute. tauto. }
  split; [exact Hin|]. exact (proj2 (H _ _ _ Hin)).
Defined.

(** X14 at work: the client is connected as Rosie. *)
Lemma identity_known_after_ready_witness :
  spawned (Demo.idle false) = []
  /\ self (snd (on_ready (Some Demo.rosie) [3; 4] (Demo.idle false)))
     = set_ai_user_id 99 (self (Demo.idle false)).
Proof.
  split; [reflexivity|].
  exact (proj1 (proj2 (identity_known_after_ready
                         (Demo.env Demo.chatter true) (Some Demo.rosie)
                         [3; 4] Demo.hello (Demo.idle false) eq_refl))).
Defined.

(** X15 at work: channel 7 is not in the cache. *)
Lemma lobotomize_fails_closed_witness :
  Commands.unresolved Cases.platform (Commands.mkInteraction (Some 7%Z)) []
  /\ exists d,
       snd (Commands.lobotomize Cases.platform
              (Commands.mkInteraction (Some 7%Z)) []) = [] ++ d
       /\ omap Commands.hidden d = []
       /\ omap Commands.fetched d = [].
Proof.
  split; [exact I|].
  destruct (lobotomize_fails_closed Cases.platform
              (Commands.mkInteraction (Some 7%Z)) [] I)
    as (d & Hs & Hh & Hf & _).
  exists d. repeat split; assumption.
Defined.

(** X16 at work: in the lounge, what precedes [Demo.hello] is hidden. *)
Lemma lobotomize_hides_before_latest_witness :
  Commands.interaction_channel_id (Commands.mkInteraction (Some 100%Z))
  = Some 100%Z
  /\ Commands.env_get_channel Cases.platform [] 100 = Some Cases.lounge
  /\ Commands.is_Messageable Cases.lounge = true
  /\ Commands.cached_guild Cases.lounge = Some Cases.home
  /\ exists d,
       snd (Commands.lobotomize Cases.platform
              (Commands.mkInteraction (Some 100%Z)) []) = [] ++ d
       /\ omap Commands.fetched d = [(100%Z, 1)]
       /\ omap Commands.hidden d = [(100%Z, 1%Z)].
Proof.
  do 4 (split; [reflexivity|]).
  destruct (lobotomize_hides_before_latest Cases.platform
              (Commands.mkInteraction (Some 100%Z)) [] 100 Cases.lounge
              Cases.home eq_refl eq_refl eq_refl eq_refl)
    as (d & Hs & Hf & _ & H).
  exists d. split; [exact Hs|]. split; [exact Hf|].
  exact (proj1 H).
Defined.
